(** * doma: the record store (data.py), the handlers that write it
      (app.py), the event store (analytics.py) and the files of the QR
      codes (QRD.py), embedded and verified.

    The program is dynamically typed Python that reads and writes one JSON
    document.  The embedding therefore starts with a small model of the
    Python values the document can hold and of the builtins the source
    applies to them ([str], [float], [bool], [int], [round], [str.strip],
    [str.title], [dict.get], ...), each with the exception it raises.
    Python floats are IEEE binary64 numbers: they are the kernel's
    primitive floats here.  Text is modelled on its ASCII fragment: bytes
    above 127 are kept as they are and count as caseless, non-blank
    characters. *)

From Stdlib Require Import ZArith List String Ascii Bool Lia.
From Stdlib Require Import PrimFloat FloatOps SpecFloat DecimalString.
From Stdlib Require Import Sorting.Permutation Sorting.Sorted.
From stdpp Require Import base tactics option list.
Import ListNotations.

Set Warnings "-register-all".

Open Scope string_scope.
Open Scope list_scope.
Open Scope Z_scope.

(** ** Exceptions and results *)

Inductive exn : Type :=
| AttributeError | TypeError | ValueError | KeyError | IndexError | OverflowError.

Inductive result (A : Type) : Type :=
| Ok (a : A)
| Raise (e : exn).
Arguments Ok {A} a.
Arguments Raise {A} e.

Definition rbind {A B} (r : result A) (k : A -> result B) : result B :=
  match r with
  | Ok a => k a
  | Raise e => Raise e
  end.

Notation "'let*' x ':=' r 'in' k" := (rbind r (fun x => k))
  (at level 10, x name, r at level 100, k at level 200).

(** ** Text *)

Module Text.

Definition code (c : ascii) : Z := Z.of_N (N_of_ascii c).
Definition chr (z : Z) : ascii := ascii_of_N (Z.to_N z).

(** [str.isspace] on the ASCII range: TAB, LF, VT, FF, CR, the four
    separators FS GS RS US, and the space. *)
Definition is_space (c : ascii) : bool :=
  let n := code c in
  ((9 <=? n) && (n <=? 13)) || ((28 <=? n) && (n <=? 32)).

(** The blanks that [float] and [int] skip around a number in ASCII
    text: TAB, LF, VT, FF, CR and the space. *)
Definition is_c_space (c : ascii) : bool :=
  let n := code c in
  ((9 <=? n) && (n <=? 13)) || (n =? 32).

Definition is_lower (c : ascii) : bool :=
  let n := code c in (97 <=? n) && (n <=? 122).
Definition is_upper (c : ascii) : bool :=
  let n := code c in (65 <=? n) && (n <=? 90).
Definition is_digit (c : ascii) : bool :=
  let n := code c in (48 <=? n) && (n <=? 57).
Definition is_cased (c : ascii) : bool := is_lower c || is_upper c.

Definition to_lower (c : ascii) : ascii :=
  if is_upper c then chr (code c + 32) else c.
Definition to_upper (c : ascii) : ascii :=
  if is_lower c then chr (code c - 32) else c.

Fixpoint lstrip_by (blank : ascii -> bool) (s : string) : string :=
  match s with
  | String c s' => if blank c then lstrip_by blank s' else s
  | EmptyString => EmptyString
  end.

Fixpoint rstrip_by (blank : ascii -> bool) (s : string) : string :=
  match s with
  | String c s' =>
      match rstrip_by blank s' with
      | EmptyString => if blank c then EmptyString else String c EmptyString
      | r => String c r
      end
  | EmptyString => EmptyString
  end.

Definition strip_by (blank : ascii -> bool) (s : string) : string :=
  rstrip_by blank (lstrip_by blank s).

(** [s.strip()] *)
Definition strip (s : string) : string := strip_by is_space s.

(** [s.lower()] *)
Fixpoint lower (s : string) : string :=
  match s with
  | String c s' => String (to_lower c) (lower s')
  | EmptyString => EmptyString
  end.

(** [s.title()]: a cased character is upper-cased when the character
    before it is not cased and lower-cased when it is. *)
Fixpoint title_from (previous_is_cased : bool) (s : string) : string :=
  match s with
  | String c s' =>
      String (if previous_is_cased then to_lower c else to_upper c)
             (title_from (is_cased c) s')
  | EmptyString => EmptyString
  end.
Definition title (s : string) : string := title_from false s.

(** [needle in s] on two strings. *)
Fixpoint is_prefix (p s : string) : bool :=
  match p, s with
  | EmptyString, _ => true
  | String a p', String b s' => Ascii.eqb a b && is_prefix p' s'
  | String _ _, EmptyString => false
  end.
Fixpoint contains (needle s : string) : bool :=
  is_prefix needle s ||
  match s with
  | String _ s' => contains needle s'
  | EmptyString => false
  end.

Fixpoint chars (s : string) : list string :=
  match s with
  | String c s' => String c EmptyString :: chars s'
  | EmptyString => []
  end.

Fixpoint repeat (c : ascii) (n : nat) : string :=
  match n with
  | O => EmptyString
  | S n' => String c (repeat c n')
  end.

Fixpoint join (sep : string) (l : list string) : string :=
  match l with
  | [] => EmptyString
  | [x] => x
  | x :: rest => (x ++ sep ++ join sep rest)%string
  end.

(** Decimal rendering of an integer, as [str(int)] gives it. *)
Definition of_Z (z : Z) : string := NilZero.string_of_int (Z.to_int z).

End Text.

(** ** Floats: IEEE binary64, as Python's [float] *)

Module Float.

(** The binary64 number nearest to [num / den] (ties to even), with the
    sign [neg]; [num >= 0] and [den > 0].  The quotient is taken with at
    least 64 significant bits and a sticky bit for the remainder, which
    is all that rounding to 53 bits or fewer looks at. *)
Definition nearest (neg : bool) (num den : Z) : float :=
  if num =? 0 then (if neg then neg_zero else zero)
  else
    let s := Z.max 0 (64 + Z.log2_up den - Z.log2 num) in
    let scaled := num * 2 ^ s in
    let q := scaled / den in
    let sticky := if scaled mod den =? 0 then 0 else 1 in
    let m := 2 * q + sticky in
    SF2Prim (binary_normalize prec emax (if neg then - m else m) (- s - 1) false).

(** The float nearest to [m * 10 ^ e], [m >= 0]. *)
Definition of_decimal (neg : bool) (m e : Z) : float :=
  if 0 <=? e then nearest neg (m * 10 ^ e) 1 else nearest neg m (10 ^ (- e)).

(** [float(n)] on an integer: the nearest float, [OverflowError] when
    that is beyond the largest finite one. *)
Definition of_Z (n : Z) : result float :=
  let f := nearest (n <? 0) (Z.abs n) 1 in
  if is_infinity f then Raise OverflowError else Ok f.

Definition of_bool (b : bool) : float := if b then one else zero.

(** A finite non-zero float as sign, numerator and denominator. *)
Definition ratio (f : float) : option (bool * Z * Z) :=
  match Prim2SF f with
  | S754_finite s m e =>
      Some (s, Z.pos m * 2 ^ Z.max e 0, 2 ^ Z.max (- e) 0)
  | _ => None
  end.

(** *** Reading a float: [float(s)] on a string *)

Definition digit_val (c : ascii) : Z := Text.code c - 48.

(** digit ("_"? digit)*, after a first digit has been seen: the value so
    far, the number of digits read, and the rest of the text. *)
Fixpoint digits_from (acc : Z) (n : Z) (s : string) : Z * Z * string :=
  match s with
  | String c s' =>
      if Text.is_digit c then digits_from (10 * acc + digit_val c) (n + 1) s'
      else if Ascii.eqb c "_" then
        match s' with
        | String d s'' =>
            if Text.is_digit d
            then digits_from (10 * acc + digit_val d) (n + 1) s''
            else (acc, n, s)
        | EmptyString => (acc, n, s)
        end
      else (acc, n, s)
  | EmptyString => (acc, n, s)
  end.

(** An optional digit part, continuing the value [acc]. *)
Definition digitpart (acc : Z) (s : string) : Z * Z * string :=
  match s with
  | String c _ => if Text.is_digit c then digits_from acc 0 s else (acc, 0, s)
  | EmptyString => (acc, 0, s)
  end.

Definition sign_of (s : string) : bool * string :=
  match s with
  | String "-" s' => (true, s')
  | String "+" s' => (false, s')
  | _ => (false, s)
  end.

(** The optional exponent: [None] when an exponent mark is not followed
    by digits up to the end of the text. *)
Definition exponent (s : string) : option Z :=
  match s with
  | EmptyString => Some 0
  | String c s' =>
      if Ascii.eqb (Text.to_lower c) "e" then
        let '(neg, s'') := sign_of s' in
        match digitpart 0 s'' with
        | (v, n, EmptyString) =>
            if 0 <? n then Some (if neg then - v else v) else None
        | _ => None
        end
      else None
  end.

Definition parse (text : string) : option float :=
  let '(neg, body) := sign_of (Text.strip_by Text.is_c_space text) in
  let word := Text.lower body in
  if String.eqb word "inf" || String.eqb word "infinity"
  then Some (if neg then neg_infinity else infinity)
  else if String.eqb word "nan" then Some nan
  else
    let '(ip, ni, rest) := digitpart 0 body in
    let '(m, nf, rest') :=
      match rest with
      | String "." after => digitpart ip after
      | _ => (ip, 0, rest)
      end in
    if (ni + nf =? 0) then None
    else
      match exponent rest' with
      | Some e => Some (of_decimal neg m (e - nf))
      | None => None
      end.

(** *** Truncation: [int(f)] on a float *)
Definition trunc (f : float) : result Z :=
  if is_nan f then Raise ValueError
  else if is_infinity f then Raise OverflowError
  else match ratio f with
       | Some (s, num, den) => Ok (if s then - (num / den) else num / den)
       | None => Ok 0
       end.

(** *** Rounding to two decimals: [round(f, 2)]

    The exact value is rounded to a multiple of 1/100, halves to the
    even multiple, and the float nearest to that decimal is returned;
    non-finite values and zeros are returned as they are. *)
Definition half_even_div (num den : Z) : Z :=
  let q := num / den in
  let r := 2 * (num mod den) in
  if r <? den then q
  else if den <? r then q + 1
  else if Z.even q then q else q + 1.

Definition round2 (f : float) : float :=
  match ratio f with
  | Some (s, num, den) => of_decimal s (half_even_div (num * 100) den) (-2)
  | None => f
  end.

(** *** Printing: [repr(f)], the shortest decimal that reads back as [f] *)

(** The decimal point position [p] of a positive [num/den]:
    [10^(p-1) <= num/den < 10^p], searched upwards from [p]. *)
Fixpoint decpt_from (fuel : nat) (p num den : Z) : Z :=
  match fuel with
  | O => p
  | S fuel' =>
      let below := if 0 <=? p then num <? den * 10 ^ p
                   else num * 10 ^ (- p) <? den in
      if below then p else decpt_from fuel' (p + 1) num den
  end.
Definition decpt (num den : Z) : Z := decpt_from 640 (-325) num den.

(** [num/den] scaled by [10^(-k)], as a fraction. *)
Definition scaled (num den k : Z) : Z * Z :=
  if 0 <=? k then (num, den * 10 ^ k) else (num * 10 ^ (- k), den).

(** The [n]-digit decimal [c * 10^k] that reads back as [f], if one of
    the two neighbours of the exact value does: the nearer one, the even
    one when they are as near. *)
Definition candidate (f : float) (num den p : Z) (n : Z) : option (Z * Z) :=
  let k := p - n in
  let '(a, b) := scaled num den k in
  let lo := a / b in
  let hi := lo + 1 in
  let back c := PrimFloat.eqb (of_decimal false c k) f in
  let r := 2 * (a mod b) in
  let pick := if r <? b then [lo; hi]
              else if b <? r then [hi; lo]
              else if Z.even lo then [lo; hi] else [hi; lo] in
  match List.filter back pick with
  | c :: _ => Some (c, k)
  | [] => None
  end.

Fixpoint shortest (fuel : nat) (f : float) (num den p n : Z) : Z * Z :=
  match fuel with
  | O => (0, 0)
  | S fuel' =>
      match candidate f num den p n with
      | Some ck => ck
      | None => shortest fuel' f num den p (n + 1)
      end
  end.

(** Digits without trailing zeros: [c * 10^k] with [c] not a multiple of
    ten. *)
Fixpoint strip_zeros (fuel : nat) (c k : Z) : Z * Z :=
  match fuel with
  | O => (c, k)
  | S fuel' =>
      if (c mod 10 =? 0) && negb (c =? 0)
      then strip_zeros fuel' (c / 10) (k + 1) else (c, k)
  end.

Definition zeros (n : Z) : string := Text.repeat "0" (Z.to_nat n).

(** The digits [ds] with the decimal point after the first [p] of them,
    in the layout of [repr]: exponent form when [p <= -4] or [p > 16]. *)
Definition layout (ds : string) (p : Z) : string :=
  let len := Z.of_nat (String.length ds) in
  if (p <=? -4) || (16 <? p) then
    let e := p - 1 in
    let mant :=
      match ds with
      | String d EmptyString => ds
      | String d rest => String d (String "." rest)
      | EmptyString => ds
      end in
    let sgn := if e <? 0 then "-" else "+" in
    let pad := if Z.abs e <? 10 then "0" else "" in
    (mant ++ "e" ++ sgn ++ pad ++ Text.of_Z (Z.abs e))%string
  else if p <=? 0 then ("0." ++ zeros (- p) ++ ds)%string
  else if p <? len then
    (String.substring 0 (Z.to_nat p) ds ++ "."
       ++ String.substring (Z.to_nat p) (Z.to_nat (len - p)) ds)%string
  else (ds ++ zeros (p - len) ++ ".0")%string.

Definition repr (f : float) : string :=
  match Prim2SF f with
  | S754_nan => "nan"
  | S754_infinity s => if s then "-inf" else "inf"
  | S754_zero s => if s then "-0.0" else "0.0"
  | S754_finite s _ _ =>
      match ratio f with
      | Some (_, num, den) =>
          let p := decpt num den in
          let '(c, k) := shortest 17 (abs f) num den p 1 in
          let '(c', _) := strip_zeros 17 c k in
          let ds := Text.of_Z c' in
          (* [c] may have reached the next power of ten *)
          let p' := k + Z.of_nat (String.length (Text.of_Z c)) in
          let sgn := if s then "-" else "" in
          (sgn ++ layout ds p')%string
      | None => "nan"
      end
  end.

End Float.

(** ** Dictionaries: insertion-ordered, keyed by strings *)

Module Dict.
Section Entries.
Context {V : Type}.
Definition t := list (string * V).

Fixpoint get (k : string) (d : t) : option V :=
  match d with
  | [] => None
  | (k', v) :: d' => if String.eqb k k' then Some v else get k d'
  end.

Definition mem (k : string) (d : t) : bool :=
  match get k d with Some _ => true | None => false end.

(** [d[k] = v]: an existing key keeps its place, a new one goes last. *)
Fixpoint set (k : string) (v : V) (d : t) : t :=
  match d with
  | [] => [(k, v)]
  | (k', v') :: d' =>
      if String.eqb k k' then (k, v) :: d' else (k', v') :: set k v d'
  end.

(** [d.update(new)] *)
Fixpoint update (d new : t) : t :=
  match new with
  | [] => d
  | (k, v) :: new' => update (set k v d) new'
  end.

Definition keys (d : t) : list string := List.map fst d.
End Entries.
Arguments t : clear implicits.
End Dict.

(** ** Values and builtins *)

Inductive value : Type :=
| VNone
| VBool (b : bool)
| VInt (n : Z)
| VFloat (f : float)
| VStr (s : string)
| VList (items : list value)
| VDict (entries : list (string * value)).

Module Py.

Definition in_strings (k : string) (l : list string) : bool :=
  existsb (String.eqb k) l.

(** [bool(v)] *)
Definition truthy (v : value) : bool :=
  match v with
  | VNone => false
  | VBool b => b
  | VInt n => negb (n =? 0)
  | VFloat f => negb (is_zero f)
  | VStr s => negb (String.eqb s "")
  | VList l => match l with [] => false | _ => true end
  | VDict d => match d with [] => false | _ => true end
  end.

(** *** [repr] and [str] *)

Definition hex_digit (n : Z) : ascii :=
  if n <? 10 then Text.chr (48 + n) else Text.chr (87 + n).

Fixpoint has_char (c : ascii) (s : string) : bool :=
  match s with
  | String c' s' => Ascii.eqb c c' || has_char c s'
  | EmptyString => false
  end.

Fixpoint escape (quote : ascii) (s : string) : string :=
  match s with
  | EmptyString => EmptyString
  | String c s' =>
      let n := Text.code c in
      let rest := escape quote s' in
      if Ascii.eqb c quote || Ascii.eqb c "\" then String "\" (String c rest)
      else if n =? 9 then String "\" (String "t" rest)
      else if n =? 10 then String "\" (String "n" rest)
      else if n =? 13 then String "\" (String "r" rest)
      else if (n <? 32) || (n =? 127) then
        String "\" (String "x" (String (hex_digit (n / 16))
                                 (String (hex_digit (n mod 16)) rest)))
      else String c rest
  end.

(** [repr(s)] on a string: single quotes unless the text has a single
    quote and no double quote. *)
Definition double_quote : ascii := Text.chr 34.

Definition repr_str (s : string) : string :=
  let quote : ascii :=
    if has_char "'" s && negb (has_char double_quote s) then double_quote
    else "'"%char in
  String quote (escape quote s ++ String quote EmptyString)%string.

Fixpoint repr (v : value) : string :=
  match v with
  | VNone => "None"
  | VBool b => if b then "True" else "False"
  | VInt n => Text.of_Z n
  | VFloat f => Float.repr f
  | VStr s => repr_str s
  | VList l => ("[" ++ Text.join ", " (List.map repr l) ++ "]")%string
  | VDict d =>
      ("{" ++ Text.join ", "
                (List.map (fun kv => (repr_str (fst kv) ++ ": " ++ repr (snd kv))%string) d)
           ++ "}")%string
  end.

(** [str(v)] *)
Definition str (v : value) : string :=
  match v with
  | VStr s => s
  | _ => repr v
  end.

(** *** Conversions *)

(** [float(v)] *)
Definition float_of (v : value) : result float :=
  match v with
  | VFloat f => Ok f
  | VInt n => Float.of_Z n
  | VBool b => Ok (Float.of_bool b)
  | VStr s => match Float.parse s with
              | Some f => Ok f
              | None => Raise ValueError
              end
  | VNone | VList _ | VDict _ => Raise TypeError
  end.

(** The decimal integers [int] reads: blanks, a sign, digits with single
    underscores between them. *)
Definition parse_int (text : string) : option Z :=
  let '(neg, body) := Float.sign_of (Text.strip_by Text.is_c_space text) in
  match Float.digitpart 0 body with
  | (v, n, EmptyString) => if 0 <? n then Some (if neg then - v else v) else None
  | _ => None
  end.

(** [int(v)] *)
Definition int_of (v : value) : result Z :=
  match v with
  | VInt n => Ok n
  | VBool b => Ok (if b then 1 else 0)
  | VFloat f => Float.trunc f
  | VStr s => match parse_int s with
              | Some n => Ok n
              | None => Raise ValueError
              end
  | VNone | VList _ | VDict _ => Raise TypeError
  end.

(** [len(v)] *)
Definition len (v : value) : result Z :=
  match v with
  | VStr s => Ok (Z.of_nat (String.length s))
  | VList l => Ok (Z.of_nat (List.length l))
  | VDict d => Ok (Z.of_nat (List.length d))
  | VNone | VBool _ | VInt _ | VFloat _ => Raise TypeError
  end.

Definition is_str (k : string) (v : value) : bool :=
  match v with VStr s => String.eqb k s | _ => false end.

(** [k in v] for a string [k]: a key of a dict, an element of a list,
    a piece of a string. *)
Definition contains (k : string) (v : value) : result bool :=
  match v with
  | VDict d => Ok (Dict.mem k d)
  | VList l => Ok (existsb (is_str k) l)
  | VStr s => Ok (Text.contains k s)
  | VNone | VBool _ | VInt _ | VFloat _ => Raise TypeError
  end.

(** [v.get(k, default)]: only a dict has the method. *)
Definition get (v : value) (k : string) (default : value) : result value :=
  match v with
  | VDict d => Ok (match Dict.get k d with Some x => x | None => default end)
  | _ => Raise AttributeError
  end.

(** [v[k]] for a string [k] *)
Definition getitem (v : value) (k : string) : result value :=
  match v with
  | VDict d => match Dict.get k d with
               | Some x => Ok x
               | None => Raise KeyError
               end
  | _ => Raise TypeError
  end.

(** [v[i]] for an integer [i >= 0]; the keys of a dict are strings, so
    no integer is one. *)
Definition getindex (v : value) (i : Z) : result value :=
  match v with
  | VList l => match l !! Z.to_nat i with
               | Some x => Ok x
               | None => Raise IndexError
               end
  | VStr s => match String.get (Z.to_nat i) s with
              | Some c => Ok (VStr (String c EmptyString))
              | None => Raise IndexError
              end
  | VDict _ => Raise KeyError
  | VNone | VBool _ | VInt _ | VFloat _ => Raise TypeError
  end.

(** [v[k] = x] for a string [k]: the container after the assignment. *)
Definition setitem (v : value) (k : string) (x : value) : result value :=
  match v with
  | VDict d => Ok (VDict (Dict.set k x d))
  | _ => Raise TypeError
  end.

(** [v.items()] *)
Definition items (v : value) : result (list (string * value)) :=
  match v with
  | VDict d => Ok d
  | _ => Raise AttributeError
  end.

(** [for item in v]: the elements of a list, the characters of a
    string, the keys of a dict. *)
Definition iter (v : value) : result (list value) :=
  match v with
  | VList l => Ok l
  | VStr s => Ok (List.map VStr (Text.chars s))
  | VDict d => Ok (List.map VStr (Dict.keys d))
  | VNone | VBool _ | VInt _ | VFloat _ => Raise TypeError
  end.

(** [v + 1] *)
Definition add_one (v : value) : result value :=
  match v with
  | VInt n => Ok (VInt (n + 1))
  | VBool b => Ok (VInt ((if b then 1 else 0) + 1))
  | VFloat f => Ok (VFloat (f + 1)%float)
  | VNone | VStr _ | VList _ | VDict _ => Raise TypeError
  end.

End Py.

(** ** The world of data.py: the document on disk and the clock *)

(** [data.json] is absent, holds text (bytes that decode as UTF-8) that
    [json.load] rejects, or holds a document.  [json.dump] followed by
    [json.load] gives back the value written, so a stored document is
    kept as its value. *)
Inductive file : Type :=
| Absent
| Malformed (raw : string)
| Document (doc : value).

Record world : Type := mkWorld {
  data_json : file;                      (* DATA_FILE *)
  side_files : list (string * string);   (* other files next to it: name, text *)
  clock : float                          (* what [time.time()] returns *)
}.

(** Computations on the world that return a value or raise. *)
Definition M (A : Type) : Type := world -> result A * world.

Definition ret {A} (a : A) : M A := fun w => (Ok a, w).
Definition raise {A} (e : exn) : M A := fun w => (Raise e, w).
Definition bind {A B} (m : M A) (k : A -> M B) : M B :=
  fun w => match m w with
           | (Ok a, w') => k a w'
           | (Raise e, w') => (Raise e, w')
           end.
Definition lift {A} (r : result A) : M A := fun w => (r, w).

Notation "'let!' x ':=' m 'in' k" := (bind m (fun x => k))
  (at level 10, x name, m at level 100, k at level 200).

Definition DATA_FILE : string := "data.json".
Definition VALID_ITEM_FIELDS : list string :=
  ["name"; "name_ur"; "price"; "image_url"; "category";
   "is_available"; "is_chefs_special"].
Definition VALID_THEMES : list string := ["default"; "traditional"].

(** [VALID_SLUG_PATTERN.match(slug)] for [^[a-z0-9-]+$]: one or more of
    the characters, up to the end of the text or to a line feed that ends
    it (what [$] matches). *)
Definition slug_char (c : ascii) : bool :=
  Text.is_lower c || Text.is_digit c || Ascii.eqb c "-".

Fixpoint slug_tail (s : string) : bool :=
  match s with
  | EmptyString => true
  | String c s' =>
      if slug_char c then slug_tail s'
      else (Text.code c =? 10) && String.eqb s' ""
  end.

Definition VALID_SLUG_PATTERN (slug : string) : bool :=
  match slug with
  | String c s' => slug_char c && slug_tail s'
  | EmptyString => false
  end.

(** The names of the [os] module that this program uses.  The module has
    no [time]: the clock is [time.time]. *)
Definition os_names : list string :=
  ["path"; "environ"; "fdopen"; "unlink"; "remove"; "makedirs"].

(** [os.time()] *)
Definition os_time : M float :=
  fun w => if Py.in_strings "time" os_names
           then (Ok (clock w), w) else (Raise AttributeError, w).

(** [time.time()] *)
Definition time_time : M float := fun w => (Ok (clock w), w).

(** [shutil.move(DATA_FILE, backup)] on the unreadable text [raw]. *)
Definition move_data_file (raw backup : string) : M unit :=
  fun w => (Ok tt, {| data_json := Absent;
                      side_files := Dict.set backup raw (side_files w);
                      clock := clock w |}).

Definition load_data : M value :=
  fun w =>
    match data_json w with
    | Absent => (Ok (VDict []), w)
    | Document doc => (Ok doc, w)
    | Malformed raw =>
        (* except json.JSONDecodeError: *)
        (let! t := os_time in
         let! n := lift (Float.trunc t) in
         let backup := (DATA_FILE ++ ".corrupt." ++ Text.of_Z n)%string in
         let! _ := move_data_file raw backup in
         ret (VDict [])) w
    end.

(** The temporary file is renamed over [data.json]: the document is
    replaced as a whole. *)
Definition save_data (data : value) : M unit :=
  fun w => (Ok tt, {| data_json := Document data;
                      side_files := side_files w;
                      clock := clock w |}).

Definition get_restaurants : M value := load_data.

(** [deepcopy] of a value is the value. *)
Definition get_restaurant (slug : string) : M value :=
  let! data := load_data in
  lift (Py.get data slug VNone).

Definition update_restaurant (slug : string) (new_restaurant : value) : M bool :=
  if negb (VALID_SLUG_PATTERN slug) then ret false
  else
    let! data := load_data in
    let! data' := lift (Py.setitem data slug new_restaurant) in
    let! _ := save_data data' in
    ret true.

(** *** update_menu_item *)

(** The loop over [fields.items()]: [Ok None] is [return False]. *)
Fixpoint validate_fields (fields valid_fields : list (string * value))
  : result (option (list (string * value))) :=
  match fields with
  | [] => Ok (Some valid_fields)
  | (k, v) :: fields' =>
      if negb (Py.in_strings k VALID_ITEM_FIELDS) then
        validate_fields fields' valid_fields
      else if String.eqb k "price" then
        match Py.float_of v with
        | Ok price =>
            if (price <? 0)%float || (999999 <? price)%float then Ok None
            else validate_fields fields'
                   (Dict.set k (VFloat (Float.round2 price)) valid_fields)
        | Raise ValueError | Raise TypeError => Ok None
        | Raise e => Raise e
        end
      else if Py.in_strings k ["is_available"; "is_chefs_special"] then
        validate_fields fields' (Dict.set k (VBool (Py.truthy v)) valid_fields)
      else if String.eqb k "category" then
        validate_fields fields'
          (Dict.set k (VStr (Text.title (Text.strip (Py.str v)))) valid_fields)
      else
        validate_fields fields'
          (Dict.set k (VStr (if Py.truthy v then Text.strip (Py.str v) else ""))
             valid_fields)
  end.

(** [rest['menu'][idx].update(valid_fields)], the item changed in place:
    the document after it. *)
Definition update_item_in_place (data rest menu : value) (slug : string)
    (idx : Z) (valid_fields : list (string * value)) : result value :=
  let* item := Py.getindex menu idx in
  match item, menu with
  | VDict fields, VList items =>
      let menu' := VList (<[Z.to_nat idx := VDict (Dict.update fields valid_fields)]> items) in
      let* rest' := Py.setitem rest "menu" menu' in
      Py.setitem data slug rest'
  | _, _ => Raise AttributeError
  end.

(** The body of the [try], with [return False] as [Ok false]. *)
Definition update_menu_item_try (data rest : value) (slug : string)
    (index : value) (valid_fields : list (string * value)) : M bool :=
  let! idx := lift (Py.int_of index) in
  if idx <? 0 then ret false
  else
    let! menu := lift (Py.getitem rest "menu") in
    let! n := lift (Py.len menu) in
    if n <=? idx then ret false
    else
      let! data' := lift (update_item_in_place data rest menu slug idx valid_fields) in
      let! _ := save_data data' in
      ret true.

(** [except (ValueError, TypeError): return False] *)
Definition except_value_type (m : M bool) : M bool :=
  fun w => match m w with
           | (Raise ValueError, w') | (Raise TypeError, w') => (Ok false, w')
           | r => r
           end.

Definition update_menu_item (slug : string) (index fields : value) : M bool :=
  let! entries := lift (Py.items fields) in
  let! checked := lift (validate_fields entries []) in
  match checked with
  | None => ret false
  | Some valid_fields =>
      if negb (Py.truthy (VDict valid_fields)) then ret false
      else
        let! data := load_data in
        let! rest := lift (Py.get data slug VNone) in
        if negb (Py.truthy rest) then ret false
        else
          let! has_menu := lift (Py.contains "menu" rest) in
          if negb has_menu then ret false
          else except_value_type
                 (update_menu_item_try data rest slug index valid_fields)
  end.

(** *** create_restaurant *)

Definition is_dict (v : value) : bool :=
  match v with VDict _ => true | _ => false end.

(** [isinstance(item, dict) and 'name' in item] *)
Definition has_name (item : value) : bool :=
  match item with
  | VDict d => Dict.mem "name" d
  | _ => false
  end.

Definition or_else (s default : string) : string :=
  if String.eqb s "" then default else s.

(** The item that the loop appends for an entry with a name. *)
Definition clean_item (item : value) : result value :=
  let* name := Py.get item "name" (VStr "") in
  let* name_ur := Py.get item "name_ur" (VStr "") in
  let* price_in := Py.get item "price" (VInt 0) in
  let* price := Py.float_of price_in in
  let* image_url := Py.get item "image_url" (VStr "") in
  let* category := Py.get item "category" (VStr "Main Course") in
  let* is_available := Py.get item "is_available" (VBool true) in
  let* is_chefs_special := Py.get item "is_chefs_special" (VBool false) in
  Ok (VDict
        [("name", VStr (Text.strip (Py.str name)));
         ("name_ur", VStr (Text.strip (Py.str name_ur)));
         ("price", VFloat price);
         ("image_url", VStr (Text.strip (Py.str image_url)));
         ("category",
           VStr (or_else (Text.title (Text.strip (Py.str category))) "Main Course"));
         ("is_available", VBool (Py.truthy is_available));
         ("is_chefs_special", VBool (Py.truthy is_chefs_special))]).

(** The loop over the draft's menu: entries that are not dicts or have no
    [name] are passed over. *)
Fixpoint clean_menu (items : list value) : result (list value) :=
  match items with
  | [] => Ok []
  | item :: items' =>
      if has_name item then
        let* cleaned := clean_item item in
        let* rest := clean_menu items' in
        Ok (cleaned :: rest)
      else clean_menu items'
  end.

Definition create_restaurant (slug : string) (restaurant : value)
    (default_theme : string) : M bool :=
  if negb (VALID_SLUG_PATTERN slug) then ret false
  else
    let default_theme :=
      if Py.in_strings default_theme VALID_THEMES then default_theme else "default" in
    let! data := load_data in
    let! taken := lift (Py.contains slug data) in
    if taken then ret false
    else
      let! name := lift (Py.get restaurant "name" (VStr slug)) in
      let! name_ur := lift (Py.get restaurant "name_ur" (VStr "")) in
      let! whatsapp := lift (Py.get restaurant "whatsapp" (VStr "")) in
      let! created_at := time_time in
      let! menu_in := lift (Py.get restaurant "menu" (VList [])) in
      let! entries := lift (Py.iter menu_in) in
      let! menu := lift (clean_menu entries) in
      let rest :=
        VDict [("name", VStr (or_else (Text.strip (Py.str name)) slug));
               ("name_ur", VStr (Text.strip (Py.str name_ur)));
               ("whatsapp", VStr (Text.strip (Py.str whatsapp)));
               ("menu", VList menu);
               ("theme", VStr default_theme);
               ("created_at", VFloat created_at)] in
      let! data' := lift (Py.setitem data slug rest) in
      let! _ := save_data data' in
      ret true.

(** *** Click counters kept in the document *)

Definition get_analytics (slug : string) : M value :=
  let! data := load_data in
  let! rest := lift (Py.get data slug (VDict [])) in
  let! total_clicks := lift (Py.get rest "total_clicks" (VInt 0)) in
  let! item_clicks := lift (Py.get rest "item_clicks" (VDict [])) in
  ret (VDict [("total_clicks", total_clicks); ("item_clicks", item_clicks)]).

(** [rest['analytics']['total'] += 1] *)
Definition bump_total (rest : value) : result value :=
  let* analytics := Py.getitem rest "analytics" in
  let* total := Py.getitem analytics "total" in
  let* total' := Py.add_one total in
  let* analytics' := Py.setitem analytics "total" total' in
  Py.setitem rest "analytics" analytics'.

(** [rest['analytics']['items'][idx] = rest['analytics']['items'].get(idx, 0) + 1] *)
Definition bump_item (rest : value) (idx : string) : result value :=
  let* analytics := Py.getitem rest "analytics" in
  let* items := Py.getitem analytics "items" in
  let* count := Py.get items idx (VInt 0) in
  let* count' := Py.add_one count in
  let* items' := Py.setitem items idx count' in
  let* analytics' := Py.setitem analytics "items" items' in
  Py.setitem rest "analytics" analytics'.

Definition track_click (slug : string) (item_index : value) : M bool :=
  let! data := load_data in
  let! rest := lift (Py.get data slug VNone) in
  if negb (Py.truthy rest) then ret false
  else
    let! has_analytics := lift (Py.contains "analytics" rest) in
    let! rest1 :=
      lift (if has_analytics then Ok rest
            else Py.setitem rest "analytics"
                   (VDict [("total", VInt 0); ("items", VDict [])])) in
    let! rest2 := lift (bump_total rest1) in
    let! rest3 :=
      lift (match item_index with
            | VNone => Ok rest2
            | _ => bump_item rest2 (Py.str item_index)
            end) in
    let! data' := lift (Py.setitem data slug rest3) in
    let! _ := save_data data' in
    ret true.

(** ** app.py: the item-update handler *)

Definition allowed : list string :=
  ["price"; "is_available"; "is_chefs_special"; "name"; "name_ur";
   "image_url"; "category"].

(** The fields the handler passes on: those of the request body that are
    allowed, with a string under [is_available] replaced by whether its
    lower-case form is one of "1", "true", "yes". *)
Definition request_fields (data : list (string * value)) : list (string * value) :=
  let fields := List.filter (fun kv => Py.in_strings (fst kv) allowed) data in
  match Dict.get "is_available" fields with
  | Some (VStr val) =>
      Dict.set "is_available"
        (VBool (Py.in_strings (Text.lower val) ["1"; "true"; "yes"])) fields
  | _ => fields
  end.

(** [api_update_item(slug, index)] with the parsed body of the request
    ([VNone] when there is none): the status of the response. *)
Definition api_update_item (slug : string) (index : Z) (body : value) : M Z :=
  let data := if Py.truthy body then body else VDict [] in
  let! entries := lift (Py.items data) in
  let! success := update_menu_item slug (VInt index) (VDict (request_fields entries)) in
  ret (if success then 200 else 400).

(** ** analytics.py: the event store *)

Module Analytics.

(** A [datetime], compared field by field from the year down. *)
Record datetime : Type := mkDatetime {
  year : Z; month : Z; day : Z;
  hour : Z; minute : Z; second : Z; microsecond : Z
}.

Definition fields_of (d : datetime) : list Z :=
  [year d; month d; day d; hour d; minute d; second d; microsecond d].

Fixpoint lex_compare (a b : list Z) : comparison :=
  match a, b with
  | x :: a', y :: b' =>
      match x ?= y with
      | Eq => lex_compare a' b'
      | c => c
      end
  | [], [] => Eq
  | [], _ :: _ => Lt
  | _ :: _, [] => Gt
  end.

Definition dt_compare (a b : datetime) : comparison :=
  lex_compare (fields_of a) (fields_of b).
(** [a <= b] and [a < b] on datetimes *)
Definition dt_leb (a b : datetime) : bool :=
  match dt_compare a b with Gt => false | _ => true end.
Definition dt_ltb (a b : datetime) : bool :=
  match dt_compare a b with Lt => true | _ => false end.

(** *** Calendar arithmetic, as [datetime] does it *)

Definition is_leap (y : Z) : bool :=
  (y mod 4 =? 0) && (negb (y mod 100 =? 0) || (y mod 400 =? 0)).

Definition days_in_month (y m : Z) : Z :=
  if m =? 2 then (if is_leap y then 29 else 28)
  else if (m =? 4) || (m =? 6) || (m =? 9) || (m =? 11) then 30
  else 31.

Definition days_before_year (y : Z) : Z :=
  let p := y - 1 in p * 365 + p / 4 - p / 100 + p / 400.

Fixpoint days_before_month_from (fuel : nat) (y m k : Z) : Z :=
  match fuel with
  | O => 0
  | S fuel' =>
      if m <=? k then 0
      else days_in_month y k + days_before_month_from fuel' y m (k + 1)
  end.
Definition days_before_month (y m : Z) : Z := days_before_month_from 12 y m 1.

(** The day number of a date, 1 for 1 January of year 1. *)
Definition ymd2ord (y m d : Z) : Z :=
  days_before_year y + days_before_month y m + d.

(** The month and day of the [n]-th day (from 0) of year [y]. *)
Fixpoint month_day_from (fuel : nat) (y m n : Z) : Z * Z :=
  match fuel with
  | O => (m, n + 1)
  | S fuel' =>
      let len := days_in_month y m in
      if n <? len then (m, n + 1) else month_day_from fuel' y (m + 1) (n - len)
  end.

Definition ord2ymd (ord : Z) : Z * Z * Z :=
  let n := ord - 1 in
  let n400 := n / 146097 in
  let n := n mod 146097 in
  let n100 := n / 36524 in
  let n := n mod 36524 in
  let n4 := n / 1461 in
  let n := n mod 1461 in
  let n1 := n / 365 in
  let n := n mod 365 in
  let y := n400 * 400 + 1 + n100 * 100 + n4 * 4 + n1 in
  if (n1 =? 4) || (n100 =? 4) then (y - 1, 12, 31)
  else let '(m, d) := month_day_from 11 y 1 n in (y, m, d).

Definition MINYEAR : Z := 1.
Definition MAXYEAR : Z := 9999.

(** An integer that a C [int] holds: [datetime] converts its arguments
    to one before it looks at their ranges. *)
Definition c_int (z : Z) : bool := (- 2 ^ 31 <=? z) && (z <? 2 ^ 31).

(** [datetime(year, month, 1)]: [OverflowError] for an argument beyond a
    C [int], [ValueError] for a year or month out of range. *)
Definition first_of_month (y m : Z) : result datetime :=
  if negb (c_int y && c_int m) then Raise OverflowError
  else if (MINYEAR <=? y) && (y <=? MAXYEAR) && (1 <=? m) && (m <=? 12)
  then Ok (mkDatetime y m 1 0 0 0 0)
  else Raise ValueError.

(** [d - timedelta(days=n)] *)
Definition minus_days (d : datetime) (n : Z) : result datetime :=
  if 999999999 <? Z.abs n then Raise OverflowError
  else
    let ord := ymd2ord (year d) (month d) (day d) - n in
    if (ord <? 1) || (ymd2ord MAXYEAR 12 31 <? ord) then Raise OverflowError
    else
      let '(y, m, dd) := ord2ymd ord in
      Ok (mkDatetime y m dd (hour d) (minute d) (second d) (microsecond d)).

(** *** The events table *)

Record event : Type := mkEvent {
  ev_slug : string;
  ev_type : string;
  item_index : option Z;     (* NULL for a click on no item *)
  ts : datetime              (* CURRENT_TIMESTAMP at the insert *)
}.

(** The rows of [events], oldest first. *)
Definition table : Type := list event.

(** An item index that the INTEGER column takes: NULL or a signed
    64-bit integer. *)
Definition fits_integer (item_index : option Z) : bool :=
  match item_index with
  | None => true
  | Some i => (- 2 ^ 63 <=? i) && (i <? 2 ^ 63)
  end.

(** [record_event], with the time [now] that the database stamps: the
    outcome and the table after the call.  Binding an integer beyond 64
    bits raises [OverflowError] and the transaction adds no row. *)
Definition record_event (now : datetime) (slug etype : string)
    (item_index : option Z) (events : table) : result unit * table :=
  if fits_integer item_index
  then (Ok tt, events ++ [mkEvent slug etype item_index now])
  else (Raise OverflowError, events).

Definition record_scan (now : datetime) (slug : string)
  : table -> result unit * table :=
  record_event now slug "scan" None.

Definition record_click (now : datetime) (slug : string)
    (item_index : option Z) : table -> result unit * table :=
  record_event now slug "click" item_index.

(** The table after a call. *)
Definition after (call : table -> result unit * table) (events : table) : table :=
  snd (call events).

(** *** Queries *)

Definition index_eqb (a b : option Z) : bool :=
  match a, b with
  | Some x, Some y => x =? y
  | None, None => true
  | _, _ => false
  end.

(** [GROUP BY item_index] with [COUNT( * )]: one group for every
    distinct index, the NULLs together in one. *)
Fixpoint count_in (k : option Z) (groups : list (option Z * Z)) : list (option Z * Z) :=
  match groups with
  | [] => [(k, 1)]
  | (k', c) :: groups' =>
      if index_eqb k k' then (k', c + 1) :: groups'
      else (k', c) :: count_in k groups'
  end.

Definition group_by_index (rows : list event) : list (option Z * Z) :=
  fold_left (fun groups e => count_in (item_index e) groups) rows [].

(** [ORDER BY cnt DESC]: SQL leaves the order of equal counts open; here
    they keep the order of the groups. *)
Fixpoint place (g : option Z * Z) (sorted : list (option Z * Z)) : list (option Z * Z) :=
  match sorted with
  | [] => [g]
  | h :: sorted' =>
      if snd h <? snd g then g :: h :: sorted' else h :: place g sorted'
  end.

Definition order_by_cnt_desc (groups : list (option Z * Z)) : list (option Z * Z) :=
  fold_left (fun sorted g => place g sorted) groups [].

(** [SELECT item_index, COUNT( * ) ... GROUP BY item_index ORDER BY cnt DESC LIMIT n] *)
Definition top_items (limit : nat) (rows : list event) : list (option Z * Z) :=
  firstn limit (order_by_cnt_desc (group_by_index rows)).

(** [WHERE slug=:slug AND type=... AND ts>=:start AND ts<:end] *)
Definition in_window (slug etype : string) (start stop : datetime) (e : event) : bool :=
  String.eqb (ev_slug e) slug && String.eqb (ev_type e) etype
  && dt_leb start (ts e) && dt_ltb (ts e) stop.

(** [WHERE slug=:slug AND type="click" AND ts>=:since] *)
Definition since_window (slug : string) (since : datetime) (e : event) : bool :=
  String.eqb (ev_slug e) slug && String.eqb (ev_type e) "click"
  && dt_leb since (ts e).

Record summary : Type := mkSummary {
  s_year : Z; s_month : Z; scans : Z; clicks : Z;
  top : list (option Z * Z)       (* index, clicks *)
}.

Definition count_rows (p : event -> bool) (events : table) : Z :=
  Z.of_nat (List.length (List.filter p events)).

(** [get_monthly_summary(slug, year, month)] at the time [now]. *)
Definition get_monthly_summary (now : datetime) (events : table)
    (slug : string) (year_arg month_arg : option Z) : result summary :=
  let y := match year_arg with Some y => y | None => year now end in
  let m := match month_arg with Some m => m | None => month now end in
  let* start := first_of_month y m in
  let* stop := if m =? 12 then first_of_month (y + 1) 1
               else first_of_month y (m + 1) in
  Ok {| s_year := y; s_month := m;
        scans := count_rows (in_window slug "scan" start stop) events;
        clicks := count_rows (in_window slug "click" start stop) events;
        top := top_items 10 (List.filter (in_window slug "click" start stop) events) |}.

(** [get_top_items(slug, since_days)] at the time [now]. *)
Definition get_top_items (now : datetime) (events : table)
    (slug : string) (since_days : Z) : result (list (option Z * Z)) :=
  let* since := minus_days now since_days in
  Ok (top_items 20 (List.filter (since_window slug since) events)).

End Analytics.

(** ** Notions and sample inputs of the properties *)

(** A draft whose one menu item has a negative price. *)
Definition negative_price_draft : value :=
  VDict [("name", VStr "Cafe");
         ("menu", VList [VDict [("name", VStr "Tea"); ("price", VInt (-5))]])].

Definition empty_world (now : float) : world := mkWorld Absent [] now.

(** A series of calls of [track_click] on one slug, one for each item
    index of [clicks] ([VNone] for a click on no item): the world after
    them, whatever each call returned or raised. *)
Fixpoint track_clicks (slug : string) (clicks : list value) (w : world) : world :=
  match clicks with
  | [] => w
  | item_index :: clicks' =>
      track_clicks slug clicks' (snd (track_click slug item_index w))
  end.

(** Two records that differ at most under the key [analytics]. *)
Definition same_off_analytics (a b : value) : Prop :=
  exists da db, a = VDict da /\ b = VDict db /\
    forall k, k <> "analytics" -> Dict.get k db = Dict.get k da.

(** A store with one restaurant, as [create_restaurant] leaves it. *)
Definition tea_item (price : float) (available : bool) : list (string * value) :=
  [("name", VStr "Tea"); ("name_ur", VStr ""); ("price", VFloat price);
   ("image_url", VStr ""); ("category", VStr "Main Course");
   ("is_available", VBool available); ("is_chefs_special", VBool false)].

Definition cafe_record (price : float) (available : bool) : list (string * value) :=
  [("name", VStr "Cafe"); ("name_ur", VStr ""); ("whatsapp", VStr "");
   ("menu", VList [VDict (tea_item price available)]);
   ("theme", VStr "default"); ("created_at", VFloat 0)].

Definition cafe_world (price : float) (available : bool) : world :=
  mkWorld (Document (VDict [("cafe", VDict (cafe_record price available))])) [] 0%float.



(** The prices that the check of [update_menu_item] turns down: a value
    that [float] refuses with [ValueError] or [TypeError], and a float
    below 0 or above 999999. *)
Definition price_rejected (v : value) : bool :=
  match Py.float_of v with
  | Ok price => (price <? 0)%float || (999999 <? price)%float
  | Raise ValueError | Raise TypeError => true
  | Raise _ => false
  end.

(** The world after item [i] of the menu of [slug] got the price [price]. *)
Definition with_price (w : world) (slug : string) (d rest : list (string * value))
    (items : list value) (i : nat) (item : list (string * value)) (price : float) : world :=
  mkWorld (Document (VDict (Dict.set slug
     (VDict (Dict.set "menu"
        (VList (<[i := VDict (Dict.set "price" (VFloat price) item)]> items)) rest)) d)))
    (side_files w) (clock w).

(** The words that the handler reads as true. *)
Definition true_words : list string := ["1"; "true"; "yes"].

(** An entry of a draft's menu whose price [float] accepts (0 when the
    entry gives none). *)
Definition price_converts (item : value) : bool :=
  match Py.get item "price" (VInt 0) with
  | Ok price =>
      match Py.float_of price with
      | Ok _ => true
      | Raise _ => false
      end
  | Raise _ => false
  end.

(** A draft with three entries that the loop passes over (a number, a
    dict without [name], a string) around one that it keeps. *)
Definition mixed_draft : list (string * value) :=
  [("name", VStr " Cafe ");
   ("menu", VList [VInt 3;
                   VDict [("price", VInt 4)];
                   VDict [("name", VStr " Tea "); ("price", VStr "2.50");
                          ("category", VStr "hot drinks")];
                   VStr "name"])].

(** *** Notions for the event store *)

Module Events.
Import Analytics.

(** A timestamp as the database stamps it: a month of the calendar, a
    day from 1, a time of day from 0. *)
Definition valid_ts (t : datetime) : Prop :=
  1 <= month t <= 12 /\ 1 <= day t /\ 0 <= hour t /\ 0 <= minute t
  /\ 0 <= second t /\ 0 <= microsecond t.

(** An event of [slug] and type [etype] stamped in month [m] of year [y]. *)
Definition in_month (slug etype : string) (y m : Z) (e : event) : bool :=
  String.eqb (ev_slug e) slug && String.eqb (ev_type e) etype
  && (year (ts e) =? y) && (month (ts e) =? m).

(** The number of [rows] with the item index [k] ([None]: no item). *)
Definition clicks_on (k : option Z) (rows : list event) : Z :=
  count_rows (fun e => index_eqb k (item_index e)) rows.

(** The count that a grouping has for the index [k], 0 when it has no
    group for it. *)
Fixpoint group_count (k : option Z) (groups : list (option Z * Z)) : Z :=
  match groups with
  | [] => 0
  | (k', c) :: groups' => if index_eqb k k' then c else group_count k groups'
  end.

(** Descending by count. *)
Definition desc (a b : option Z * Z) : Prop := snd b <= snd a.

(** A result [t] of the top-items query with the limit [limit] over
    [rows]: at most [limit] entries in descending order of count, one
    for an index at most, each with the number of rows of its index, and
    an index with rows is left out only when [limit] entries are there,
    none with fewer rows than it. *)
Definition is_top (limit : nat) (rows : list event) (t : list (option Z * Z)) : Prop :=
  (length t <= limit)%nat
  /\ StronglySorted desc t
  /\ List.NoDup (List.map fst t)
  /\ (forall k c, In (k, c) t -> c = clicks_on k rows /\ 0 < c)
  /\ (forall k, 0 < clicks_on k rows ->
        In (k, clicks_on k rows) t
        \/ (length t = limit /\ forall g, In g t -> clicks_on k rows <= snd g)).

Definition at_ (y m d h mi s : Z) : datetime := mkDatetime y m d h mi s 0.

(** Three scans and five clicks of "cafe" in January 2024, two on item 0
    and three on item 1, the first at the first instant of the month and
    the last at its last second. *)
Definition january_events : table :=
  after (record_click (at_ 2024 1 31 23 59 59) "cafe" (Some 1))
    (after (record_scan (at_ 2024 1 20 9 0 0) "cafe")
       (after (record_click (at_ 2024 1 15 12 30 0) "cafe" (Some 0))
          (after (record_click (at_ 2024 1 15 12 0 0) "cafe" (Some 1))
             (after (record_scan (at_ 2024 1 10 8 0 0) "cafe")
                (after (record_click (at_ 2024 1 2 18 0 0) "cafe" (Some 1))
                   (after (record_click (at_ 2024 1 1 0 0 1) "cafe" (Some 0))
                      (after (record_scan (at_ 2024 1 1 0 0 0) "cafe") []))))))).

(** The same with events around them that the January window leaves
    out: the last second of December, the first instant of February,
    and a click of another slug. *)
Definition winter_events : table :=
  after (record_click (at_ 2024 1 15 0 0 0) "bistro" (Some 0))
    (after (record_scan (at_ 2024 2 1 0 0 0) "cafe")
       (after (record_click (at_ 2024 2 1 0 0 0) "cafe" (Some 0))
          (after (record_click (at_ 2023 12 31 23 59 59) "cafe" (Some 0))
             january_events))).

(** [n] clicks of [slug] at the time [t], one on each of the items
    [n-1], ..., 0. *)
Fixpoint click_each (t : datetime) (slug : string) (n : nat) (events : table) : table :=
  match n with
  | O => events
  | S n' =>
      click_each t slug n' (after (record_click t slug (Some (Z.of_nat n'))) events)
  end.

(** Two clicks on no item, then one click on each of [n] items. *)
Definition busy_day (n : nat) : table :=
  let t := at_ 2024 1 15 12 0 0 in
  click_each t "cafe" n
    (after (record_click t "cafe" None) (after (record_click t "cafe" None) [])).

(** The grouping of [rows] continued from [groups]. *)
Definition grouped (rows : list event) (groups : list (option Z * Z))
  : list (option Z * Z) :=
  fold_left (fun groups e => count_in (item_index e) groups) rows groups.

(** The entries of a top list that name an item. *)
Definition genuine (t : list (option Z * Z)) : list (option Z * Z) :=
  List.filter (fun g => match fst g with Some _ => true | None => false end) t.
End Events.

(** A menu item as the store should hold it: the seven fields, text,
    a float and booleans, with a category that [title] leaves as it is. *)
Definition item_shape (item : value) : Prop :=
  exists name name_ur price image_url category available special,
    item = VDict [("name", VStr name); ("name_ur", VStr name_ur);
                  ("price", VFloat price); ("image_url", VStr image_url);
                  ("category", VStr category);
                  ("is_available", VBool available);
                  ("is_chefs_special", VBool special)]
    /\ Text.title category = category.

(** ** data.py: deleting a restaurant and setting its theme *)

(** [del d[k]] on the entries of a dict. *)
Fixpoint dict_remove {V} (k : string) (d : list (string * V)) : list (string * V) :=
  match d with
  | [] => []
  | (k', v) :: d' => if String.eqb k k' then d' else (k', v) :: dict_remove k d'
  end.

(** [del v[k]] for a string [k] *)
Definition delitem (v : value) (k : string) : result value :=
  match v with
  | VDict d => match Dict.get k d with
               | Some _ => Ok (VDict (dict_remove k d))
               | None => Raise KeyError
               end
  | _ => Raise TypeError
  end.

Definition delete_restaurant (slug : string) : M bool :=
  let! data := load_data in
  let! present := lift (Py.contains slug data) in
  if negb present then ret false
  else
    let! data' := lift (delitem data slug) in
    let! _ := save_data data' in
    ret true.

(** [theme in VALID_THEMES]: membership in a set hashes the value, which
    a list or a dict refuses. *)
Definition in_valid_themes (theme : value) : result bool :=
  match theme with
  | VStr s => Ok (Py.in_strings s VALID_THEMES)
  | VList _ | VDict _ => Raise TypeError
  | VNone | VBool _ | VInt _ | VFloat _ => Ok false
  end.

Definition set_restaurant_theme (slug : string) (theme : value) : M bool :=
  let! valid := lift (in_valid_themes theme) in
  if negb valid then ret false
  else
    let! data := load_data in
    let! rest := lift (Py.get data slug VNone) in
    if negb (Py.truthy rest) then ret false
    else
      let! rest' := lift (Py.setitem rest "theme" theme) in
      let! data' := lift (Py.setitem data slug rest') in
      let! _ := save_data data' in
      ret true.

(** ** app.py: signing up and setting the theme *)

(** [d.get(k)] for a key [k] that is any value: the keys of a document
    are strings, a list or a dict cannot be hashed. *)
Definition get_by_value (v key : value) : result value :=
  match v with
  | VDict d =>
      match key with
      | VStr k => Ok (match Dict.get k d with Some x => x | None => VNone end)
      | VList _ | VDict _ => Raise TypeError
      | VNone | VBool _ | VInt _ | VFloat _ => Ok VNone
      end
  | _ => Raise AttributeError
  end.

(** [a or b] *)
Definition or_value (a b : value) : value := if Py.truthy a then a else b.

(** A response: the status and the JSON body. *)
Definition response : Type := (Z * value)%type.

(** [signup()] with the parsed body of the request and the configured
    [RESTAURANT_DEFAULT_THEME]. *)
Definition signup (default_theme : string) (body : value) : M response :=
  let data := or_value body (VDict []) in
  let! slug := lift (Py.get data "slug" VNone) in
  if negb (Py.truthy slug) then
    ret (400, VDict [("error", VStr "slug required")])
  else
    let! stored := load_data in
    let! found := lift (get_by_value stored slug) in
    if Py.truthy found then
      ret (400, VDict [("error", VStr "slug already exists")])
    else
      let! theme_in := lift (Py.get data "theme" VNone) in
      let theme := or_value theme_in (VStr default_theme) in
      let! name := lift (Py.get data "name" slug) in
      let! name_ur := lift (Py.get data "name_ur" (VStr "")) in
      let! whatsapp := lift (Py.get data "whatsapp" (VStr "")) in
      let! menu := lift (Py.get data "menu" (VList [])) in
      let restaurant :=
        VDict [("name", name); ("name_ur", name_ur); ("whatsapp", whatsapp);
               ("menu", menu); ("theme", theme)] in
      let! success :=
        match slug with
        | VStr s => create_restaurant s restaurant default_theme
        | _ => raise TypeError     (* the pattern matches strings only *)
        end in
      if negb success then ret (500, VDict [("error", VStr "creation failed")])
      else ret (201, VDict [("ok", VBool true); ("slug", slug); ("theme", theme)]).

(** [theme not in (None, 'default', 'traditional')] *)
Definition theme_choice (theme : value) : bool :=
  match theme with
  | VNone => true
  | VStr s => Py.in_strings s ["default"; "traditional"]
  | _ => false
  end.

(** [api_set_theme(slug)] with the parsed body, past the admin check. *)
Definition api_set_theme (slug : string) (body : value) : M response :=
  let data := or_value body (VDict []) in
  let! theme := lift (Py.get data "theme" VNone) in
  if negb (theme_choice theme) then
    ret (400, VDict [("error", VStr "invalid theme")])
  else
    let! success := set_restaurant_theme slug theme in
    if negb success then ret (404, VDict [("error", VStr "not found")])
    else ret (200, VDict [("ok", VBool true)]).

(** ** app.py: the names of the most clicked items *)

(** [v[i]] for any integer [i]: a negative index counts from the end. *)
Definition index_any (v : value) (i : Z) : result value :=
  match Py.len v with
  | Ok n =>
      if (0 <=? i) && (i <? n) then Py.getindex v i
      else if (- n <=? i) && (i <? 0) then Py.getindex v (n + i)
      else match v with VDict _ => Raise KeyError | _ => Raise IndexError end
  | Raise e => Raise e
  end.

(** The name that [admin_analytics] gives an entry of the top list. *)
Definition item_label (restaurant : value) (idx : option Z) : value :=
  match idx with
  | None => VStr "General"
  | Some i =>
      match (let* menu := Py.getitem restaurant "menu" in
             let* item := index_any menu i in
             Py.getitem item "name") with
      | Ok name => name
      | Raise _ => VStr ("Item " ++ Text.of_Z i)
      end
  end.

(** The report of [admin_analytics]: the top list with names; [None] is
    the 404 for a slug without a record. *)
Definition admin_analytics (now : Analytics.datetime) (events : Analytics.table)
    (slug : string) : M (option (result (list (option Z * Z * value)))) :=
  let! restaurant := get_restaurant slug in
  if negb (Py.truthy restaurant) then ret None
  else
    ret (Some
      (let* report := Analytics.get_monthly_summary now events slug
                        (Some (Analytics.year now)) (Some (Analytics.month now)) in
       Ok (List.map (fun g => (fst g, snd g, item_label restaurant (fst g)))
             (Analytics.top report)))).

(** ** QRD.py: the files of the QR codes *)

Module QRD.

(** [if table]: a table number that is given and not 0. *)
Definition has_table (table : option Z) : bool :=
  match table with
  | Some n => negb (n =? 0)
  | None => false
  end.

Definition table_text (table : option Z) : string :=
  match table with
  | Some n => Text.of_Z n
  | None => "None"
  end.

Definition filename (slug : string) (table : option Z) : string :=
  if has_table table then (slug ++ "-table-" ++ table_text table ++ ".png")%string
  else (slug ++ ".png")%string.

Definition url (base_url slug : string) (table : option Z) : string :=
  if has_table table
  then (base_url ++ "/" ++ slug ++ "?table=" ++ table_text table)%string
  else (base_url ++ "/" ++ slug)%string.

(** The directory [static/qr]: for each file name, the address that its
    image encodes. *)
Definition qr_dir : Type := list (string * string).

(** [generate_qr(slug, table)]: the directory after the image is saved,
    and the path returned. *)
Definition generate_qr (base_url slug : string) (table : option Z)
    (dir : qr_dir) : qr_dir * string :=
  (Dict.set (filename slug table) (url base_url slug table) dir,
   ("qr/" ++ filename slug table)%string).

(** [delete_qr(slug, table)]: a missing file is no error. *)
Definition delete_qr (slug : string) (table : option Z) (dir : qr_dir) : qr_dir :=
  dict_remove (filename slug table) dir.

End QRD.

(** ** Notions of the further properties *)

(** A computation that leaves the world as it is. *)
Definition quiet {A} (m : M A) : Prop := forall w, snd (m w) = w.

(** A computation that changes the world only when it returns [True]. *)
Definition commits (m : M bool) : Prop :=
  forall w, snd (m w) = w \/ fst (m w) = Ok true.

(** All characters of a text pass a test. *)
Fixpoint all_chars (p : ascii -> bool) (s : string) : bool :=
  match s with
  | EmptyString => true
  | String c s' => p c && all_chars p s'
  end.

Definition line_feed : string := String (Text.chr 10) EmptyString.

(** The theme that [create_restaurant] stores for a default theme. *)
Definition stored_theme (default_theme : string) : string :=
  if Py.in_strings default_theme VALID_THEMES then default_theme else "default".

(** The record that [create_restaurant] writes. *)
Definition created_record (name name_ur whatsapp : string) (menu : list value)
    (theme : string) (created_at : float) : list (string * value) :=
  [("name", VStr name); ("name_ur", VStr name_ur); ("whatsapp", VStr whatsapp);
   ("menu", VList menu); ("theme", VStr theme); ("created_at", VFloat created_at)].

(** The world with the document [d]. *)
Definition with_document (w : world) (d : list (string * value)) : world :=
  mkWorld (Document (VDict d)) (side_files w) (clock w).

(** The number of clicks of a series that were on the item whose index
    prints as [key]. *)
Fixpoint tally (key : string) (clicks : list value) : Z :=
  match clicks with
  | [] => 0
  | c :: clicks' =>
      (match c with
       | VNone => 0
       | _ => if String.eqb (Py.str c) key then 1 else 0
       end) + tally key clicks'
  end.

(** The year and month for which [get_monthly_summary] has a window. *)
Definition month_in_range (y m : Z) : bool :=
  (1 <=? y) && (y <=? 9999) && (1 <=? m) && (m <=? 12)
  && negb ((y =? 9999) && (m =? 12)).

Definition sum_counts (t : list (option Z * Z)) : Z :=
  fold_right (fun g acc => snd g + acc) 0 t.

(** A stored menu item by its fields and their types: the seven fields,
    text, a float and booleans, with a category that is not empty. *)
Definition item_typed (item : value) : Prop :=
  exists name name_ur price image_url category available special,
    item = VDict [("name", VStr name); ("name_ur", VStr name_ur);
                  ("price", VFloat price); ("image_url", VStr image_url);
                  ("category", VStr category);
                  ("is_available", VBool available);
                  ("is_chefs_special", VBool special)]
    /\ category <> "".

(** The menu that [create_restaurant] makes of a draft. *)
Definition menu_of (draft : value) : result (list value) :=
  let* menu_in := Py.get draft "menu" (VList []) in
  let* entries := Py.iter menu_in in
  clean_menu entries.

(** A field is one that [update_menu_item] knows. *)
Definition known_field (kv : string * value) : bool :=
  Py.in_strings (fst kv) VALID_ITEM_FIELDS.


(** The count that the counters have for a key, 0 when they have none. *)
Definition count_of (key : string) (items : list (string * value)) : Z :=
  match Dict.get key items with
  | Some (VInt n) => n
  | _ => 0
  end.

(** A record whose [analytics] holds the total [total] and the item
    counters [items], all of them integers. *)
Definition counters (rest : list (string * value)) (total : Z)
    (items : list (string * value)) : Prop :=
  exists analytics,
    Dict.get "analytics" rest = Some (VDict analytics)
    /\ Dict.get "total" analytics = Some (VInt total)
    /\ Dict.get "items" analytics = Some (VDict items)
    /\ Forall (fun kv => exists n, snd kv = VInt n) items.

(** The counters that [track_click] starts a record with. *)
Definition fresh_counters : value := VDict [("total", VInt 0); ("items", VDict [])].

(** A handler that changes the world only when it answers [code]. *)
Definition answers_or_quiet (code : Z) (m : M response) : Prop :=
  forall w, snd (m w) = w \/ exists body, fst (m w) = Ok (code, body).

(** Case analysis on the test of the first conditional in a hypothesis. *)
Ltac split_if H :=
  match type of H with
  | context [if ?c then _ else _] => destruct c eqn:?
  end.

(** * Properties *)

(** ** Dictionaries *)

Section DictFacts.
Context {V : Type}.
Implicit Types (d new : Dict.t V) (k : string) (v : V).

Lemma get_set_eq k v d : Dict.get k (Dict.set k v d) = Some v.
Proof.
  induction d as [|[k' v'] d IH]; simpl.
  - now rewrite String.eqb_refl.
  - destruct (String.eqb k k') eqn:E; simpl; rewrite ?String.eqb_refl, ?E; auto.
Qed.

Lemma get_set_ne k k' v d :
  k <> k' -> Dict.get k' (Dict.set k v d) = Dict.get k' d.
Proof.
  intros Hne. induction d as [|[k0 v0] d IH]; simpl.
  - destruct (String.eqb_spec k' k); congruence.
  - destruct (String.eqb_spec k k0) as [->|]; simpl.
    + destruct (String.eqb_spec k' k0); congruence.
    + now rewrite IH.
Qed.


Lemma get_none_keys k d : Dict.get k d = None <-> ~ In k (Dict.keys d).
Proof.
  induction d as [|[k' v'] d IH]; simpl; [tauto|].
  destruct (String.eqb_spec k k') as [->|]; [|rewrite IH]; split; intros;
    try discriminate; intuition congruence.
Qed.

Lemma keys_set k v d :
  Dict.keys (Dict.set k v d)
  = if Dict.mem k d then Dict.keys d else Dict.keys d ++ [k].
Proof.
  unfold Dict.mem. induction d as [|[k' v'] d IH]; simpl; auto.
  destruct (String.eqb_spec k k') as [->|]; simpl; auto.
  rewrite IH. now destruct (Dict.get k d).
Qed.

Lemma NoDup_keys_set k v d :
  List.NoDup (Dict.keys d) -> List.NoDup (Dict.keys (Dict.set k v d)).
Proof.
  intros Hd. rewrite keys_set. unfold Dict.mem.
  destruct (Dict.get k d) eqn:E; auto.
  apply get_none_keys in E.
  apply Stdlib.Lists.List.NoDup_app; auto.
  - constructor; [intros []|constructor].
  - intros x Hx [<-|[]]. contradiction.
Qed.

(** After [d.update(new)] a key of [new] has the value [new] gives it
    and every other key has the value it had. *)
Lemma get_update k d new :
  List.NoDup (Dict.keys new) ->
  Dict.get k (Dict.update d new)
  = match Dict.get k new with
    | Some v => Some v
    | None => Dict.get k d
    end.
Proof.
  revert d. induction new as [|[k0 v0] new IH]; intros d Hnd; simpl; auto.
  inversion Hnd as [|? ? Hnotin Hnd']; subst.
  rewrite IH by assumption.
  destruct (String.eqb_spec k k0) as [->|Hne].
  - apply get_none_keys in Hnotin. rewrite Hnotin. apply get_set_eq.
  - destruct (Dict.get k new); auto. apply get_set_ne; congruence.
Qed.



End DictFacts.

(** ** load_data *)

(** C1 (the code departs from it): when [data.json] holds text that does
    not parse, [load_data] raises [AttributeError] to its caller, from the
    lookup of [os.time] in the handler, and moves nothing: the world is as
    it was.  The claim says it returns the empty mapping after moving the
    text aside. *)
Theorem load_data_corrupt_raises : forall raw side now,
  load_data (mkWorld (Malformed raw) side now)
  = (Raise AttributeError, mkWorld (Malformed raw) side now).
Proof. intros. reflexivity. Qed.

(** ** create_restaurant *)

(** C2 (the code departs from it): from an empty store, creating "cafe"
    from a draft whose item has the price -5 succeeds, and the record read
    back has that item with the price -5.0, which is below 0. *)
Theorem create_restaurant_keeps_negative_price : forall now,
  let stored :=
    VDict [("name", VStr "Cafe"); ("name_ur", VStr ""); ("whatsapp", VStr "");
           ("menu", VList [VDict [("name", VStr "Tea"); ("name_ur", VStr "");
                                  ("price", VFloat (-5)%float);
                                  ("image_url", VStr "");
                                  ("category", VStr "Main Course");
                                  ("is_available", VBool true);
                                  ("is_chefs_special", VBool false)]]);
           ("theme", VStr "default"); ("created_at", VFloat now)] in
  let w' := mkWorld (Document (VDict [("cafe", stored)])) [] now in
  create_restaurant "cafe" negative_price_draft "default" (empty_world now)
  = (Ok true, w')
  /\ get_restaurant "cafe" w' = (Ok stored, w')
  /\ (-5 <? 0)%float = true.
Proof. intros now. cbv zeta. repeat split; vm_compute; reflexivity. Qed.

(** What does hold of the items that [create_restaurant] stores. *)

Lemma title_char (b : bool) (c : ascii) :
  let c' := if b then Text.to_lower c else Text.to_upper c in
  (if b then Text.to_lower c' else Text.to_upper c') = c'
  /\ Text.is_cased c' = Text.is_cased c.
Proof.
  destruct c as [[] [] [] [] [] [] [] []], b; split; vm_compute; reflexivity.
Qed.

Lemma title_from_idempotent b s :
  Text.title_from b (Text.title_from b s) = Text.title_from b s.
Proof.
  revert b. induction s as [|c s IH]; intros b; simpl; auto.
  destruct (title_char b c) as (Hc & Hcased).
  cbv zeta in Hc, Hcased. now rewrite Hc, Hcased, IH.
Qed.

Lemma setitem_ok v k x v' :
  Py.setitem v k x = Ok v' -> exists d, v = VDict d /\ v' = VDict (Dict.set k x d).
Proof. destruct v; simpl; intros H; inversion H; eauto. Qed.

Lemma rbind_ok {A B} (r : result A) (k : A -> result B) b :
  rbind r k = Ok b -> exists a, r = Ok a /\ k a = Ok b.
Proof. destruct r; simpl; [eauto|discriminate]. Qed.

Lemma bind_ok {A B} (m : M A) (k : A -> M B) w b w' :
  bind m k w = (Ok b, w') -> exists a w1, m w = (Ok a, w1) /\ k a w1 = (Ok b, w').
Proof.
  unfold bind. destruct (m w) as [[a|e] w1]; [eauto|discriminate].
Qed.

Lemma lift_ok {A} (r : result A) w a w1 :
  lift r w = (Ok a, w1) -> r = Ok a /\ w1 = w.
Proof. unfold lift. intros H. inversion H. auto. Qed.

Lemma clean_item_shape item cleaned :
  clean_item item = Ok cleaned -> item_shape cleaned.
Proof.
  unfold clean_item. intros H.
  do 8 (apply rbind_ok in H as (? & _ & H)).
  inversion H. unfold item_shape. do 7 eexists. split; [reflexivity|].
  unfold or_else. destruct (String.eqb _ ""); [reflexivity|].
  apply title_from_idempotent.
Qed.

Lemma clean_menu_shape entries menu :
  clean_menu entries = Ok menu -> Forall item_shape menu.
Proof.
  revert menu. induction entries as [|e entries IH]; intros menu H; simpl in H.
  - inversion H. constructor.
  - destruct (has_name e); [|now apply IH].
    apply rbind_ok in H as (c & Hc & H).
    apply rbind_ok in H as (rest & Hrest & H).
    inversion H. constructor; eauto using clean_item_shape.
Qed.

(** After a creation that returned [True], every item of the record read
    back has the seven fields and a category in title case; nothing is
    said of the sign of its price. *)
Lemma create_restaurant_items_shaped slug draft theme w w' :
  create_restaurant slug draft theme w = (Ok true, w') ->
  exists rest menu,
    get_restaurant slug w' = (Ok (VDict rest), w')
    /\ Dict.get "menu" rest = Some (VList menu)
    /\ Forall item_shape menu.
Proof.
  unfold create_restaurant. intros H.
  destruct (negb (VALID_SLUG_PATTERN slug)); [discriminate|].
  apply bind_ok in H as (data & w1 & _ & H).
  apply bind_ok in H as (taken & w2 & _ & H).
  destruct taken; [discriminate|].
  do 6 (apply bind_ok in H as (? & ? & _ & H)).
  apply bind_ok in H as (menu & w3 & Hmenu & H).
  apply lift_ok in Hmenu as (Hmenu & _).
  apply bind_ok in H as (data' & w4 & Hset & H).
  apply lift_ok in Hset as (Hset & ->).
  apply setitem_ok in Hset as (d & _ & ->).
  apply bind_ok in H as (u & w5 & Hsave & H).
  unfold save_data in Hsave. inversion Hsave; subst w5.
  inversion H; subst w'. eexists _, _. split; [|split].
  - unfold get_restaurant, bind, lift. cbn. rewrite get_set_eq. reflexivity.
  - reflexivity.
  - eauto using clean_menu_shape.
Qed.

(** ** update_restaurant *)

(** C8: for a slug that matches the pattern and is not in the store,
    [update_restaurant] succeeds and stores the record exactly as given,
    whatever it is: reading the slug back gives that record, and the other
    records are as they were. *)
Theorem update_restaurant_upserts_as_is : forall slug record w d,
  VALID_SLUG_PATTERN slug = true ->
  load_data w = (Ok (VDict d), w) ->
  Dict.get slug d = None ->
  let w' := mkWorld (Document (VDict (d ++ [(slug, record)]))) (side_files w) (clock w) in
  update_restaurant slug record w = (Ok true, w')
  /\ get_restaurant slug w' = (Ok record, w')
  /\ forall other, other <> slug ->
       fst (get_restaurant other w') = fst (get_restaurant other w).
Proof.
  intros slug record w d Hslug Hload Hnew w'.
  assert (Hset : Dict.set slug record d = d ++ [(slug, record)]).
  { clear Hload. induction d as [|[k v] d IH]; simpl in *; auto.
    destruct (String.eqb slug k); [discriminate|]. now rewrite IH. }
  repeat split.
  - unfold update_restaurant, bind, lift, ret, save_data.
    rewrite Hslug. simpl. rewrite Hload. simpl. now rewrite Hset.
  - unfold get_restaurant, bind, lift. simpl.
    rewrite <- Hset. now rewrite get_set_eq.
  - intros other Hne. unfold get_restaurant, bind, lift.
    rewrite Hload. simpl. rewrite <- Hset.
    rewrite get_set_ne by congruence. reflexivity.
Qed.

Lemma update_restaurant_upserts_as_is_witness :
  let w := empty_world 0%float in
  let w' := mkWorld (Document (VDict [("new-place", VInt 7)])) [] 0%float in
  update_restaurant "new-place" (VInt 7) w = (Ok true, w')
  /\ get_restaurant "new-place" w' = (Ok (VInt 7), w')
  /\ forall other, other <> "new-place" ->
       fst (get_restaurant other w') = fst (get_restaurant other w).
Proof.
  exact (update_restaurant_upserts_as_is "new-place" (VInt 7) (empty_world 0%float) []
           eq_refl eq_refl eq_refl).
Defined.

(** ** get_analytics and track_click *)

Lemma load_data_world w : snd (load_data w) = w.
Proof. unfold load_data. destruct (data_json w); reflexivity. Qed.

Lemma getitem_ok v k x :
  Py.getitem v k = Ok x -> exists d, v = VDict d /\ Dict.get k d = Some x.
Proof.
  destruct v; simpl; try discriminate.
  destruct (Dict.get k entries) eqn:E; intros H; inversion H; subst; eauto.
Qed.

Lemma same_off_analytics_set d x :
  same_off_analytics (VDict d) (VDict (Dict.set "analytics" x d)).
Proof.
  exists d, (Dict.set "analytics" x d). repeat split.
  intros k Hk. apply get_set_ne. congruence.
Qed.

Lemma same_off_analytics_trans a b c :
  same_off_analytics a b -> same_off_analytics b c -> same_off_analytics a c.
Proof.
  intros (da & db & -> & -> & Hab) (db' & dc & Hb & -> & Hbc).
  inversion Hb; subst db'. exists da, dc. repeat split.
  intros k Hk. now rewrite Hbc, Hab.
Qed.

Lemma bump_total_same rest rest' :
  bump_total rest = Ok rest' -> same_off_analytics rest rest'.
Proof.
  unfold bump_total, rbind. intros H.
  destruct (Py.getitem rest "analytics") as [a|] eqn:Ha; [|discriminate].
  destruct (Py.getitem a "total") as [t|]; [|discriminate].
  destruct (Py.add_one t); [|discriminate].
  destruct (Py.setitem a "total" a0); [|discriminate].
  apply setitem_ok in H as (d & -> & ->). apply same_off_analytics_set.
Qed.

Lemma bump_item_same rest idx rest' :
  bump_item rest idx = Ok rest' -> same_off_analytics rest rest'.
Proof.
  unfold bump_item, rbind. intros H.
  destruct (Py.getitem rest "analytics") as [a|]; [|discriminate].
  destruct (Py.getitem a "items") as [items|]; [|discriminate].
  destruct (Py.get items idx (VInt 0)) as [c|]; [|discriminate].
  destruct (Py.add_one c) as [c'|]; [|discriminate].
  destruct (Py.setitem items idx c') as [items'|]; [|discriminate].
  destruct (Py.setitem a "items" items') as [a'|]; [|discriminate].
  apply setitem_ok in H as (d & -> & ->). apply same_off_analytics_set.
Qed.

(** What a call of [track_click] does to the world: nothing, or it
    replaces the record of the slug by one that differs from it at most
    under [analytics]. *)
Lemma track_click_world slug item_index w :
  snd (track_click slug item_index w) = w
  \/ exists d rest rest',
       load_data w = (Ok (VDict d), w)
       /\ Dict.get slug d = Some rest
       /\ same_off_analytics rest rest'
       /\ snd (track_click slug item_index w)
          = mkWorld (Document (VDict (Dict.set slug rest' d))) (side_files w) (clock w).
Proof.
  unfold track_click, bind, lift, ret.
  pose proof (load_data_world w) as Hw.
  destruct (load_data w) as [[data|e] w0] eqn:Hload; simpl in Hw; subst w0; auto.
  destruct data as [| | | | | |d]; simpl; auto.
  destruct (Dict.get slug d) as [rest|] eqn:Hget; simpl; auto.
  destruct (Py.truthy rest); simpl; auto.
  destruct (Py.contains "analytics" rest) as [has|] eqn:Hhas; simpl; auto.
  set (rest1 := if has then Ok rest else _).
  destruct rest1 as [r1|] eqn:H1; simpl; auto.
  destruct (bump_total r1) as [r2|] eqn:H2; simpl; auto.
  set (rest3 := match item_index with VNone => Ok r2 | _ => bump_item r2 (Py.str item_index) end).
  assert (H3 : forall r3, rest3 = Ok r3 -> same_off_analytics rest r3).
  { intros r3 Hr3.
    assert (H23 : r2 = r3 \/ same_off_analytics r2 r3).
    { subst rest3. destruct item_index; try (right; eapply bump_item_same; eassumption).
      left. now inversion Hr3. }
    apply bump_total_same in H2.
    assert (H01 : rest = r1 \/ same_off_analytics rest r1).
    { subst rest1. destruct has; [left; now inversion H1|right].
      apply setitem_ok in H1 as (d0 & -> & ->). apply same_off_analytics_set. }
    destruct H01 as [->|H01], H23 as [->|H23]; eauto using same_off_analytics_trans. }
  destruct rest3 as [r3|] eqn:E3; simpl; auto.
  right. exists d, rest, r3. auto.
Qed.

(** A call of [track_click] never changes what [get_analytics] returns,
    for any slug. *)
Lemma track_click_unobserved slug item_index other w :
  fst (get_analytics other (snd (track_click slug item_index w)))
  = fst (get_analytics other w).
Proof.
  destruct (track_click_world slug item_index w)
    as [->|(d & rest & rest' & Hload & Hget & Hsame & ->)]; auto.
  unfold get_analytics, bind, lift, ret. rewrite Hload. simpl.
  destruct (String.eqb_spec slug other) as [->|Hne].
  - rewrite get_set_eq, Hget.
    destruct Hsame as (da & db & -> & -> & Hk). simpl.
    now rewrite !Hk by discriminate.
  - rewrite get_set_ne by assumption.
    destruct (Dict.get other d) as [rest0|]; simpl; auto.
    destruct (Py.get rest0 "total_clicks" (VInt 0)); simpl; auto.
    destruct (Py.get rest0 "item_clicks" (VDict [])); reflexivity.
Qed.

Lemma track_clicks_unobserved slug clicks other w :
  fst (get_analytics other (track_clicks slug clicks w))
  = fst (get_analytics other w).
Proof.
  revert w. induction clicks as [|c clicks IH]; intros w; simpl; auto.
  rewrite IH. apply track_click_unobserved.
Qed.

(** C9: for a restaurant whose record has neither [total_clicks] nor
    [item_clicks] (as every record that [create_restaurant] writes), after
    any series of [track_click] calls on it [get_analytics] still returns
    0 total clicks and an empty [item_clicks]: the counters that
    [track_click] keeps are under [analytics], which [get_analytics] does
    not read. *)
Theorem get_analytics_blind_to_track_click : forall slug clicks w d rest,
  load_data w = (Ok (VDict d), w) ->
  Dict.get slug d = Some (VDict rest) ->
  Dict.get "total_clicks" rest = None ->
  Dict.get "item_clicks" rest = None ->
  fst (get_analytics slug (track_clicks slug clicks w))
  = Ok (VDict [("total_clicks", VInt 0); ("item_clicks", VDict [])]).
Proof.
  intros slug clicks w d rest Hload Hget Ht Hi.
  rewrite track_clicks_unobserved.
  unfold get_analytics, bind, lift, ret. rewrite Hload. simpl.
  rewrite Hget. simpl. now rewrite Ht, Hi.
Qed.

Lemma get_analytics_blind_to_track_click_witness :
  fst (get_analytics "cafe"
         (track_clicks "cafe" [VInt 0; VNone; VInt 0] (cafe_world 10 true)))
  = Ok (VDict [("total_clicks", VInt 0); ("item_clicks", VDict [])]).
Proof.
  exact (get_analytics_blind_to_track_click "cafe" [VInt 0; VNone; VInt 0]
           (cafe_world 10 true) _ _ eq_refl eq_refl eq_refl eq_refl).
Defined.

(** The three clicks above were counted, under [analytics]. *)
Example track_clicks_counts_under_analytics :
  data_json (track_clicks "cafe" [VInt 0; VNone; VInt 0] (cafe_world 10 true))
  = Document (VDict [("cafe", VDict (cafe_record 10 true ++
       [("analytics", VDict [("total", VInt 3);
                             ("items", VDict [("0", VInt 2)])])]))]).
Proof. vm_compute. reflexivity. Qed.

(** ** update_menu_item *)

Lemma set_set {V} k (v v' : V) d : Dict.set k v (Dict.set k v' d) = Dict.set k v d.
Proof.
  induction d as [|[k0 v0] d IH]; simpl.
  - now rewrite String.eqb_refl.
  - destruct (String.eqb k k0) eqn:E; simpl.
    + now rewrite String.eqb_refl.
    + now rewrite E, IH.
Qed.

Lemma set_not_nil {V} k (v : V) d : Dict.set k v d <> [].
Proof. destruct d as [|[k0 v0] d]; simpl; [|destruct (String.eqb k k0)]; discriminate. Qed.

(** The fields that pass the checks have distinct keys. *)
Lemma validate_fields_NoDup fields acc valid_fields :
  validate_fields fields acc = Ok (Some valid_fields) ->
  List.NoDup (Dict.keys acc) -> List.NoDup (Dict.keys valid_fields).
Proof.
  revert acc. induction fields as [|[k v] fields IH]; intros acc H Hacc; simpl in H.
  - inversion H; subst; assumption.
  - split_if H; [eauto|].
    split_if H.
    { destruct (Py.float_of v) as [price|[]]; try discriminate.
      split_if H; [discriminate|].
      eauto using NoDup_keys_set. }
    split_if H; [eauto using NoDup_keys_set|].
    split_if H; eauto using NoDup_keys_set.
Qed.

(** When the patch passes the checks and the slug, its menu and the item
    at the index are there, the item is updated and the document saved. *)
Lemma update_menu_item_ok slug index entries valid_fields w d rest items i item :
  validate_fields entries [] = Ok (Some valid_fields) ->
  valid_fields <> [] ->
  load_data w = (Ok (VDict d), w) ->
  Dict.get slug d = Some (VDict rest) ->
  Dict.get "menu" rest = Some (VList items) ->
  Py.int_of index = Ok (Z.of_nat i) ->
  items !! i = Some (VDict item) ->
  update_menu_item slug index (VDict entries) w
  = (Ok true,
     mkWorld (Document (VDict (Dict.set slug
                (VDict (Dict.set "menu"
                   (VList (<[i := VDict (Dict.update item valid_fields)]> items)) rest)) d)))
             (side_files w) (clock w)).
Proof.
  intros Hval Hne Hload Hslug Hmenu Hidx Hitem.
  unfold update_menu_item, bind, lift, ret. cbn [Py.items]. rewrite Hval.
  destruct valid_fields as [|f0 vf]; [congruence|]. cbn [Py.truthy negb].
  rewrite Hload. cbn [Py.get]. rewrite Hslug.
  destruct rest as [|r0 rest]; [discriminate|].
  cbn [Py.truthy negb Py.contains]. unfold Dict.mem. rewrite Hmenu. cbn [negb].
  unfold except_value_type, update_menu_item_try, bind, lift, ret.
  rewrite Hidx.
  destruct (Z.ltb_spec (Z.of_nat i) 0); [lia|].
  cbn [Py.getitem]. rewrite Hmenu. cbn [Py.len].
  pose proof (lookup_lt_Some _ _ _ Hitem) as Hlt.
  destruct (Z.leb_spec (Z.of_nat (length items)) (Z.of_nat i)); [lia|].
  unfold update_item_in_place, rbind. cbn [Py.getindex].
  rewrite Nat2Z.id, Hitem. reflexivity.
Qed.

(** Conversely, a call that returns [True] found all of that. *)
Lemma update_menu_item_true_inv slug index fields w w' :
  update_menu_item slug index fields w = (Ok true, w') ->
  exists entries valid_fields d rest items i item,
    fields = VDict entries
    /\ validate_fields entries [] = Ok (Some valid_fields)
    /\ valid_fields <> []
    /\ load_data w = (Ok (VDict d), w)
    /\ Dict.get slug d = Some (VDict rest)
    /\ Dict.get "menu" rest = Some (VList items)
    /\ Py.int_of index = Ok (Z.of_nat i)
    /\ items !! i = Some (VDict item).
Proof.
  unfold update_menu_item, bind, lift, ret. intros H.
  destruct fields as [| | | | | |entries]; try discriminate. simpl in H.
  destruct (validate_fields entries []) as [[valid_fields|]|] eqn:Hval; try discriminate.
  destruct valid_fields as [|f0 vf]; [discriminate|]. simpl in H.
  pose proof (load_data_world w) as Hw.
  destruct (load_data w) as [[data|e] w0] eqn:Hload; [|discriminate].
  simpl in Hw. subst w0.
  destruct data as [| | | | | |d]; try discriminate. simpl in H.
  destruct (Dict.get slug d) as [rest|] eqn:Hslug; [|discriminate].
  destruct (Py.truthy rest) eqn:Htruthy; [|discriminate]. simpl in H.
  destruct (Py.contains "menu" rest) as [[|]|] eqn:Hhas; try discriminate.
  simpl in H.
  unfold except_value_type, update_menu_item_try, bind, lift, ret in H.
  destruct (Py.int_of index) as [idx|[]] eqn:Hidx; try discriminate.
  destruct (Z.ltb_spec idx 0); [discriminate|].
  destruct (Py.getitem rest "menu") as [menu|[]] eqn:Hmenu; try discriminate.
  apply getitem_ok in Hmenu as (r & -> & Hmenu).
  destruct (Py.len menu) as [n|[]] eqn:Hlen; try discriminate.
  destruct (Z.leb_spec n idx); [discriminate|].
  unfold update_item_in_place, rbind in H.
  destruct (Py.getindex menu idx) as [item|[]] eqn:Hitem; try discriminate.
  destruct item as [| | | | | |item]; try discriminate.
  destruct menu as [| | | | |items|]; try discriminate.
  simpl in Hitem.
  destruct (items !! Z.to_nat idx) eqn:Hlook; [|discriminate].
  inversion Hitem; subst.
  exists entries, (f0 :: vf), d, r, items, (Z.to_nat idx), item.
  rewrite Z2Nat.id by lia. repeat split; auto.
Qed.



(** *** The price check *)

Lemma validate_fields_price_rejected entries v acc :
  Dict.get "price" entries = Some v ->
  price_rejected v = true ->
  validate_fields entries acc = Ok None.
Proof.
  intros Hget Hrej. revert acc.
  induction entries as [|[k v0] entries IH]; intros acc; [discriminate|].
  cbn [Dict.get] in Hget. cbn [validate_fields].
  destruct (String.eqb_spec "price" k) as [<-|Hk].
  - inversion Hget; subst v0.
    change (Py.in_strings "price" VALID_ITEM_FIELDS) with true.
    change ("price" =? "price")%string with true. cbn [negb].
    unfold price_rejected in Hrej.
    destruct (Py.float_of v) as [price|[]]; try discriminate; auto.
    now rewrite Hrej.
  - destruct (negb (Py.in_strings k VALID_ITEM_FIELDS)); [now apply IH|].
    destruct (String.eqb_spec k "price") as [->|_]; [congruence|].
    destruct (Py.in_strings k ["is_available"; "is_chefs_special"]); [now apply IH|].
    destruct (String.eqb k "category"); now apply IH.
Qed.

(** C3, as the code has it: a patch whose price [float] refuses
    ([ValueError], [TypeError]) or converts to a float below 0 or above
    999999 is turned down as a whole, [update_menu_item] returns [False]
    and the world is unchanged; "abc", 1000000 and 999999.99 are such
    prices; 999999 is not, and for an existing slug and item the patch
    with the price 999999 is accepted and stores 999999.0. *)
Theorem update_menu_item_price_bounds :
  (forall slug index entries v w,
     Dict.get "price" entries = Some v ->
     price_rejected v = true ->
     update_menu_item slug index (VDict entries) w = (Ok false, w))
  /\ price_rejected (VStr "abc") = true
  /\ price_rejected (VInt 1000000) = true
  /\ price_rejected (VStr "999999.99") = true
  /\ price_rejected (VInt 999999) = false
  /\ (forall slug index w d rest items i item,
        load_data w = (Ok (VDict d), w) ->
        Dict.get slug d = Some (VDict rest) ->
        Dict.get "menu" rest = Some (VList items) ->
        Py.int_of index = Ok (Z.of_nat i) ->
        items !! i = Some (VDict item) ->
        update_menu_item slug index (VDict [("price", VInt 999999)]) w
        = (Ok true, with_price w slug d rest items i item 999999)).
Proof.
  split; [|repeat split; try (vm_compute; reflexivity)].
  - intros slug index entries v w Hget Hrej.
    unfold update_menu_item, bind, lift, ret. cbn [Py.items].
    now rewrite (validate_fields_price_rejected _ _ _ Hget Hrej).
  - intros slug index w d rest items i item Hload Hslug Hmenu Hidx Hitem.
    assert (Hval : validate_fields [("price", VInt 999999)] []
                   = Ok (Some [("price", VFloat 999999)]))
      by (vm_compute; reflexivity).
    rewrite (update_menu_item_ok _ _ _ _ _ _ _ _ _ _
               Hval ltac:(discriminate) Hload Hslug Hmenu Hidx Hitem).
    reflexivity.
Qed.

Lemma update_menu_item_price_bounds_witness :
  update_menu_item "cafe" (VInt 0)
    (VDict [("name", VStr "Chai"); ("price", VStr "abc")]) (cafe_world 10 true)
  = (Ok false, cafe_world 10 true)
  /\ update_menu_item "cafe" (VInt 0) (VDict [("price", VInt 999999)]) (cafe_world 10 true)
     = (Ok true, cafe_world 999999 true).
Proof.
  split.
  - exact (proj1 update_menu_item_price_bounds "cafe" (VInt 0)
             [("name", VStr "Chai"); ("price", VStr "abc")] (VStr "abc")
             (cafe_world 10 true) eq_refl eq_refl).
  - exact (proj2 (proj2 (proj2 (proj2 (proj2 update_menu_item_price_bounds))))
             "cafe" (VInt 0) (cafe_world 10 true) _ _ _ 0%nat _
             eq_refl eq_refl eq_refl eq_refl eq_refl).
Defined.

(** C3 as stated fails: the price 999999.99, given as text or as the JSON
    number, is turned down ([update_menu_item] returns [False], the world
    is unchanged), where the claim has it accepted. *)
Lemma update_menu_item_rejects_999999_99 :
  update_menu_item "cafe" (VInt 0) (VDict [("price", VStr "999999.99")])
    (cafe_world 10 true)
  = (Ok false, cafe_world 10 true)
  /\ update_menu_item "cafe" (VInt 0)
       (VDict [("price", VFloat 0x1.e847ffae147aep+19)]) (cafe_world 10 true)
     = (Ok false, cafe_world 10 true)
  /\ Float.parse "999999.99" = Some 0x1.e847ffae147aep+19%float.
Proof. repeat split; vm_compute; reflexivity. Qed.

(** Two prices that the check neither accepts by design nor turns down:
    "nan" compares neither below 0 nor above 999999 and is stored, and an
    integer beyond the floats makes [float] raise [OverflowError], which
    the handler does not catch. *)
Example update_menu_item_stores_nan :
  update_menu_item "cafe" (VInt 0) (VDict [("price", VStr "nan")]) (cafe_world 10 true)
  = (Ok true, cafe_world nan true).
Proof. vm_compute. reflexivity. Qed.

Example update_menu_item_overflow :
  update_menu_item "cafe" (VInt 0) (VDict [("price", VInt (10 ^ 400))])
    (cafe_world 10 true)
  = (Raise OverflowError, cafe_world 10 true).
Proof. vm_compute. reflexivity. Qed.

(** ** The handler's reading of [is_available] *)

Lemma get_filter_keys {V} (p : string -> bool) k (d : Dict.t V) :
  Dict.get k (List.filter (fun kv => p (fst kv)) d)
  = if p k then Dict.get k d else None.
Proof.
  induction d as [|[k0 v0] d IH]; simpl.
  - now destruct (p k).
  - destruct (p k0) eqn:Hp0; simpl; rewrite IH;
      destruct (String.eqb_spec k k0) as [->|]; auto.
    + now rewrite Hp0.
    + now rewrite Hp0.
Qed.

Lemma NoDup_keys_filter {V} (p : string * V -> bool) (d : Dict.t V) :
  List.NoDup (Dict.keys d) -> List.NoDup (Dict.keys (List.filter p d)).
Proof.
  induction d as [|kv d IH]; simpl; auto.
  intros H. inversion H as [|? ? Hnotin Hnd]; subst.
  destruct (p kv); simpl; auto.
  constructor; auto.
  intros Hin. apply Hnotin. unfold Dict.keys in *.
  apply in_map_iff in Hin as (x & <- & Hx).
  apply in_map. apply filter_In in Hx. tauto.
Qed.

Lemma NoDup_request_fields entries :
  List.NoDup (Dict.keys entries) -> List.NoDup (Dict.keys (request_fields entries)).
Proof.
  intros H. unfold request_fields.
  pose proof (NoDup_keys_filter (fun kv => Py.in_strings (fst kv) allowed) entries H).
  destruct (Dict.get _ _) as [[]|]; auto using NoDup_keys_set.
Qed.

(** The handler passes a string under [is_available] on as a boolean:
    whether its lower-case form is one of the true words. *)
Lemma request_fields_is_available entries s :
  Dict.get "is_available" entries = Some (VStr s) ->
  Dict.get "is_available" (request_fields entries)
  = Some (VBool (Py.in_strings (Text.lower s) true_words)).
Proof.
  intros H. unfold request_fields.
  rewrite (get_filter_keys (fun k => Py.in_strings k allowed)).
  change (Py.in_strings "is_available" allowed) with true. cbv iota.
  rewrite H. apply get_set_eq.
Qed.

(** A boolean field of the patch that passes the checks is the truth
    value of what the patch gave. *)
Lemma validate_fields_is_available fields acc valid_fields :
  List.NoDup (Dict.keys fields) ->
  validate_fields fields acc = Ok (Some valid_fields) ->
  Dict.get "is_available" valid_fields
  = match Dict.get "is_available" fields with
    | Some v => Some (VBool (Py.truthy v))
    | None => Dict.get "is_available" acc
    end.
Proof.
  revert acc. induction fields as [|[k v] fields IH]; intros acc Hnd H.
  - inversion H; subst. reflexivity.
  - inversion Hnd as [|? ? Hnotin Hnd']; subst.
    cbn [validate_fields] in H. cbn [Dict.get].
    destruct (String.eqb_spec "is_available" k) as [<-|Hk].
    + change (Py.in_strings "is_available" VALID_ITEM_FIELDS) with true in H.
      change ("is_available" =? "price")%string with false in H.
      change (Py.in_strings "is_available" ["is_available"; "is_chefs_special"])
        with true in H.
      cbn [negb] in H.
      rewrite (IH _ Hnd' H).
      apply get_none_keys in Hnotin. rewrite Hnotin. apply get_set_eq.
    + assert (Hset : forall x, Dict.get "is_available" (Dict.set k x acc)
                               = Dict.get "is_available" acc)
        by (intros x; apply get_set_ne; congruence).
      split_if H; [now apply IH|].
      split_if H.
      { destruct (Py.float_of v) as [price|[]]; try discriminate.
        split_if H; [discriminate|].
        rewrite (IH _ Hnd' H). now rewrite Hset. }
      split_if H; [rewrite (IH _ Hnd' H); now rewrite Hset|].
      split_if H; rewrite (IH _ Hnd' H); now rewrite Hset.
Qed.

(** C4, as the code has it: when the request gives [is_available] as a
    string [s] and the handler answers 200, the item read back has
    [is_available] true exactly when the lower-case form of [s] is "1",
    "true" or "yes". *)
Theorem api_update_item_reads_availability : forall slug index entries s w w',
  List.NoDup (Dict.keys entries) ->
  Dict.get "is_available" entries = Some (VStr s) ->
  api_update_item slug index (VDict entries) w = (Ok 200, w') ->
  exists rest items item,
    get_restaurant slug w' = (Ok (VDict rest), w')
    /\ Dict.get "menu" rest = Some (VList items)
    /\ items !! Z.to_nat index = Some (VDict item)
    /\ Dict.get "is_available" item
       = Some (VBool (Py.in_strings (Text.lower s) true_words)).
Proof.
  intros slug index entries s w w' Hnd Hget H.
  unfold api_update_item in H.
  assert (Htruthy : Py.truthy (VDict entries) = true)
    by (destruct entries; [discriminate|reflexivity]).
  rewrite Htruthy in H. unfold bind, lift, ret in H. cbn [Py.items] in H.
  destruct (update_menu_item slug (VInt index) (VDict (request_fields entries)) w)
    as [[[|]|e] w1] eqn:Hupd; try discriminate.
  inversion H; subst w1. clear H.
  destruct (update_menu_item_true_inv _ _ _ _ _ Hupd)
    as (fields & vf & d & rest & items & i & item
        & Hfields & Hval & Hne & Hload & Hslug & Hmenu & Hidx & Hitem).
  inversion Hfields; subst fields. clear Hfields.
  rewrite (update_menu_item_ok _ _ _ _ _ _ _ _ _ _ Hval Hne Hload Hslug Hmenu Hidx Hitem)
    in Hupd.
  inversion Hupd as [Hw']. clear Hupd.
  cbn [Py.int_of] in Hidx. inversion Hidx; subst index. rewrite Nat2Z.id.
  pose proof (lookup_lt_Some _ _ _ Hitem) as Hlt.
  eexists _, _, _. repeat split.
  - unfold get_restaurant, bind, lift. cbn. rewrite get_set_eq. reflexivity.
  - apply get_set_eq.
  - now apply list_lookup_insert_eq.
  - rewrite get_update
      by (eapply validate_fields_NoDup; [eassumption|constructor]).
    rewrite (validate_fields_is_available _ _ _ (NoDup_request_fields _ Hnd) Hval).
    now rewrite (request_fields_is_available _ _ Hget).
Qed.

Lemma api_update_item_reads_availability_witness :
  exists rest items item,
    get_restaurant "cafe" (cafe_world 10 true) = (Ok (VDict rest), cafe_world 10 true)
    /\ Dict.get "menu" rest = Some (VList items)
    /\ items !! Z.to_nat 0 = Some (VDict item)
    /\ Dict.get "is_available" item
       = Some (VBool (Py.in_strings (Text.lower "Yes") true_words)).
Proof.
  apply (api_update_item_reads_availability "cafe" 0
           [("is_available", VStr "Yes")] "Yes" (cafe_world 10 false) (cafe_world 10 true)).
  - repeat constructor. intros [].
  - reflexivity.
  - vm_compute. reflexivity.
Defined.

(** C4 as stated fails: "TRUE" is none of "1", "true", "yes", and through
    the handler it makes the item available; and [update_menu_item]
    itself, given the string "no", makes the item available too. *)
Lemma availability_true_for_other_strings :
  Py.in_strings "TRUE" true_words = false
  /\ api_update_item "cafe" 0 (VDict [("is_available", VStr "TRUE")]) (cafe_world 10 false)
     = (Ok 200, cafe_world 10 true)
  /\ update_menu_item "cafe" (VInt 0) (VDict [("is_available", VStr "no")])
       (cafe_world 10 false)
     = (Ok true, cafe_world 10 true).
Proof. repeat split; vm_compute; reflexivity. Qed.

(** ** create_restaurant and the entries it passes over *)

Lemma clean_menu_filter entries :
  clean_menu (List.filter has_name entries) = clean_menu entries.
Proof.
  induction entries as [|e entries IH]; simpl; auto.
  destruct (has_name e) eqn:He; simpl; auto.
  now rewrite He, IH.
Qed.

Lemma clean_item_converts item :
  has_name item = true -> price_converts item = true ->
  exists cleaned, clean_item item = Ok cleaned.
Proof.
  destruct item as [| | | | | |fields]; try discriminate.
  intros _. unfold price_converts, clean_item, rbind. cbn [Py.get].
  destruct (Py.float_of _); [eauto|discriminate].
Qed.

(** The loop makes one item of every entry with a name, in order. *)
Lemma clean_menu_kept entries :
  Forall (fun e => price_converts e = true) (List.filter has_name entries) ->
  exists menu,
    clean_menu entries = Ok menu
    /\ Forall2 (fun e m => clean_item e = Ok m) (List.filter has_name entries) menu.
Proof.
  induction entries as [|e entries IH]; simpl; intros H.
  - exists []. split; [reflexivity|constructor].
  - destruct (has_name e) eqn:He.
    + inversion H as [|? ? Hp Hrest]; subst.
      destruct (clean_item_converts e He Hp) as (c & Hc).
      destruct (IH Hrest) as (menu & Hmenu & Hall).
      exists (c :: menu). unfold rbind. rewrite Hc, Hmenu. split; auto.
    + now apply IH.
Qed.

(** The entries without a name do not matter to the call at all: with
    them or without them it returns or raises the same and leaves the
    same world. *)
Lemma create_restaurant_ignores_nameless slug draft entries theme w :
  Dict.get "menu" draft = Some (VList entries) ->
  create_restaurant slug (VDict draft) theme w
  = create_restaurant slug
      (VDict (Dict.set "menu" (VList (List.filter has_name entries)) draft)) theme w.
Proof.
  intros Hmenu. unfold create_restaurant.
  destruct (negb (VALID_SLUG_PATTERN slug)); [reflexivity|].
  unfold bind, lift, ret.
  destruct (load_data w) as [[data|e] w0]; [|reflexivity].
  destruct (Py.contains slug data) as [[|]|]; try reflexivity.
  cbn [Py.get]. unfold time_time.
  rewrite (get_set_ne "menu" "name"), (get_set_ne "menu" "name_ur"),
    (get_set_ne "menu" "whatsapp") by easy.
  rewrite get_set_eq, Hmenu. cbn [Py.iter].
  now rewrite clean_menu_filter.
Qed.

(** The entries that the loop passes over: a slug that matches the
    pattern and is free, a draft whose menu is the list [entries], and
    the entries with a name all of a price that [float] accepts.  Then
    [create_restaurant] returns [True], as it does for the draft without
    the other entries, and the record read back has a menu with exactly
    one item for each entry with a name, in order: the entries that are
    not dicts or have no [name] leave no trace. *)
Lemma create_restaurant_drops_malformed : forall slug draft entries theme w d,
  VALID_SLUG_PATTERN slug = true ->
  load_data w = (Ok (VDict d), w) ->
  Dict.get slug d = None ->
  Dict.get "menu" draft = Some (VList entries) ->
  Forall (fun e => price_converts e = true) (List.filter has_name entries) ->
  exists rest menu w',
    create_restaurant slug (VDict draft) theme w = (Ok true, w')
    /\ create_restaurant slug
         (VDict (Dict.set "menu" (VList (List.filter has_name entries)) draft)) theme w
       = (Ok true, w')
    /\ get_restaurant slug w' = (Ok (VDict rest), w')
    /\ Dict.get "menu" rest = Some (VList menu)
    /\ Forall2 (fun e m => clean_item e = Ok m) (List.filter has_name entries) menu.
Proof.
  intros slug draft entries theme w d Hslug Hload Hfree Hmenu Hprices.
  destruct (clean_menu_kept entries Hprices) as (menu & Hclean & Hall).
  assert (Hrun : exists rest w',
             create_restaurant slug (VDict draft) theme w = (Ok true, w')
             /\ get_restaurant slug w' = (Ok (VDict rest), w')
             /\ Dict.get "menu" rest = Some (VList menu)).
  { unfold create_restaurant. rewrite Hslug. cbn [negb].
    unfold bind, lift, ret, time_time, save_data.
    rewrite Hload. cbn [Py.contains]. unfold Dict.mem. rewrite Hfree.
    cbn [Py.get]. rewrite Hmenu. cbn [Py.iter]. rewrite Hclean.
    cbn [Py.setitem].
    eexists _, _. split; [reflexivity|]. split.
    - unfold get_restaurant, bind, lift. cbn. rewrite get_set_eq. reflexivity.
    - reflexivity. }
  destruct Hrun as (rest & w' & Hcreate & Hread & Hstored).
  exists rest, menu, w'. repeat split; auto.
  now rewrite <- (create_restaurant_ignores_nameless _ _ _ _ _ Hmenu).
Qed.

Lemma create_restaurant_drops_malformed_witness :
  exists rest menu w',
    create_restaurant "cafe" (VDict mixed_draft) "default" (empty_world 0)
    = (Ok true, w')
    /\ create_restaurant "cafe"
         (VDict (Dict.set "menu"
                   (VList (List.filter has_name
                             [VInt 3; VDict [("price", VInt 4)];
                              VDict [("name", VStr " Tea "); ("price", VStr "2.50");
                                     ("category", VStr "hot drinks")];
                              VStr "name"])) mixed_draft))
         "default" (empty_world 0)
       = (Ok true, w')
    /\ get_restaurant "cafe" w' = (Ok (VDict rest), w')
    /\ Dict.get "menu" rest = Some (VList menu)
    /\ Forall2 (fun e m => clean_item e = Ok m)
         (List.filter has_name
            [VInt 3; VDict [("price", VInt 4)];
             VDict [("name", VStr " Tea "); ("price", VStr "2.50");
                    ("category", VStr "hot drinks")];
             VStr "name"]) menu.
Proof.
  apply (create_restaurant_drops_malformed "cafe" mixed_draft _ "default"
           (empty_world 0) []); try reflexivity.
  repeat constructor.
Defined.

(** An entry with a name is not passed over: when [float] refuses its
    price the call raises and nothing is stored. *)
Example create_restaurant_bad_price_raises :
  create_restaurant "cafe"
    (VDict [("menu", VList [VDict [("name", VStr "Tea"); ("price", VStr "abc")]])])
    "default" (empty_world 0)
  = (Raise ValueError, empty_world 0).
Proof. vm_compute. reflexivity. Qed.

(** C5: a malformed entry can make the creation fail.  For a menu of the
    number 3 and an item named Tea with the price "abc", on an empty
    store, [float] refuses the price: [create_restaurant] raises
    [ValueError] and stores nothing, and so does [signup] with that menu,
    while the same draft without the item is created.  No restaurant is
    made of the remaining entries. *)
Theorem create_restaurant_fails_on_malformed_price :
  create_restaurant "cafe"
    (VDict [("menu", VList [VInt 3;
                            VDict [("name", VStr "Tea"); ("price", VStr "abc")]])])
    "default" (empty_world 0)
  = (Raise ValueError, empty_world 0)
  /\ signup "default"
       (VDict [("slug", VStr "cafe");
               ("menu", VList [VInt 3;
                               VDict [("name", VStr "Tea"); ("price", VStr "abc")]])])
       (empty_world 0)
     = (Raise ValueError, empty_world 0)
  /\ fst (create_restaurant "cafe" (VDict [("menu", VList [VInt 3])])
            "default" (empty_world 0))
     = Ok true.
Proof. repeat split; vm_compute; reflexivity. Qed.

(** What the sample draft leaves in the store: one item. *)
Example create_restaurant_mixed_draft :
  create_restaurant "cafe" (VDict mixed_draft) "default" (empty_world 0)
  = (Ok true,
     mkWorld (Document (VDict [("cafe", VDict
        [("name", VStr "Cafe"); ("name_ur", VStr ""); ("whatsapp", VStr "");
         ("menu", VList [VDict
            [("name", VStr "Tea"); ("name_ur", VStr ""); ("price", VFloat 2.5);
             ("image_url", VStr ""); ("category", VStr "Hot Drinks");
             ("is_available", VBool true); ("is_chefs_special", VBool false)]]);
         ("theme", VStr "default"); ("created_at", VFloat 0)])])) [] 0%float).
Proof. vm_compute. reflexivity. Qed.

(** ** The event store *)

Module EventFacts.
Import Analytics Events.

Lemma index_eqb_eq a b : index_eqb a b = true <-> a = b.
Proof.
  destruct a, b; simpl; try (split; [discriminate|congruence]); try tauto.
  rewrite Z.eqb_eq. split; congruence.
Qed.

Lemma index_eqb_refl a : index_eqb a a = true.
Proof. now apply index_eqb_eq. Qed.

Lemma index_eqb_sym a b : index_eqb a b = index_eqb b a.
Proof.
  destruct (index_eqb a b) eqn:E.
  - apply index_eqb_eq in E. subst. now rewrite index_eqb_refl.
  - destruct (index_eqb b a) eqn:E'; auto.
    apply index_eqb_eq in E'. subst. now rewrite index_eqb_refl in E.
Qed.

(** *** The window of a month *)

(** What [datetime(year, month, 1)] returns, and for which arguments. *)
Lemma first_of_month_value y m d :
  first_of_month y m = Ok d ->
  d = mkDatetime y m 1 0 0 0 0 /\ 1 <= y <= 9999 /\ 1 <= m <= 12.
Proof.
  unfold first_of_month, MINYEAR, MAXYEAR.
  destruct (negb (c_int y && c_int m)); [discriminate|].
  destruct ((1 <=? y) && (y <=? 9999) && (1 <=? m) && (m <=? 12)) eqn:E;
    [|discriminate].
  intros H. inversion H.
  repeat (apply andb_prop in E as [E ?]).
  repeat match goal with H : (_ <=? _) = true |- _ => apply Z.leb_le in H end.
  repeat split; lia.
Qed.

(** The window from the first instant of a month to the first instant
    of the next holds exactly the timestamps of that month. *)
Lemma month_window_ts y m start stop t :
  valid_ts t ->
  first_of_month y m = Ok start ->
  (if m =? 12 then first_of_month (y + 1) 1 else first_of_month y (m + 1)) = Ok stop ->
  dt_leb start t && dt_ltb t stop = (year t =? y) && (month t =? m).
Proof.
  intros (Hm & Hd & Hh & Hmi & Hs & Hus) Hstart Hstop.
  apply first_of_month_value in Hstart as (-> & Hy & Hm12).
  assert (Hnext : stop = if m =? 12 then mkDatetime (y + 1) 1 1 0 0 0 0
                         else mkDatetime y (m + 1) 1 0 0 0 0).
  { destruct (m =? 12); apply first_of_month_value in Hstop as (-> & _);
      reflexivity. }
  subst stop. clear Hstop.
  destruct t as [ty tm td th tmi tsec tus].
  cbn [year month day hour minute second microsecond] in *.
  destruct (Z.eqb_spec m 12) as [->|Hne];
    unfold dt_leb, dt_ltb, dt_compare, fields_of;
    cbn [year month day hour minute second microsecond lex_compare];
    repeat match goal with
      | |- context [?a ?= ?b] => destruct (Z.compare_spec a b)
      end;
    repeat match goal with
      | |- context [?a =? ?b] => destruct (Z.eqb_spec a b)
      end;
    try reflexivity; lia.
Qed.

(** The window from the first instant of a month to the first instant
    of the next holds exactly the events stamped in that month. *)
Lemma month_window slug etype y m start stop e :
  valid_ts (ts e) ->
  first_of_month y m = Ok start ->
  (if m =? 12 then first_of_month (y + 1) 1 else first_of_month y (m + 1)) = Ok stop ->
  in_window slug etype start stop e = in_month slug etype y m e.
Proof.
  intros Hv Hstart Hstop. unfold in_window, in_month.
  rewrite <- !andb_assoc. do 2 f_equal.
  now apply month_window_ts.
Qed.

Lemma count_rows_ext p q rows :
  (forall e, In e rows -> p e = q e) -> count_rows p rows = count_rows q rows.
Proof.
  intros H. unfold count_rows. f_equal. f_equal.
  induction rows as [|e rows IH]; simpl; auto.
  rewrite (H e) by now left.
  rewrite IH by (intros; apply H; now right). reflexivity.
Qed.

(** *** Grouping *)

Lemma group_count_count_in k k' groups :
  group_count k (count_in k' groups)
  = group_count k groups + (if index_eqb k k' then 1 else 0).
Proof.
  induction groups as [|[k0 c0] groups IH]; simpl.
  - destruct (index_eqb k k'); lia.
  - destruct (index_eqb k' k0) eqn:E; simpl.
    + apply index_eqb_eq in E. subst k0.
      destruct (index_eqb k k'); lia.
    + destruct (index_eqb k k0) eqn:E0; auto.
      apply index_eqb_eq in E0. subst k0.
      rewrite index_eqb_sym, E. lia.
Qed.

Lemma keys_count_in k groups x :
  In x (List.map fst (count_in k groups)) -> x = k \/ In x (List.map fst groups).
Proof.
  induction groups as [|[k0 c0] groups IH]; simpl.
  - intros [<-|[]]. now left.
  - destruct (index_eqb k k0); simpl; intros [<-|H]; auto.
    destruct (IH H); auto.
Qed.

Lemma NoDup_count_in k groups :
  List.NoDup (List.map fst groups) -> List.NoDup (List.map fst (count_in k groups)).
Proof.
  induction groups as [|[k0 c0] groups IH]; simpl; intros H.
  - constructor; [intros []|constructor].
  - inversion H as [|? ? Hnotin Hnd]; subst.
    destruct (index_eqb k k0) eqn:E; simpl.
    + now constructor.
    + constructor; auto.
      intros Hin. apply keys_count_in in Hin as [->|Hin]; auto.
      now rewrite index_eqb_refl in E.
Qed.

Lemma positive_count_in k groups :
  Forall (fun g => 0 < snd g) groups ->
  Forall (fun g => 0 < snd g) (count_in k groups).
Proof.
  induction 1 as [|[k0 c0] groups Hc Hrest IH]; simpl.
  - repeat constructor.
  - simpl in Hc. destruct (index_eqb k k0); constructor; simpl; auto; lia.
Qed.

Lemma clicks_on_cons k e rows :
  clicks_on k (e :: rows)
  = (if index_eqb k (item_index e) then 1 else 0) + clicks_on k rows.
Proof.
  unfold clicks_on, count_rows. simpl.
  destruct (index_eqb k (item_index e)); simpl length; lia.
Qed.

Lemma grouped_spec rows : forall groups,
  (forall k, group_count k (grouped rows groups)
             = group_count k groups + clicks_on k rows)
  /\ (List.NoDup (List.map fst groups) ->
      List.NoDup (List.map fst (grouped rows groups)))
  /\ (Forall (fun g => 0 < snd g) groups ->
      Forall (fun g => 0 < snd g) (grouped rows groups)).
Proof.
  induction rows as [|e rows IH]; intros groups; simpl.
  - repeat split; auto. intros k. unfold clicks_on, count_rows. simpl. lia.
  - destruct (IH (count_in (item_index e) groups)) as (Hc & Hn & Hp).
    repeat split.
    + intros k. rewrite Hc, group_count_count_in, clicks_on_cons. lia.
    + intros H. now apply Hn, NoDup_count_in.
    + intros H. now apply Hp, positive_count_in.
Qed.

Lemma group_count_in k c groups :
  List.NoDup (List.map fst groups) -> In (k, c) groups -> group_count k groups = c.
Proof.
  induction groups as [|[k0 c0] groups IH]; simpl; [tauto|].
  intros Hnd [Heq|Hin]; inversion Hnd as [|? ? Hnotin Hnd']; subst.
  - inversion Heq; subst. now rewrite index_eqb_refl.
  - destruct (index_eqb k k0) eqn:E; auto.
    apply index_eqb_eq in E. subst k0.
    exfalso. apply Hnotin. change k with (fst (k, c)). now apply in_map.
Qed.

Lemma group_count_found k groups :
  group_count k groups <> 0 -> In (k, group_count k groups) groups.
Proof.
  induction groups as [|[k0 c0] groups IH]; simpl; [tauto|].
  destruct (index_eqb k k0) eqn:E; intros H.
  - apply index_eqb_eq in E. subst. now left.
  - right. now apply IH.
Qed.

(** The groups: one for each index that has rows, with their number. *)
Lemma group_by_index_spec rows :
  List.NoDup (List.map fst (group_by_index rows))
  /\ (forall k c, In (k, c) (group_by_index rows) -> c = clicks_on k rows /\ 0 < c)
  /\ (forall k, 0 < clicks_on k rows -> In (k, clicks_on k rows) (group_by_index rows)).
Proof.
  destruct (grouped_spec rows []) as (Hc & Hn & Hp).
  change (grouped rows []) with (group_by_index rows) in *.
  assert (Hc' : forall k, group_count k (group_by_index rows) = clicks_on k rows)
    by (intros k; rewrite Hc; reflexivity).
  specialize (Hn (List.NoDup_nil _)). specialize (Hp (List.Forall_nil _)).
  repeat split; auto.
  - rewrite <- Hc'. symmetry. now apply group_count_in.
  - rewrite List.Forall_forall in Hp. now apply (Hp (k, c)).
  - intros k Hk. rewrite <- Hc' in *. apply group_count_found. lia.
Qed.

(** *** Ordering and the limit *)

Lemma place_perm g sorted : Permutation (place g sorted) (g :: sorted).
Proof.
  induction sorted as [|h sorted IH]; simpl; auto.
  destruct (snd h <? snd g); auto.
  rewrite IH. apply perm_swap.
Qed.

Lemma place_sorted g sorted :
  StronglySorted desc sorted -> StronglySorted desc (place g sorted).
Proof.
  induction 1 as [|h sorted Hs IH Hh]; simpl.
  - repeat constructor.
  - destruct (Z.ltb_spec (snd h) (snd g)).
    + constructor; [now constructor|].
      constructor; [unfold desc; lia|].
      rewrite List.Forall_forall in *. intros x Hx. specialize (Hh x Hx).
      unfold desc in *. lia.
    + constructor; auto.
      rewrite List.Forall_forall in *. intros x Hx.
      apply (Permutation_in _ (place_perm g sorted)) in Hx as [<-|Hx]; auto.
Qed.

Lemma ordered_spec groups : forall sorted,
  Permutation (fold_left (fun sorted g => place g sorted) groups sorted)
              (groups ++ sorted)
  /\ (StronglySorted desc sorted ->
      StronglySorted desc (fold_left (fun sorted g => place g sorted) groups sorted)).
Proof.
  induction groups as [|g groups IH]; intros sorted; simpl.
  - split; auto.
  - destruct (IH (place g sorted)) as (Hp & Hs). split.
    + rewrite Hp, place_perm. symmetry. apply Permutation_middle.
    + intros H. now apply Hs, place_sorted.
Qed.

Lemma order_by_cnt_desc_perm groups : Permutation (order_by_cnt_desc groups) groups.
Proof.
  destruct (ordered_spec groups []) as (Hp & _).
  now rewrite app_nil_r in Hp.
Qed.

Lemma order_by_cnt_desc_sorted groups : StronglySorted desc (order_by_cnt_desc groups).
Proof. apply ordered_spec. constructor. Qed.

Lemma In_firstn {A} n (l : list A) x : In x (firstn n l) -> In x l.
Proof.
  intros H. rewrite <- (firstn_skipn n l). apply in_or_app. now left.
Qed.

Lemma In_skipn {A} n (l : list A) x : In x (skipn n l) -> In x l.
Proof.
  intros H. rewrite <- (firstn_skipn n l). apply in_or_app. now right.
Qed.

Lemma firstn_sorted {A} (R : A -> A -> Prop) n l :
  StronglySorted R l -> StronglySorted R (firstn n l).
Proof.
  intros H. revert n. induction H as [|x l Hl IH Hx]; intros [|n]; simpl;
    try constructor; auto.
  rewrite List.Forall_forall in *. intros y Hy. apply Hx.
  eapply In_firstn. exact Hy.
Qed.

Lemma firstn_above_rest {A} (R : A -> A -> Prop) n l x y :
  StronglySorted R l -> In x (firstn n l) -> In y (skipn n l) -> R x y.
Proof.
  intros H. revert n. induction H as [|h l Hl IH Hh]; intros [|n]; simpl;
    try tauto.
  intros [<-|Hx] Hy.
  - rewrite List.Forall_forall in Hh. apply Hh. eapply In_skipn. exact Hy.
  - eauto.
Qed.

Lemma NoDup_map_firstn {A B} (f : A -> B) n l :
  List.NoDup (List.map f l) -> List.NoDup (List.map f (firstn n l)).
Proof.
  revert n. induction l as [|x l IH]; intros [|n]; simpl; auto using List.NoDup_nil.
  intros H. inversion H as [|? ? Hnotin Hnd]; subst. constructor; auto.
  intros Hin. apply Hnotin. apply in_map_iff in Hin as (y & <- & Hy).
  apply in_map. eapply In_firstn. exact Hy.
Qed.

(** The query returns a top list of the rows, whatever the limit. *)
Lemma top_items_is_top limit rows : is_top limit rows (top_items limit rows).
Proof.
  destruct (group_by_index_spec rows) as (Hnd & Hin & Hall).
  pose proof (order_by_cnt_desc_perm (group_by_index rows)) as Hperm.
  pose proof (order_by_cnt_desc_sorted (group_by_index rows)) as Hsorted.
  unfold top_items. set (sorted := order_by_cnt_desc (group_by_index rows)) in *.
  repeat split.
  - rewrite length_firstn. lia.
  - now apply firstn_sorted.
  - apply NoDup_map_firstn.
    eapply Permutation_NoDup; [|exact Hnd].
    apply Permutation_map. now symmetry.
  - apply (Hin k c). apply (Permutation_in _ Hperm).
    eapply In_firstn. eassumption.
  - apply (Hin k c). apply (Permutation_in _ Hperm).
    eapply In_firstn. eassumption.
  - intros k Hk.
    assert (Hs : In (k, clicks_on k rows) sorted)
      by (apply (Permutation_in _ (Permutation_sym Hperm)); auto).
    rewrite <- (firstn_skipn limit sorted) in Hs.
    apply in_app_or in Hs as [Hs|Hs]; [now left|right].
    split.
    + rewrite length_firstn. apply Nat.min_l.
      destruct (Nat.le_gt_cases limit (length sorted)); auto.
      rewrite skipn_all2 in Hs by lia. destruct Hs.
    + intros g Hg.
      apply (firstn_above_rest desc limit sorted g _ Hsorted Hg Hs).
Qed.

End EventFacts.

Section Summaries.
Import Analytics Events EventFacts.

Lemma first_of_month_ok y m :
  1 <= y <= 9999 -> 1 <= m <= 12 ->
  first_of_month y m = Ok (mkDatetime y m 1 0 0 0 0).
Proof.
  intros Hy Hm. unfold first_of_month, MINYEAR, MAXYEAR.
  assert (Hint : c_int y && c_int m = true).
  { unfold c_int. apply andb_true_intro; split; apply andb_true_intro; split;
      try apply Z.leb_le; try apply Z.ltb_lt; lia. }
  rewrite Hint. cbn [negb].
  destruct (Z.leb_spec 1 y); [|lia]. destruct (Z.leb_spec y 9999); [|lia].
  destruct (Z.leb_spec 1 m); [|lia]. destruct (Z.leb_spec m 12); [|lia].
  reflexivity.
Qed.

Lemma filter_ext_rows (p q : event -> bool) rows :
  (forall e, In e rows -> p e = q e) -> List.filter p rows = List.filter q rows.
Proof.
  induction rows as [|e rows IH]; intros H; simpl; auto.
  rewrite (H e) by now left.
  rewrite IH by (intros; apply H; now right). reflexivity.
Qed.

(** C7: for a year and month of the calendar (the month before January
    10000 at the latest) and timestamps as the database stamps them,
    [get_monthly_summary] returns a summary whose [scans] and [clicks]
    are the numbers of scan and click events of the slug stamped in that
    month, and whose top list is the ten most clicked item indices of
    those clicks in descending order of count.  For three scans and five
    clicks in January 2024, two on item 0 and three on item 1, it is
    3 scans, 5 clicks and the top list (1, 3), (0, 2), also when events
    of December, February and another slug surround them; the click of
    the last second of December 2023 is in the summary of that
    December. *)
Theorem get_monthly_summary_counts_month :
  (forall now events slug y m,
     Forall (fun e => valid_ts (ts e)) events ->
     1 <= y <= 9999 -> 1 <= m <= 12 -> y < 9999 \/ m < 12 ->
     exists r,
       get_monthly_summary now events slug (Some y) (Some m) = Ok r
       /\ s_year r = y /\ s_month r = m
       /\ scans r = count_rows (in_month slug "scan" y m) events
       /\ clicks r = count_rows (in_month slug "click" y m) events
       /\ is_top 10 (List.filter (in_month slug "click" y m) events) (top r))
  /\ (forall now,
       get_monthly_summary now january_events "cafe" (Some 2024) (Some 1)
       = Ok (mkSummary 2024 1 3 5 [(Some 1, 3); (Some 0, 2)]))
  /\ (forall now,
       get_monthly_summary now winter_events "cafe" (Some 2024) (Some 1)
       = Ok (mkSummary 2024 1 3 5 [(Some 1, 3); (Some 0, 2)]))
  /\ (forall now,
       get_monthly_summary now winter_events "cafe" (Some 2023) (Some 12)
       = Ok (mkSummary 2023 12 0 1 [(Some 0, 1)])).
Proof.
  split; [|repeat split; intros now; vm_compute; reflexivity].
  intros now events slug y m Hts Hy Hm Hlast.
  pose proof (first_of_month_ok y m Hy Hm) as Hstart.
  assert (Hstop : exists stop,
             (if m =? 12 then first_of_month (y + 1) 1 else first_of_month y (m + 1))
             = Ok stop).
  { destruct (Z.eqb_spec m 12).
    - eexists. apply first_of_month_ok; lia.
    - eexists. apply first_of_month_ok; lia. }
  destruct Hstop as (stop & Hstop).
  assert (Hwin : forall etype e, In e events ->
             in_window slug etype (mkDatetime y m 1 0 0 0 0) stop e
             = in_month slug etype y m e).
  { intros etype e He. eapply month_window; eauto.
    rewrite List.Forall_forall in Hts. now apply Hts. }
  unfold get_monthly_summary, rbind. rewrite Hstart, Hstop.
  eexists. split; [reflexivity|]. cbn [s_year s_month scans clicks top].
  split; [reflexivity|]. split; [reflexivity|].
  split; [apply count_rows_ext; intros; now apply Hwin|].
  split; [apply count_rows_ext; intros; now apply Hwin|].
  rewrite (filter_ext_rows
             (in_window slug "click" (mkDatetime y m 1 0 0 0 0) stop)
             (in_month slug "click" y m))
    by (intros; now apply Hwin).
  apply top_items_is_top.
Qed.
End Summaries.

Section SummaryWitnesses.
Import Analytics Events EventFacts.

Lemma january_events_valid : Forall (fun e => valid_ts (ts e)) january_events.
Proof. repeat constructor; simpl; lia. Qed.

Lemma get_monthly_summary_counts_month_witness :
  exists r,
    get_monthly_summary (at_ 2024 3 1 0 0 0) january_events "cafe" (Some 2024) (Some 1)
    = Ok r
    /\ s_year r = 2024 /\ s_month r = 1
    /\ scans r = count_rows (in_month "cafe" "scan" 2024 1) january_events
    /\ clicks r = count_rows (in_month "cafe" "click" 2024 1) january_events
    /\ is_top 10 (List.filter (in_month "cafe" "click" 2024 1) january_events) (top r).
Proof.
  apply (proj1 get_monthly_summary_counts_month
           (at_ 2024 3 1 0 0 0) january_events "cafe" 2024 1).
  - exact january_events_valid.
  - lia.
  - lia.
  - left. lia.
Defined.

(** C10: both queries return [top_items] of the clicks they select, and
    in such a list the clicks on no item are one group: at most one
    entry has the null index, its count is the number of selected clicks
    on no item, and when there are such clicks the entry is in the list
    unless the list is full of entries with at least as many clicks.
    With two clicks on no item and one on each of eleven items, the
    monthly top ten holds the null entry and nine items; with
    twenty-one items, the top twenty of [get_top_items] holds the null
    entry and nineteen items. *)
Theorem null_index_is_one_group :
  (forall now events slug year_arg month_arg r,
     get_monthly_summary now events slug year_arg month_arg = Ok r ->
     exists start stop,
       top r = top_items 10 (List.filter (in_window slug "click" start stop) events))
  /\ (forall now events slug since_days t,
       get_top_items now events slug since_days = Ok t ->
       exists since,
         t = top_items 20 (List.filter (since_window slug since) events))
  /\ (forall limit rows,
       let t := top_items limit rows in
       List.NoDup (List.map fst t)
       /\ (forall c, In (None, c) t -> c = clicks_on None rows /\ 0 < c)
       /\ (0 < clicks_on None rows ->
           In (None, clicks_on None rows) t
           \/ (length t = limit /\ forall g, In g t -> clicks_on None rows <= snd g)))
  /\ (forall now,
       exists r,
         get_monthly_summary now (busy_day 11) "cafe" (Some 2024) (Some 1) = Ok r
         /\ length (top r) = 10%nat
         /\ In (None, 2) (top r)
         /\ length (genuine (top r)) = 9%nat)
  /\ (exists t,
         get_top_items (at_ 2024 1 20 0 0 0) (busy_day 21) "cafe" 30 = Ok t
         /\ length t = 20%nat
         /\ In (None, 2) t
         /\ length (genuine t) = 19%nat).
Proof.
  split; [|split; [|split; [|split]]].
  - intros now events slug year_arg month_arg r H.
    unfold get_monthly_summary, rbind in H.
    destruct (first_of_month _ _) as [start|]; [|discriminate].
    destruct (if _ =? 12 then _ else _) as [stop|]; [|discriminate].
    inversion H; subst r. now exists start, stop.
  - intros now events slug since_days t H.
    unfold get_top_items, rbind in H.
    destruct (minus_days now since_days) as [since|]; [|discriminate].
    inversion H. now exists since.
  - intros limit rows t.
    destruct (top_items_is_top limit rows) as (_ & _ & Hnd & Hin & Hall).
    repeat split; auto; now apply (Hin None c).
  - intros now. eexists. split; [vm_compute; reflexivity|].
    repeat split. simpl. tauto.
  - eexists. split; [vm_compute; reflexivity|].
    repeat split. simpl. tauto.
Qed.

Lemma null_index_is_one_group_witness :
  exists start stop,
    [(None, 1); (Some 4, 1)]
    = top_items 10
        (List.filter (in_window "cafe" "click" start stop)
           (after (record_click (at_ 2024 1 3 0 0 0) "cafe" (Some 4))
              (after (record_click (at_ 2024 1 2 0 0 0) "cafe" None) []))).
Proof.
  exact (proj1 null_index_is_one_group (at_ 2024 3 1 0 0 0)
           (after (record_click (at_ 2024 1 3 0 0 0) "cafe" (Some 4))
              (after (record_click (at_ 2024 1 2 0 0 0) "cafe" None) []))
           "cafe" (Some 2024) (Some 1)
           (mkSummary 2024 1 0 2 [(None, 1); (Some 4, 1)]) eq_refl).
Defined.
End SummaryWitnesses.

(** * Further properties *)

(** ** The slug pattern *)

Lemma slug_tail_spec s :
  slug_tail s = true <->
  all_chars slug_char s = true
  \/ exists body, all_chars slug_char body = true /\ s = (body ++ line_feed)%string.
Proof.
  induction s as [|c s IH]; simpl.
  - split; auto.
  - destruct (slug_char c) eqn:Hc; simpl.
    + rewrite IH. split.
      * intros [H|(body & Hb & ->)]; [now left|right].
        exists (String c body). simpl. now rewrite Hc, Hb.
      * intros [H|(body & Hb & Heq)]; [now left|right].
        destruct body as [|b body]; simpl in *.
        -- inversion Heq; subst. discriminate.
        -- inversion Heq; subst. apply andb_prop in Hb as [_ Hb]. eauto.
    + split.
      * intros H. apply andb_prop in H as [Hcode Hs].
        apply Z.eqb_eq in Hcode. apply String.eqb_eq in Hs. subst s.
        right. exists EmptyString. split; auto. simpl. unfold line_feed. f_equal.
        unfold Text.code in Hcode. unfold Text.chr.
        rewrite <- Hcode, N2Z.id. now rewrite ascii_N_embedding.
      * intros [H|(body & Hb & Heq)]; [discriminate|].
        destruct body as [|b body]; simpl in *.
        -- inversion Heq; subst. reflexivity.
        -- inversion Heq; subst. now rewrite Hc in Hb.
Qed.

(** The pattern accepts exactly the non-empty texts of lower-case letters,
    digits and hyphens, and those followed by one line feed. *)
Theorem slug_pattern_accepts : forall slug,
  VALID_SLUG_PATTERN slug = true <->
  exists body,
    body <> "" /\ all_chars slug_char body = true
    /\ (slug = body \/ slug = (body ++ line_feed)%string).
Proof.
  intros slug. destruct slug as [|c s]; simpl.
  - split; [discriminate|].
    intros (body & Hne & _ & [H|H]); [congruence|].
    destruct body; [congruence|discriminate].
  - rewrite andb_true_iff, slug_tail_spec. split.
    + intros (Hc & [Hs|(body & Hb & ->)]).
      * exists (String c s). simpl. rewrite Hc, Hs. repeat split; auto; try discriminate.
      * exists (String c body). simpl. rewrite Hc, Hb. repeat split; auto; try discriminate.
    + intros (body & Hne & Hb & [H|H]); destruct body as [|b body]; try congruence;
        simpl in *; inversion H; subst; apply andb_prop in Hb as [Hc Hb]; eauto.
Qed.

(** ** Writes happen only on success *)

Lemma quiet_load_data : quiet load_data.
Proof. intros w. apply load_data_world. Qed.

Lemma quiet_lift {A} (r : result A) : quiet (lift r).
Proof. intros w. reflexivity. Qed.

Lemma quiet_ret {A} (a : A) : quiet (ret a).
Proof. intros w. reflexivity. Qed.

Lemma quiet_raise {A} (e : exn) : quiet (@raise A e).
Proof. intros w. reflexivity. Qed.

Lemma quiet_time_time : quiet time_time.
Proof. intros w. reflexivity. Qed.

Lemma quiet_bind {A B} (m : M A) (k : A -> M B) :
  quiet m -> (forall a, quiet (k a)) -> quiet (bind m k).
Proof.
  intros Hm Hk w. unfold bind. specialize (Hm w).
  destruct (m w) as [[a|e] w1]; simpl in *; subst; auto. apply Hk.
Qed.

Lemma quiet_commits (m : M bool) : quiet m -> commits m.
Proof. intros H w. left. apply H. Qed.

Lemma commits_bind {A} (m : M A) (k : A -> M bool) :
  quiet m -> (forall a, commits (k a)) -> commits (bind m k).
Proof.
  intros Hm Hk w. unfold bind. specialize (Hm w).
  destruct (m w) as [[a|e] w1]; simpl in *; subst; auto. apply Hk.
Qed.

Lemma commits_save data : commits (bind (save_data data) (fun _ => ret true)).
Proof. intros w. right. reflexivity. Qed.

Lemma commits_except m : commits m -> commits (except_value_type m).
Proof.
  intros H w. unfold except_value_type. specialize (H w).
  destruct (m w) as [[b|[]] w1]; simpl in *; auto;
    destruct H as [H|H]; auto; discriminate.
Qed.

Create HintDb quiet.

#[local] Hint Resolve quiet_load_data quiet_lift quiet_ret quiet_raise
  quiet_time_time commits_save : quiet.

(** One step of a proof that a computation commits. *)
Ltac commits_step :=
  match goal with
  | |- commits (bind (save_data _) _) => apply commits_save
  | |- commits (bind _ _) => apply commits_bind; [auto with quiet|intros ?]
  | |- commits (except_value_type _) => apply commits_except
  | |- commits (ret _) => apply quiet_commits, quiet_ret
  | |- commits (if ?c then _ else _) => destruct c
  | |- commits (match ?x with _ => _ end) => destruct x
  end.

Lemma create_restaurant_commits slug draft theme :
  commits (create_restaurant slug draft theme).
Proof. unfold create_restaurant. repeat commits_step. Qed.

Lemma update_restaurant_commits slug record : commits (update_restaurant slug record).
Proof. unfold update_restaurant. repeat commits_step. Qed.

Lemma update_menu_item_commits slug index fields :
  commits (update_menu_item slug index fields).
Proof. unfold update_menu_item, update_menu_item_try. repeat commits_step. Qed.

Lemma delete_restaurant_commits slug : commits (delete_restaurant slug).
Proof. unfold delete_restaurant. repeat commits_step. Qed.

Lemma set_restaurant_theme_commits slug theme : commits (set_restaurant_theme slug theme).
Proof. unfold set_restaurant_theme. repeat commits_step. Qed.

Lemma track_click_commits slug item_index : commits (track_click slug item_index).
Proof. unfold track_click. repeat commits_step. Qed.

(** Every operation of data.py that writes the document does so only in
    a call that returns [True]: a call that returns [False] or raises
    leaves the world as it was. *)
Theorem writes_only_on_success : forall w,
  (forall slug draft theme,
     snd (create_restaurant slug draft theme w) = w
     \/ fst (create_restaurant slug draft theme w) = Ok true)
  /\ (forall slug record,
        snd (update_restaurant slug record w) = w
        \/ fst (update_restaurant slug record w) = Ok true)
  /\ (forall slug index fields,
        snd (update_menu_item slug index fields w) = w
        \/ fst (update_menu_item slug index fields w) = Ok true)
  /\ (forall slug,
        snd (delete_restaurant slug w) = w
        \/ fst (delete_restaurant slug w) = Ok true)
  /\ (forall slug theme,
        snd (set_restaurant_theme slug theme w) = w
        \/ fst (set_restaurant_theme slug theme w) = Ok true)
  /\ (forall slug item_index,
        snd (track_click slug item_index w) = w
        \/ fst (track_click slug item_index w) = Ok true).
Proof.
  intros w. repeat split; intros.
  - apply create_restaurant_commits.
  - apply update_restaurant_commits.
  - apply update_menu_item_commits.
  - apply delete_restaurant_commits.
  - apply set_restaurant_theme_commits.
  - apply track_click_commits.
Qed.

(** ** create_restaurant: what is stored, and on a taken slug *)

Lemma set_absent {V} k (v : V) d :
  Dict.get k d = None -> Dict.set k v d = d ++ [(k, v)].
Proof.
  induction d as [|[k0 v0] d IH]; simpl; auto.
  destruct (String.eqb k k0); [discriminate|]. intros H. now rewrite IH.
Qed.

Lemma valid_slug_not_empty slug : VALID_SLUG_PATTERN slug = true -> slug <> "".
Proof. destruct slug; [discriminate|discriminate]. Qed.

Lemma or_else_not_empty s default : default <> "" -> or_else s default <> "".
Proof.
  unfold or_else. destruct (String.eqb_spec s ""); auto.
Qed.

Lemma stored_theme_valid theme : Py.in_strings (stored_theme theme) VALID_THEMES = true.
Proof.
  unfold stored_theme. destruct (Py.in_strings theme VALID_THEMES) eqn:E; auto.
Qed.

Lemma clean_item_typed item cleaned :
  clean_item item = Ok cleaned -> item_typed cleaned.
Proof.
  unfold clean_item. intros H.
  do 8 (apply rbind_ok in H as (? & _ & H)).
  inversion H. unfold item_typed. do 7 eexists. split; [reflexivity|].
  apply or_else_not_empty. discriminate.
Qed.

Lemma clean_menu_typed entries menu :
  clean_menu entries = Ok menu -> Forall item_typed menu.
Proof.
  revert menu. induction entries as [|e entries IH]; intros menu H; simpl in H.
  - inversion H. constructor.
  - destruct (has_name e); [|now apply IH].
    apply rbind_ok in H as (c & Hc & H).
    apply rbind_ok in H as (rest & Hrest & H).
    inversion H. constructor; eauto using clean_item_typed.
Qed.

(** A call of [create_restaurant] that returned [True]: what it found and
    what it wrote. *)
Lemma create_restaurant_true_inv slug draft theme w w' :
  create_restaurant slug draft theme w = (Ok true, w') ->
  exists d name name_ur whatsapp menu,
    VALID_SLUG_PATTERN slug = true
    /\ load_data w = (Ok (VDict d), w)
    /\ Dict.mem slug d = false
    /\ name <> ""
    /\ Forall item_typed menu
    /\ w' = with_document w
              (Dict.set slug
                 (VDict (created_record name name_ur whatsapp menu
                           (stored_theme theme) (clock w))) d).
Proof.
  unfold create_restaurant. intros H.
  destruct (VALID_SLUG_PATTERN slug) eqn:Hslug; [|discriminate]. cbn [negb] in H.
  apply bind_ok in H as (data & w1 & Hload & H).
  pose proof (load_data_world w) as Hw. rewrite Hload in Hw. simpl in Hw. subst w1.
  apply bind_ok in H as (taken & w2 & Htaken & H).
  apply lift_ok in Htaken as (Htaken & ->).
  destruct taken; [discriminate|].
  apply bind_ok in H as (name & w1 & Hs & H). apply lift_ok in Hs as (_ & ->).
  apply bind_ok in H as (name_ur & w1 & Hs & H). apply lift_ok in Hs as (_ & ->).
  apply bind_ok in H as (whatsapp & w1 & Hs & H). apply lift_ok in Hs as (_ & ->).
  apply bind_ok in H as (created_at & w1 & Htime & H).
  unfold time_time in Htime. inversion Htime; subst created_at w1. clear Htime.
  apply bind_ok in H as (menu_in & w1 & Hs & H). apply lift_ok in Hs as (_ & ->).
  apply bind_ok in H as (entries & w1 & Hs & H). apply lift_ok in Hs as (_ & ->).
  apply bind_ok in H as (menu & w1 & Hmenu & H).
  apply lift_ok in Hmenu as (Hmenu & ->).
  apply bind_ok in H as (data' & w1 & Hset & H).
  apply lift_ok in Hset as (Hset & ->).
  apply setitem_ok in Hset as (d & -> & ->).
  apply bind_ok in H as (u & w1 & Hsave & H).
  unfold save_data in Hsave. inversion Hsave; subst w1. clear Hsave.
  inversion H; subst w'. clear H.
  cbn [Py.contains] in Htaken.
  assert (Hmem : Dict.mem slug d = false) by congruence. clear Htaken.
  exists d, (or_else (Text.strip (Py.str name)) slug),
    (Text.strip (Py.str name_ur)), (Text.strip (Py.str whatsapp)), menu.
  repeat split; auto.
  - apply or_else_not_empty. now apply valid_slug_not_empty.
  - eauto using clean_menu_typed.
Qed.

(** On a slug that the store has, [create_restaurant] returns [False]. *)
Lemma create_restaurant_taken slug draft theme w d :
  load_data w = (Ok (VDict d), w) ->
  Dict.mem slug d = true ->
  create_restaurant slug draft theme w = (Ok false, w).
Proof.
  intros Hload Hmem. unfold create_restaurant.
  destruct (negb (VALID_SLUG_PATTERN slug)); [reflexivity|].
  unfold bind, lift. rewrite Hload. cbn [Py.contains]. now rewrite Hmem.
Qed.

(** [create_restaurant] is not idempotent: after a call that returned
    [True], a second call for the slug, with any draft and theme, returns
    [False] and leaves the store with the first record. *)
Theorem create_restaurant_twice : forall slug draft theme draft2 theme2 w w',
  create_restaurant slug draft theme w = (Ok true, w') ->
  create_restaurant slug draft2 theme2 w' = (Ok false, w').
Proof.
  intros slug draft theme draft2 theme2 w w' H.
  destruct (create_restaurant_true_inv _ _ _ _ _ H)
    as (d & name & name_ur & whatsapp & menu & _ & _ & _ & _ & _ & ->).
  eapply create_restaurant_taken; [reflexivity|].
  unfold Dict.mem. now rewrite get_set_eq.
Qed.

Lemma create_restaurant_twice_witness :
  create_restaurant "cafe" (VDict [("name", VStr "Other")]) "traditional"
    (with_document (empty_world 0)
       [("cafe", VDict (created_record "Cafe" "" "" [] "default" 0))])
  = (Ok false,
     with_document (empty_world 0)
       [("cafe", VDict (created_record "Cafe" "" "" [] "default" 0))]).
Proof.
  apply (create_restaurant_twice "cafe" (VDict [("name", VStr "Cafe")]) "default"
           (VDict [("name", VStr "Other")]) "traditional" (empty_world 0)).
  vm_compute. reflexivity.
Defined.

(** The record that a successful [create_restaurant] stores has the six
    fields, a name that is not empty, a theme among the valid ones (the
    default theme given, or "default" when that is not valid), the time
    of the call and a menu of items with the seven fields of their types
    and a category that is not empty; the records of the other slugs are
    as they were. *)
Theorem create_restaurant_record : forall slug draft theme w w',
  create_restaurant slug draft theme w = (Ok true, w') ->
  exists name name_ur whatsapp menu,
    get_restaurant slug w'
    = (Ok (VDict (created_record name name_ur whatsapp menu
                    (stored_theme theme) (clock w))), w')
    /\ name <> ""
    /\ Py.in_strings (stored_theme theme) VALID_THEMES = true
    /\ Forall item_typed menu
    /\ forall other, other <> slug ->
         fst (get_restaurant other w') = fst (get_restaurant other w).
Proof.
  intros slug draft theme w w' H.
  destruct (create_restaurant_true_inv _ _ _ _ _ H)
    as (d & name & name_ur & whatsapp & menu & _ & Hload & _ & Hname & Hmenu & ->).
  exists name, name_ur, whatsapp, menu. repeat split; auto.
  - unfold get_restaurant, bind, lift. cbn. now rewrite get_set_eq.
  - apply stored_theme_valid.
  - intros other Hne. unfold get_restaurant, bind, lift. rewrite Hload. cbn.
    rewrite get_set_ne by congruence. reflexivity.
Qed.

Lemma create_restaurant_record_witness :
  exists name name_ur whatsapp menu,
    get_restaurant "cafe"
      (with_document (empty_world 0)
         [("cafe", VDict (created_record "cafe" "" "" [] "default" 0))])
    = (Ok (VDict (created_record name name_ur whatsapp menu
                    (stored_theme "neon") (clock (empty_world 0)))),
       with_document (empty_world 0)
         [("cafe", VDict (created_record "cafe" "" "" [] "default" 0))])
    /\ name <> ""
    /\ Py.in_strings (stored_theme "neon") VALID_THEMES = true
    /\ Forall item_typed menu
    /\ forall other, other <> "cafe" ->
         fst (get_restaurant other
                (with_document (empty_world 0)
                   [("cafe", VDict (created_record "cafe" "" "" [] "default" 0))]))
         = fst (get_restaurant other (empty_world 0)).
Proof.
  apply (create_restaurant_record "cafe" (VDict [("name", VStr "  ")]) "neon"
           (empty_world 0)).
  vm_compute. reflexivity.
Defined.

(** Of a draft, [create_restaurant] reads [name], [name_ur], [whatsapp]
    and [menu] only: any other key, a [theme] among them, changes nothing
    of what the call returns and writes. *)
Theorem create_restaurant_ignores_other_keys : forall slug fields key x theme w,
  ~ In key ["name"; "name_ur"; "whatsapp"; "menu"] ->
  create_restaurant slug (VDict (Dict.set key x fields)) theme w
  = create_restaurant slug (VDict fields) theme w.
Proof.
  intros slug fields key x theme w Hkey. unfold create_restaurant.
  destruct (negb (VALID_SLUG_PATTERN slug)); [reflexivity|].
  unfold bind, lift, ret.
  destruct (load_data w) as [[data|e] w0]; [|reflexivity].
  destruct (Py.contains slug data) as [[|]|]; try reflexivity.
  cbn [Py.get].
  rewrite (get_set_ne key "name"), (get_set_ne key "name_ur"),
    (get_set_ne key "whatsapp"), (get_set_ne key "menu")
    by (intros ->; apply Hkey; simpl; tauto).
  reflexivity.
Qed.

Lemma create_restaurant_ignores_other_keys_witness :
  create_restaurant "cafe"
    (VDict (Dict.set "theme" (VStr "traditional") [("name", VStr "Cafe")]))
    "default" (empty_world 0)
  = create_restaurant "cafe" (VDict [("name", VStr "Cafe")]) "default" (empty_world 0).
Proof.
  apply (create_restaurant_ignores_other_keys "cafe" [("name", VStr "Cafe")]
           "theme" (VStr "traditional") "default" (empty_world 0)).
  simpl. intros [H|[H|[H|[H|[]]]]]; discriminate.
Defined.

(** ** delete_restaurant *)

Lemma get_remove_eq {V} k (d : list (string * V)) :
  List.NoDup (Dict.keys d) -> Dict.get k (dict_remove k d) = None.
Proof.
  induction d as [|[k0 v0] d IH]; simpl; auto.
  intros H. inversion H as [|? ? Hnotin Hnd]; subst.
  destruct (String.eqb_spec k k0) as [->|Hne].
  - now apply get_none_keys.
  - simpl. destruct (String.eqb_spec k k0); [congruence|auto].
Qed.

Lemma get_remove_ne {V} k k' (d : list (string * V)) :
  k <> k' -> Dict.get k' (dict_remove k d) = Dict.get k' d.
Proof.
  intros Hne. induction d as [|[k0 v0] d IH]; simpl; auto.
  destruct (String.eqb_spec k k0) as [->|Hk]; simpl.
  - destruct (String.eqb_spec k' k0); congruence.
  - now rewrite IH.
Qed.

(** When the draft has a menu that can be cleaned, the slug matches the
    pattern and the store has no such slug, [create_restaurant] returns
    [True]. *)
Lemma create_restaurant_ok slug draft theme w d menu :
  VALID_SLUG_PATTERN slug = true ->
  load_data w = (Ok (VDict d), w) ->
  Dict.mem slug d = false ->
  menu_of draft = Ok menu ->
  exists w', create_restaurant slug draft theme w = (Ok true, w').
Proof.
  intros Hslug Hload Hfree Hmenu. unfold create_restaurant.
  rewrite Hslug. cbn [negb]. unfold bind, lift, ret, time_time, save_data.
  rewrite Hload. cbn [Py.contains]. rewrite Hfree.
  unfold menu_of in Hmenu.
  apply rbind_ok in Hmenu as (menu_in & Hin & Hmenu).
  apply rbind_ok in Hmenu as (entries & Hiter & Hclean).
  destruct draft as [| | | | | |fields]; try discriminate.
  cbn [Py.get] in *. injection Hin as <-. rewrite Hiter, Hclean. cbn [Py.setitem].
  eexists. reflexivity.
Qed.

(** Deleting a slug that the store has returns [True]; after it the slug
    reads as not found, the other records are as they were, and a
    [create_restaurant] for the slug succeeds again. *)
Theorem delete_restaurant_frees_slug : forall slug w d record draft theme menu,
  load_data w = (Ok (VDict d), w) ->
  List.NoDup (Dict.keys d) ->
  Dict.get slug d = Some record ->
  VALID_SLUG_PATTERN slug = true ->
  menu_of draft = Ok menu ->
  let w' := with_document w (dict_remove slug d) in
  delete_restaurant slug w = (Ok true, w')
  /\ get_restaurant slug w' = (Ok VNone, w')
  /\ (forall other, other <> slug ->
        fst (get_restaurant other w') = fst (get_restaurant other w))
  /\ exists w'', create_restaurant slug draft theme w' = (Ok true, w'').
Proof.
  intros slug w d record draft theme menu Hload Hnd Hget Hslug Hmenu w'.
  repeat split.
  - unfold delete_restaurant, bind, lift, ret, save_data.
    rewrite Hload. cbn [Py.contains]. unfold Dict.mem. rewrite Hget.
    cbn [negb delitem]. now rewrite Hget.
  - unfold get_restaurant, bind, lift. cbn. now rewrite get_remove_eq.
  - intros other Hne. unfold get_restaurant, bind, lift. rewrite Hload. cbn.
    rewrite get_remove_ne by congruence. reflexivity.
  - assert (Hload' : load_data w' = (Ok (VDict (dict_remove slug d)), w'))
      by reflexivity.
    assert (Hfree : Dict.mem slug (dict_remove slug d) = false)
      by (unfold Dict.mem; now rewrite get_remove_eq).
    exact (create_restaurant_ok slug draft theme w' _ menu Hslug Hload' Hfree Hmenu).
Qed.

Lemma delete_restaurant_frees_slug_witness :
  let w' := with_document (cafe_world 10 true) (dict_remove "cafe"
              [("cafe", VDict (cafe_record 10 true))]) in
  delete_restaurant "cafe" (cafe_world 10 true) = (Ok true, w')
  /\ get_restaurant "cafe" w' = (Ok VNone, w')
  /\ (forall other, other <> "cafe" ->
        fst (get_restaurant other w') = fst (get_restaurant other (cafe_world 10 true)))
  /\ exists w'', create_restaurant "cafe" (VDict []) "default" w' = (Ok true, w'').
Proof.
  apply (delete_restaurant_frees_slug "cafe" (cafe_world 10 true)
           [("cafe", VDict (cafe_record 10 true))] (VDict (cafe_record 10 true))
           (VDict []) "default" []); try reflexivity.
  repeat constructor. intros [].
Defined.

(** ** set_restaurant_theme *)

(** What [set_restaurant_theme] writes for a valid theme and a slug with
    a record. *)
Lemma set_restaurant_theme_ok slug theme w d rest :
  Py.in_strings theme VALID_THEMES = true ->
  load_data w = (Ok (VDict d), w) ->
  Dict.get slug d = Some (VDict rest) ->
  rest <> [] ->
  set_restaurant_theme slug (VStr theme) w
  = (Ok true, with_document w
       (Dict.set slug (VDict (Dict.set "theme" (VStr theme) rest)) d)).
Proof.
  intros Htheme Hl Hg Hn.
  unfold set_restaurant_theme, bind, lift, ret, save_data.
  cbn [in_valid_themes]. rewrite Htheme. cbn [negb].
  rewrite Hl. cbn [Py.get]. rewrite Hg.
  destruct rest; [congruence|]. reflexivity.
Qed.

(** For a valid theme and a slug with a record, [set_restaurant_theme]
    returns [True]; the record read back has that theme and every other
    field as it was, and the same call again leaves the world identical. *)
Theorem set_restaurant_theme_sets : forall slug theme w d rest,
  load_data w = (Ok (VDict d), w) ->
  Dict.get slug d = Some (VDict rest) ->
  rest <> [] ->
  Py.in_strings theme VALID_THEMES = true ->
  let rest' := Dict.set "theme" (VStr theme) rest in
  let w' := with_document w (Dict.set slug (VDict rest') d) in
  set_restaurant_theme slug (VStr theme) w = (Ok true, w')
  /\ get_restaurant slug w' = (Ok (VDict rest'), w')
  /\ Dict.get "theme" rest' = Some (VStr theme)
  /\ (forall k, k <> "theme" -> Dict.get k rest' = Dict.get k rest)
  /\ set_restaurant_theme slug (VStr theme) w' = (Ok true, w').
Proof.
  intros slug theme w d rest Hload Hget Hne Htheme rest' w'.
  pose proof (set_restaurant_theme_ok slug theme) as Hrun.
  repeat split.
  - now apply Hrun.
  - unfold get_restaurant, bind, lift. cbn. now rewrite get_set_eq.
  - apply get_set_eq.
  - intros k Hk. apply get_set_ne. congruence.
  - rewrite (Hrun w' (Dict.set slug (VDict rest') d) rest').
    + unfold w', with_document. cbn [side_files clock].
      unfold rest'. now rewrite !set_set.
    + exact Htheme.
    + reflexivity.
    + apply get_set_eq.
    + apply set_not_nil.
Qed.

Lemma set_restaurant_theme_sets_witness :
  let rest' := Dict.set "theme" (VStr "traditional") (cafe_record 10 true) in
  let w' := with_document (cafe_world 10 true) (Dict.set "cafe" (VDict rest')
              [("cafe", VDict (cafe_record 10 true))]) in
  set_restaurant_theme "cafe" (VStr "traditional") (cafe_world 10 true) = (Ok true, w')
  /\ get_restaurant "cafe" w' = (Ok (VDict rest'), w')
  /\ Dict.get "theme" rest' = Some (VStr "traditional")
  /\ (forall k, k <> "theme" -> Dict.get k rest' = Dict.get k (cafe_record 10 true))
  /\ set_restaurant_theme "cafe" (VStr "traditional") w' = (Ok true, w').
Proof.
  apply (set_restaurant_theme_sets "cafe" "traditional" (cafe_world 10 true)
           [("cafe", VDict (cafe_record 10 true))] (cafe_record 10 true));
    try reflexivity.
  discriminate.
Defined.

(** ** update_restaurant *)

(** For a slug that matches the pattern, [update_restaurant] replaces the
    record wholesale, whether the store had the slug or not: the record
    given is what reads back, the other records are as they were, and the
    same call again leaves the world identical. *)
Theorem update_restaurant_replaces : forall slug record w d,
  VALID_SLUG_PATTERN slug = true ->
  load_data w = (Ok (VDict d), w) ->
  let w' := with_document w (Dict.set slug record d) in
  update_restaurant slug record w = (Ok true, w')
  /\ get_restaurant slug w' = (Ok record, w')
  /\ (forall other, other <> slug ->
        fst (get_restaurant other w') = fst (get_restaurant other w))
  /\ update_restaurant slug record w' = (Ok true, w').
Proof.
  intros slug record w d Hslug Hload w'.
  repeat split.
  - unfold update_restaurant, bind, lift, ret, save_data.
    rewrite Hslug. cbn [negb]. now rewrite Hload.
  - unfold get_restaurant, bind, lift. cbn. now rewrite get_set_eq.
  - intros other Hne. unfold get_restaurant, bind, lift. rewrite Hload. cbn.
    rewrite get_set_ne by congruence. reflexivity.
  - unfold update_restaurant, bind, lift, ret, save_data.
    rewrite Hslug. cbn. unfold w', with_document. cbn. now rewrite set_set.
Qed.

Lemma update_restaurant_replaces_witness :
  let w' := with_document (cafe_world 10 true)
              (Dict.set "cafe" (VStr "closed") [("cafe", VDict (cafe_record 10 true))]) in
  update_restaurant "cafe" (VStr "closed") (cafe_world 10 true) = (Ok true, w')
  /\ get_restaurant "cafe" w' = (Ok (VStr "closed"), w')
  /\ (forall other, other <> "cafe" ->
        fst (get_restaurant other w') = fst (get_restaurant other (cafe_world 10 true)))
  /\ update_restaurant "cafe" (VStr "closed") w' = (Ok true, w').
Proof.
  exact (update_restaurant_replaces "cafe" (VStr "closed") (cafe_world 10 true)
           [("cafe", VDict (cafe_record 10 true))] eq_refl eq_refl).
Defined.

(** ** update_menu_item: unknown fields, bounds, and what is written *)

Lemma validate_fields_known entries : forall acc,
  validate_fields (List.filter known_field entries) acc = validate_fields entries acc.
Proof.
  induction entries as [|[k v] entries IH]; intros acc; [reflexivity|].
  cbn [List.filter validate_fields]. unfold known_field at 1. cbn [fst].
  destruct (Py.in_strings k VALID_ITEM_FIELDS) eqn:Hk; cbn [negb]; [|apply IH].
  cbn [validate_fields]. rewrite Hk. cbn [negb].
  destruct (String.eqb k "price").
  { destruct (Py.float_of v) as [price|]; [|reflexivity].
    destruct (_ || _); [reflexivity|apply IH]. }
  destruct (Py.in_strings k ["is_available"; "is_chefs_special"]); [apply IH|].
  destruct (String.eqb k "category"); apply IH.
Qed.

Lemma validate_fields_unknown entries : forall acc,
  validate_fields (List.filter (fun kv => negb (known_field kv)) entries) acc
  = Ok (Some acc).
Proof.
  induction entries as [|[k v] entries IH]; intros acc; [reflexivity|].
  cbn [List.filter]. unfold known_field at 1. cbn [fst].
  destruct (Py.in_strings k VALID_ITEM_FIELDS) eqn:Hk; cbn [negb]; [apply IH|].
  cbn [validate_fields]. rewrite Hk. cbn [negb]. apply IH.
Qed.

(** The fields of a patch that are not item fields do not matter: the
    call returns and writes the same without them, and a patch of such
    fields only is turned down. *)
Theorem update_menu_item_ignores_unknown_fields : forall slug index entries w,
  update_menu_item slug index (VDict entries) w
  = update_menu_item slug index (VDict (List.filter known_field entries)) w
  /\ update_menu_item slug index
       (VDict (List.filter (fun kv => negb (known_field kv)) entries)) w
     = (Ok false, w).
Proof.
  intros slug index entries w. split.
  - unfold update_menu_item, bind, lift. cbn [Py.items].
    now rewrite validate_fields_known.
  - unfold update_menu_item, bind, lift. cbn [Py.items].
    now rewrite validate_fields_unknown.
Qed.

(** With a patch that passes the checks, an index below 0 or from the
    length of the menu on is turned down and nothing is written; so is a
    slug that the store does not have. *)
Theorem update_menu_item_out_of_range : forall slug n entries valid_fields w d,
  validate_fields entries [] = Ok (Some valid_fields) ->
  load_data w = (Ok (VDict d), w) ->
  (Dict.get slug d = None
   \/ exists rest items,
        Dict.get slug d = Some (VDict rest)
        /\ Dict.get "menu" rest = Some (VList items)
        /\ (n < 0 \/ Z.of_nat (length items) <= n)) ->
  update_menu_item slug (VInt n) (VDict entries) w = (Ok false, w).
Proof.
  intros slug n entries vf w d Hval Hload Hcase.
  unfold update_menu_item, bind, lift, ret. cbn [Py.items]. rewrite Hval.
  destruct (negb (Py.truthy (VDict vf))); [reflexivity|].
  rewrite Hload. cbn [Py.get].
  destruct Hcase as [Hnone|(rest & items & Hslug & Hmenu & Hn)].
  - rewrite Hnone. reflexivity.
  - rewrite Hslug.
    destruct rest as [|r0 rest]; [discriminate|].
    cbn [Py.truthy negb Py.contains]. unfold Dict.mem. rewrite Hmenu. cbn [negb].
    unfold except_value_type, update_menu_item_try, bind, lift, ret.
    cbn [Py.int_of].
    destruct (Z.ltb_spec n 0); [reflexivity|].
    cbn [Py.getitem]. rewrite Hmenu. cbn [Py.len].
    destruct (Z.leb_spec (Z.of_nat (length items)) n); [reflexivity|lia].
Qed.

Lemma update_menu_item_out_of_range_witness :
  update_menu_item "cafe" (VInt 1) (VDict [("name", VStr "Chai")]) (cafe_world 10 true)
  = (Ok false, cafe_world 10 true).
Proof.
  apply (update_menu_item_out_of_range "cafe" 1 [("name", VStr "Chai")]
           [("name", VStr "Chai")] (cafe_world 10 true)
           [("cafe", VDict (cafe_record 10 true))]); try reflexivity.
  right. exists (cafe_record 10 true), [VDict (tea_item 10 true)].
  repeat split. right. simpl. lia.
Defined.

Lemma in_set {V} k (v : V) d kv :
  In kv (Dict.set k v d) -> kv = (k, v) \/ In kv d.
Proof.
  induction d as [|[k0 v0] d IH]; simpl.
  - intros [<-|[]]. now left.
  - destruct (String.eqb k k0); simpl; intros [<-|H]; auto.
    destruct (IH H); auto.
Qed.

Lemma Forall_set {V} (P : string * V -> Prop) k v d :
  P (k, v) -> Forall P d -> Forall P (Dict.set k v d).
Proof.
  intros Hkv Hd. rewrite List.Forall_forall in *. intros kv Hin.
  apply in_set in Hin as [->|Hin]; auto.
Qed.

Lemma get_some_in {V} k (v : V) d : Dict.get k d = Some v -> In (k, v) d.
Proof.
  induction d as [|[k0 v0] d IH]; simpl; [discriminate|].
  destruct (String.eqb_spec k k0) as [->|]; intros H.
  - inversion H. now left.
  - right. auto.
Qed.




(** ** track_click: the counters add up *)

Lemma count_of_set key idx n items :
  count_of key (Dict.set idx (VInt n) items)
  = if String.eqb idx key then n else count_of key items.
Proof.
  unfold count_of. destruct (String.eqb_spec idx key) as [->|Hne].
  - now rewrite get_set_eq.
  - now rewrite get_set_ne.
Qed.

Lemma get_int key items :
  Forall (fun kv => exists n, snd kv = VInt n) items ->
  match Dict.get key items with Some x => x | None => VInt 0 end
  = VInt (count_of key items).
Proof.
  intros Hall. unfold count_of.
  destruct (Dict.get key items) as [v|] eqn:Hget; auto.
  apply get_some_in in Hget. rewrite List.Forall_forall in Hall.
  destruct (Hall _ Hget) as (n & Hn). simpl in Hn. now subst.
Qed.

(** One call on a record with counters: the total goes up by one, and so
    does the counter of the item when the click is on an item. *)
Lemma track_click_counts slug c w d rest total items :
  load_data w = (Ok (VDict d), w) ->
  Dict.get slug d = Some (VDict rest) ->
  counters rest total items ->
  exists rest' items',
    track_click slug c w = (Ok true, with_document w (Dict.set slug (VDict rest') d))
    /\ counters rest' (total + 1) items'
    /\ (forall key, count_of key items' = count_of key items + tally key [c])
    /\ (forall k, k <> "analytics" -> Dict.get k rest' = Dict.get k rest).
Proof.
  intros Hload Hslug (an & Han & Htotal & Hitems & Hall).
  assert (Hne : rest <> []) by (intros ->; discriminate).
  assert (Hbump : bump_total (VDict rest)
                  = Ok (VDict (Dict.set "analytics"
                                 (VDict (Dict.set "total" (VInt (total + 1)) an)) rest))).
  { unfold bump_total, rbind. cbn [Py.getitem]. rewrite Han.
    cbn [Py.getitem]. rewrite Htotal. reflexivity. }
  set (an1 := Dict.set "total" (VInt (total + 1)) an) in *.
  set (rest1 := Dict.set "analytics" (VDict an1) rest) in *.
  assert (Hitems1 : Dict.get "items" an1 = Some (VDict items))
    by (unfold an1; rewrite get_set_ne by discriminate; assumption).
  assert (Htotal1 : Dict.get "total" an1 = Some (VInt (total + 1)))
    by apply get_set_eq.
  assert (Hrun : forall rest3,
             match c with
             | VNone => Ok (VDict rest1)
             | _ => bump_item (VDict rest1) (Py.str c)
             end = Ok (VDict rest3) ->
             track_click slug c w
             = (Ok true, with_document w (Dict.set slug (VDict rest3) d))).
  { intros rest3 H3. unfold track_click, bind, lift, ret, save_data.
    rewrite Hload. cbn [Py.get]. rewrite Hslug.
    destruct rest as [|r0 rest0]; [congruence|].
    cbn [Py.truthy negb Py.contains]. unfold Dict.mem. rewrite Han.
    rewrite Hbump. fold an1. fold rest1. rewrite H3. reflexivity. }
  destruct (match c with VNone => true | _ => false end) eqn:Hc.
  - (* a click on no item *)
    destruct c; try discriminate.
    exists rest1, items. repeat split.
    + now apply Hrun.
    + exists an1. repeat split; auto. apply get_set_eq.
    + intros key. simpl. lia.
    + intros k Hk. apply get_set_ne. congruence.
  - (* a click on an item *)
    set (idx := Py.str c).
    set (items' := Dict.set idx (VInt (count_of idx items + 1)) items).
    set (an2 := Dict.set "items" (VDict items') an1).
    assert (Hitem : bump_item (VDict rest1) idx
                    = Ok (VDict (Dict.set "analytics" (VDict an2) rest1))).
    { unfold bump_item, rbind. cbn [Py.getitem].
      unfold rest1 at 1. rewrite get_set_eq. cbn [Py.getitem]. rewrite Hitems1.
      cbn [Py.get]. rewrite (get_int idx items Hall). reflexivity. }
    exists (Dict.set "analytics" (VDict an2) rest1), items'. repeat split.
    + apply Hrun. destruct c; try discriminate; exact Hitem.
    + exists an2. repeat split.
      * apply get_set_eq.
      * unfold an2. rewrite get_set_ne by discriminate. assumption.
      * apply get_set_eq.
      * apply Forall_set; auto. simpl. eauto.
    + intros key. unfold items'. rewrite count_of_set. fold idx.
      assert (Htally : tally key [c] = if String.eqb idx key then 1 else 0)
        by (unfold idx; destruct c; try discriminate; cbn [tally];
            destruct (String.eqb _ key); reflexivity).
      rewrite Htally. destruct (String.eqb_spec idx key) as [->|]; lia.
    + intros k Hk. unfold rest1. rewrite !get_set_ne by congruence. reflexivity.
Qed.

Lemma tally_cons key c clicks :
  tally key (c :: clicks) = tally key [c] + tally key clicks.
Proof. simpl. lia. Qed.

(** A series of calls on a record with counters. *)
Lemma track_clicks_counts slug clicks : forall w d rest total items,
  load_data w = (Ok (VDict d), w) ->
  Dict.get slug d = Some (VDict rest) ->
  counters rest total items ->
  exists d' rest' items',
    data_json (track_clicks slug clicks w) = Document (VDict d')
    /\ Dict.get slug d' = Some (VDict rest')
    /\ counters rest' (total + Z.of_nat (length clicks)) items'
    /\ (forall key, count_of key items' = count_of key items + tally key clicks)
    /\ (forall k, k <> "analytics" -> Dict.get k rest' = Dict.get k rest).
Proof.
  induction clicks as [|c clicks IH]; intros w d rest total items Hload Hslug Hcount.
  - exists d, rest, items. simpl. rewrite Z.add_0_r. repeat split; auto; try lia.
    unfold load_data in Hload.
    destruct (data_json w); inversion Hload; subst; try discriminate; auto.
  - destruct (track_click_counts slug c w d rest total items Hload Hslug Hcount)
      as (rest1 & items1 & Hrun & Hcount1 & Htally1 & Hsame1).
    cbn [track_clicks]. rewrite Hrun. cbn [snd].
    destruct (IH (with_document w (Dict.set slug (VDict rest1) d))
                 (Dict.set slug (VDict rest1) d) rest1 (total + 1) items1)
      as (d' & rest' & items' & Hdoc & Hslug' & Hcount' & Htally' & Hsame');
      [reflexivity|apply get_set_eq|assumption|].
    exists d', rest', items'. repeat split; auto.
    + replace (total + Z.of_nat (length (c :: clicks)))
        with (total + 1 + Z.of_nat (length clicks)) by (simpl length; lia).
      assumption.
    + intros key. rewrite Htally', Htally1, (tally_cons key c clicks). lia.
    + intros k Hk. rewrite Hsame', Hsame1 by assumption. reflexivity.
Qed.

(** On a record without counters the first call makes them, from zero:
    it does what the call does on the record with zero counters. *)
Lemma track_click_fresh slug c w d rest w1 :
  load_data w = (Ok (VDict d), w) ->
  Dict.get slug d = Some (VDict rest) ->
  rest <> [] ->
  Dict.get "analytics" rest = None ->
  track_click slug c
    (with_document w (Dict.set slug (VDict (Dict.set "analytics" fresh_counters rest)) d))
  = (Ok true, w1) ->
  track_click slug c w = (Ok true, w1).
Proof.
  intros Hload Hslug Hne Hnone.
  unfold track_click, bind, lift, ret, save_data.
  rewrite Hload. cbn [load_data with_document data_json Py.get].
  rewrite Hslug, get_set_eq.
  destruct rest as [|r0 rest0]; [congruence|].
  assert (Hne' : Py.truthy (VDict (Dict.set "analytics" fresh_counters (r0 :: rest0))) = true).
  { pose proof (set_not_nil "analytics" fresh_counters (r0 :: rest0)) as Hn.
    cbn [Py.truthy]. destruct (Dict.set _ _ _); [congruence|reflexivity]. }
  rewrite Hne'. cbn [Py.truthy negb Py.contains]. unfold Dict.mem.
  rewrite Hnone, get_set_eq. cbn [Py.setitem].
  destruct (bump_total _) as [rest2|]; [|discriminate].
  destruct (match c with VNone => _ | _ => _ end) as [rest3|]; [|discriminate].
  cbn [side_files clock]. rewrite set_set. auto.
Qed.

(** The counters of [track_click] add up: after a series of calls on a
    record that had no [analytics], the record has the total of the number
    of calls, and for every item the number of calls that were on it,
    under the text of its index; the rest of the record is as it was. *)
Theorem track_clicks_count : forall slug c clicks w d rest,
  load_data w = (Ok (VDict d), w) ->
  Dict.get slug d = Some (VDict rest) ->
  rest <> [] ->
  Dict.get "analytics" rest = None ->
  exists d' rest' items,
    data_json (track_clicks slug (c :: clicks) w) = Document (VDict d')
    /\ Dict.get slug d' = Some (VDict rest')
    /\ counters rest' (Z.of_nat (length (c :: clicks))) items
    /\ (forall key, count_of key items = tally key (c :: clicks))
    /\ (forall k, k <> "analytics" -> Dict.get k rest' = Dict.get k rest).
Proof.
  intros slug c clicks w d rest Hload Hslug Hne Hnone.
  set (rest0 := Dict.set "analytics" fresh_counters rest).
  set (d0 := Dict.set slug (VDict rest0) d).
  set (w0 := with_document w d0).
  assert (Hcount0 : counters rest0 0 []).
  { exists [("total", VInt 0); ("items", VDict [])]. repeat split.
    - apply get_set_eq.
    - constructor. }
  assert (Hslug0 : Dict.get slug d0 = Some (VDict rest0)) by apply get_set_eq.
  destruct (track_click_counts slug c w0 d0 rest0 0 [] eq_refl Hslug0 Hcount0)
    as (rest1 & items1 & Hrun & Hcount1 & Htally1 & Hsame1).
  apply (track_click_fresh slug c w d rest _ Hload Hslug Hne Hnone) in Hrun.
  cbn [track_clicks]. rewrite Hrun. cbn [snd].
  destruct (track_clicks_counts slug clicks (with_document w0 (Dict.set slug (VDict rest1) d0))
              (Dict.set slug (VDict rest1) d0) rest1 (0 + 1) items1)
    as (d' & rest' & items & Hdoc & Hslug' & Hcount & Htally & Hrest);
    [reflexivity|apply get_set_eq|assumption|].
  exists d', rest', items. repeat split; auto.
  - replace (Z.of_nat (length (c :: clicks)))
      with (0 + 1 + Z.of_nat (length clicks)) by (simpl length; lia).
    assumption.
  - intros key. rewrite Htally, Htally1, (tally_cons key c clicks).
    change (count_of key []) with 0. lia.
  - intros k Hk. rewrite Hrest, Hsame1 by assumption.
    unfold rest0. apply get_set_ne. congruence.
Qed.

Lemma track_clicks_count_witness :
  exists d' rest' items,
    data_json (track_clicks "cafe" [VInt 0; VNone; VInt 0] (cafe_world 10 true))
    = Document (VDict d')
    /\ Dict.get "cafe" d' = Some (VDict rest')
    /\ counters rest' (Z.of_nat (length [VInt 0; VNone; VInt 0])) items
    /\ (forall key, count_of key items = tally key [VInt 0; VNone; VInt 0])
    /\ (forall k, k <> "analytics" ->
          Dict.get k rest' = Dict.get k (cafe_record 10 true)).
Proof.
  apply (track_clicks_count "cafe" (VInt 0) [VNone; VInt 0] (cafe_world 10 true)
           [("cafe", VDict (cafe_record 10 true))] (cafe_record 10 true));
    try reflexivity.
  discriminate.
Defined.

Section MoreSummaries.
Import Analytics Events EventFacts.

(** ** get_monthly_summary: its errors *)

Lemma month_in_range_iff y m :
  month_in_range y m = true
  <-> 1 <= y <= 9999 /\ 1 <= m <= 12 /\ (y < 9999 \/ m < 12).
Proof.
  unfold month_in_range.
  rewrite !andb_true_iff, negb_true_iff, andb_false_iff, !Z.leb_le, !Z.eqb_neq.
  lia.
Qed.

Lemma c_int_true z : - 2 ^ 31 <= z < 2 ^ 31 -> c_int z = true.
Proof.
  intros H. unfold c_int. apply andb_true_intro.
  split; [apply Z.leb_le|apply Z.ltb_lt]; lia.
Qed.

Lemma first_of_month_inv y m r :
  first_of_month y m = r ->
  match r with
  | Ok d => 1 <= y <= 9999 /\ 1 <= m <= 12 /\ d = mkDatetime y m 1 0 0 0 0
  | Raise e => e = if c_int y && c_int m then ValueError else OverflowError
  end.
Proof.
  unfold first_of_month, MINYEAR, MAXYEAR. intros <-.
  destruct (c_int y && c_int m); cbn [negb]; auto.
  destruct (_ && _) eqn:H; auto.
  rewrite !andb_true_iff, !Z.leb_le in H. repeat split; lia.
Qed.

(** [get_monthly_summary] returns a summary for the years 1 to 9999 and
    the months 1 to 12, December 9999 apart.  For every other year and
    month it raises: [OverflowError] when the year or the month is beyond
    a C [int], [ValueError] otherwise.  Without a year and month it takes
    those of the current time. *)
Theorem get_monthly_summary_range : forall now events slug y m,
  match get_monthly_summary now events slug (Some y) (Some m) with
  | Ok r => month_in_range y m = true /\ s_year r = y /\ s_month r = m
  | Raise e =>
      month_in_range y m = false
      /\ e = if c_int y && c_int m then ValueError else OverflowError
  end
  /\ get_monthly_summary now events slug None None
     = get_monthly_summary now events slug (Some (year now)) (Some (month now)).
Proof.
  intros now events slug y m. split; [|reflexivity].
  unfold get_monthly_summary, rbind.
  pose proof (first_of_month_inv y m _ eq_refl) as Hstart.
  destruct (first_of_month y m) as [start|e] eqn:E0.
  - destruct Hstart as (Hy & Hm & ->).
    destruct (Z.eqb_spec m 12) as [->|Hne].
    + pose proof (first_of_month_inv (y + 1) 1 _ eq_refl) as Hstop.
      destruct (first_of_month (y + 1) 1) as [stop|e] eqn:E.
      * destruct Hstop as (Hy1 & _).
        cbn [s_year s_month]. repeat split. apply month_in_range_iff. lia.
      * rewrite !c_int_true in Hstop by lia. rewrite !c_int_true by lia.
        split; auto.
        destruct (month_in_range y 12) eqn:Hr; auto.
        apply month_in_range_iff in Hr.
        rewrite (first_of_month_ok (y + 1) 1) in E by lia. discriminate.
    + pose proof (first_of_month_inv y (m + 1) _ eq_refl) as Hstop.
      destruct (first_of_month y (m + 1)) as [stop|e] eqn:E.
      * cbn [s_year s_month]. repeat split. apply month_in_range_iff. lia.
      * rewrite (first_of_month_ok y (m + 1)) in E by lia. discriminate.
  - split; auto.
    destruct (month_in_range y m) eqn:Hr; auto.
    apply month_in_range_iff in Hr.
    rewrite (first_of_month_ok y m) in E0 by lia. discriminate.
Qed.

(** ** Recording and summarising *)

Lemma count_rows_app p rows e :
  count_rows p (rows ++ [e]) = count_rows p rows + (if p e then 1 else 0).
Proof.
  unfold count_rows. rewrite List.filter_app, List.length_app. simpl.
  destruct (p e); simpl; lia.
Qed.

Lemma month_in_range_windows y m :
  month_in_range y m = true ->
  exists stop,
    first_of_month y m = Ok (mkDatetime y m 1 0 0 0 0)
    /\ (if m =? 12 then first_of_month (y + 1) 1 else first_of_month y (m + 1))
       = Ok stop.
Proof.
  intros H. apply month_in_range_iff in H.
  destruct (Z.eqb_spec m 12).
  - eexists. split; apply first_of_month_ok; lia.
  - eexists. split; apply first_of_month_ok; lia.
Qed.

(** An event that the database stamps in a month of the range is in the
    window of that month. *)
Lemma stamped_in_window slug etype idx now start stop :
  valid_ts now ->
  first_of_month (year now) (month now) = Ok start ->
  (if month now =? 12 then first_of_month (year now + 1) 1
   else first_of_month (year now) (month now + 1)) = Ok stop ->
  in_window slug etype start stop (mkEvent slug etype idx now) = true.
Proof.
  intros Hv Hstart Hstop.
  rewrite (month_window slug etype (year now) (month now) start stop); auto.
  unfold in_month. cbn [ev_slug ev_type ts].
  now rewrite !String.eqb_refl, !Z.eqb_refl.
Qed.

(** A click that is recorded is counted: when its item index is none or
    a signed 64-bit integer, [record_click] returns and the summary of
    the month that the database stamps it in has one click more; for an
    index beyond that it raises [OverflowError] and the summary has the
    clicks and the top list it had.  Either way the scans are as they
    were.  [record_scan] returns, and the summary has one scan more and
    the same clicks and top list. *)
Theorem recorded_event_is_counted : forall stamp now events slug idx,
  valid_ts stamp ->
  month_in_range (year stamp) (month stamp) = true ->
  exists r r_click r_scan,
    get_monthly_summary now events slug (Some (year stamp)) (Some (month stamp))
    = Ok r
    /\ get_monthly_summary now (after (record_click stamp slug idx) events) slug
         (Some (year stamp)) (Some (month stamp)) = Ok r_click
    /\ get_monthly_summary now (after (record_scan stamp slug) events) slug
         (Some (year stamp)) (Some (month stamp)) = Ok r_scan
    /\ (if fits_integer idx
        then fst (record_click stamp slug idx events) = Ok tt
             /\ clicks r_click = clicks r + 1
        else fst (record_click stamp slug idx events) = Raise OverflowError
             /\ clicks r_click = clicks r /\ top r_click = top r)
    /\ scans r_click = scans r
    /\ fst (record_scan stamp slug events) = Ok tt
    /\ scans r_scan = scans r + 1 /\ clicks r_scan = clicks r
    /\ top r_scan = top r.
Proof.
  intros stamp now events slug idx Hv Hrange.
  destruct (month_in_range_windows _ _ Hrange) as (stop & Hstart & Hstop).
  unfold get_monthly_summary, rbind. rewrite Hstart, Hstop.
  eexists _, _, _. split; [reflexivity|]. split; [reflexivity|].
  split; [reflexivity|]. cbn [scans clicks top].
  assert (Hcs : forall i, in_window slug "click" (mkDatetime (year stamp) (month stamp) 1 0 0 0 0)
                  stop (mkEvent slug "scan" i stamp) = false).
  { intros i. unfold in_window. cbn [ev_slug ev_type].
    rewrite String.eqb_refl. reflexivity. }
  assert (Hsc : forall i, in_window slug "scan" (mkDatetime (year stamp) (month stamp) 1 0 0 0 0)
                  stop (mkEvent slug "click" i stamp) = false).
  { intros i. unfold in_window. cbn [ev_slug ev_type].
    rewrite String.eqb_refl. reflexivity. }
  unfold after, record_click, record_scan, record_event.
  cbn [fits_integer].
  destruct (fits_integer idx); cbn [fst snd];
    rewrite ?count_rows_app, ?List.filter_app, ?Hcs, ?Hsc,
      ?(stamped_in_window slug "scan" None stamp _ _ Hv Hstart Hstop),
      ?(stamped_in_window slug "click" idx stamp _ _ Hv Hstart Hstop);
    cbn [List.filter]; rewrite ?Hcs, ?app_nil_r; repeat split; lia.
Qed.

Lemma recorded_event_is_counted_witness :
  exists r r_click r_scan,
    get_monthly_summary (at_ 2024 3 1 0 0 0) january_events "cafe" (Some 2024) (Some 1)
    = Ok r
    /\ get_monthly_summary (at_ 2024 3 1 0 0 0)
         (after (record_click (at_ 2024 1 5 0 0 0) "cafe" (Some 7)) january_events)
         "cafe" (Some 2024) (Some 1) = Ok r_click
    /\ get_monthly_summary (at_ 2024 3 1 0 0 0)
         (after (record_scan (at_ 2024 1 5 0 0 0) "cafe") january_events) "cafe"
         (Some 2024) (Some 1) = Ok r_scan
    /\ (if fits_integer (Some 7)
        then fst (record_click (at_ 2024 1 5 0 0 0) "cafe" (Some 7) january_events)
             = Ok tt
             /\ clicks r_click = clicks r + 1
        else fst (record_click (at_ 2024 1 5 0 0 0) "cafe" (Some 7) january_events)
             = Raise OverflowError
             /\ clicks r_click = clicks r /\ top r_click = top r)
    /\ scans r_click = scans r
    /\ fst (record_scan (at_ 2024 1 5 0 0 0) "cafe" january_events) = Ok tt
    /\ scans r_scan = scans r + 1 /\ clicks r_scan = clicks r
    /\ top r_scan = top r.
Proof.
  apply (recorded_event_is_counted (at_ 2024 1 5 0 0 0) (at_ 2024 3 1 0 0 0)
           january_events "cafe" (Some 7)).
  - unfold valid_ts. simpl. lia.
  - reflexivity.
Defined.

(** Events of another slug, or stamped in another month, do not show in a
    summary: a call that records one leaves the summary of the slug and
    month as it was. *)
Theorem other_events_are_not_counted :
  forall stamp now events slug other etype idx y m,
    valid_ts stamp ->
    other <> slug \/ year stamp <> y \/ month stamp <> m ->
    get_monthly_summary now (after (record_event stamp other etype idx) events) slug
      (Some y) (Some m)
    = get_monthly_summary now events slug (Some y) (Some m).
Proof.
  intros stamp now events slug other etype idx y m Hv Hother.
  unfold after, record_event.
  destruct (fits_integer idx); cbn [snd]; [|reflexivity].
  unfold get_monthly_summary, rbind.
  destruct (first_of_month y m) as [start|] eqn:Hstart; [|reflexivity].
  destruct (if m =? 12 then _ else _) as [stop|] eqn:Hstop; [|reflexivity].
  assert (Hout : forall ty, in_window slug ty start stop (mkEvent other etype idx stamp)
                             = false).
  { intros ty.
    rewrite (month_window slug ty y m start stop); auto.
    unfold in_month. cbn [ev_slug ev_type ts].
    destruct Hother as [Hs|[Hy|Hm]].
    - destruct (String.eqb_spec other slug); [congruence|reflexivity].
    - destruct (Z.eqb_spec (year stamp) y); [congruence|].
      now rewrite andb_false_r.
    - destruct (Z.eqb_spec (month stamp) m); [congruence|].
      now rewrite andb_false_r. }
  rewrite !count_rows_app, !List.filter_app, !Hout.
  cbn [List.filter]. rewrite Hout, app_nil_r, !Z.add_0_r. reflexivity.
Qed.

Lemma other_events_are_not_counted_witness :
  get_monthly_summary (at_ 2024 3 1 0 0 0)
    (after (record_event (at_ 2024 2 1 0 0 0) "cafe" "click" (Some 0)) january_events)
    "cafe" (Some 2024) (Some 1)
  = get_monthly_summary (at_ 2024 3 1 0 0 0) january_events "cafe" (Some 2024) (Some 1).
Proof.
  apply (other_events_are_not_counted (at_ 2024 2 1 0 0 0)).
  - unfold valid_ts. simpl. lia.
  - right. right. simpl. lia.
Defined.

(** ** The top list and the number of clicks *)

Lemma sum_counts_count_in k groups :
  sum_counts (count_in k groups) = sum_counts groups + 1.
Proof.
  induction groups as [|[k0 c0] groups IH]; simpl; [lia|].
  destruct (index_eqb k k0); simpl; lia.
Qed.

Lemma sum_counts_grouped rows : forall groups,
  sum_counts (grouped rows groups) = sum_counts groups + Z.of_nat (length rows).
Proof.
  induction rows as [|e rows IH]; intros groups; simpl.
  - lia.
  - unfold grouped in *. simpl. rewrite IH, sum_counts_count_in. lia.
Qed.

Lemma sum_counts_perm a b : Permutation a b -> sum_counts a = sum_counts b.
Proof. induction 1; simpl; lia. Qed.

Lemma sum_counts_firstn n l :
  Forall (fun g => 0 < snd g) l -> sum_counts (firstn n l) <= sum_counts l.
Proof.
  intros H. revert n. induction H as [|g l Hg Hl IH]; intros [|n]; simpl; try lia.
  - pose proof (IH 0%nat). simpl in *. clear IH.
    assert (0 <= sum_counts l).
    { clear -Hl. induction Hl; simpl; lia. }
    lia.
  - specialize (IH n). lia.
Qed.

(** The counts of a top list add up to at most the number of rows, and to
    exactly that number when the list is not full. *)
Lemma top_items_sum limit rows :
  sum_counts (top_items limit rows) <= Z.of_nat (length rows)
  /\ ((length (top_items limit rows) < limit)%nat ->
      sum_counts (top_items limit rows) = Z.of_nat (length rows)).
Proof.
  unfold top_items.
  pose proof (order_by_cnt_desc_perm (group_by_index rows)) as Hperm.
  assert (Hsum : sum_counts (order_by_cnt_desc (group_by_index rows))
                 = Z.of_nat (length rows)).
  { rewrite (sum_counts_perm _ _ Hperm).
    change (group_by_index rows) with (grouped rows []).
    rewrite sum_counts_grouped. simpl. lia. }
  assert (Hpos : Forall (fun g => 0 < snd g) (order_by_cnt_desc (group_by_index rows))).
  { destruct (grouped_spec rows []) as (_ & _ & Hp).
    specialize (Hp (List.Forall_nil _)).
    rewrite List.Forall_forall in *. intros g Hg. apply Hp.
    apply (Permutation_in _ Hperm). exact Hg. }
  split.
  - rewrite <- Hsum. now apply sum_counts_firstn.
  - intros Hlen. rewrite length_firstn in Hlen.
    rewrite firstn_all2 by lia. exact Hsum.
Qed.

(** The clicks of the top list of a summary add up to at most the clicks
    of the summary, and to exactly them when the list has fewer than ten
    entries; the same holds of [get_top_items] and its twenty entries and
    the clicks of the slug since the start of its window. *)
Theorem top_items_add_up :
  (forall now events slug year_arg month_arg r,
     get_monthly_summary now events slug year_arg month_arg = Ok r ->
     sum_counts (top r) <= clicks r
     /\ ((length (top r) < 10)%nat -> sum_counts (top r) = clicks r))
  /\ (forall now events slug since_days t,
        get_top_items now events slug since_days = Ok t ->
        exists since,
          minus_days now since_days = Ok since
          /\ sum_counts t <= count_rows (since_window slug since) events
          /\ ((length t < 20)%nat ->
              sum_counts t = count_rows (since_window slug since) events)).
Proof.
  split.
  - intros now events slug year_arg month_arg r H.
    unfold get_monthly_summary, rbind in H.
    destruct (first_of_month _ _) as [start|]; [|discriminate].
    destruct (if _ =? 12 then _ else _) as [stop|]; [|discriminate].
    inversion H; subst r. cbn [top clicks]. apply top_items_sum.
  - intros now events slug since_days t H.
    unfold get_top_items, rbind in H.
    destruct (minus_days now since_days) as [since|]; [|discriminate].
    inversion H; subst t. exists since. split; [reflexivity|].
    apply top_items_sum.
Qed.

Lemma top_items_add_up_witness :
  sum_counts [(Some 1, 3); (Some 0, 2)] <= 5
  /\ ((length [(Some 1, 3); (Some 0, 2)] < 10)%nat ->
      sum_counts [(Some 1, 3); (Some 0, 2)] = 5).
Proof.
  exact (proj1 top_items_add_up (at_ 2024 3 1 0 0 0) january_events "cafe"
           (Some 2024) (Some 1) (mkSummary 2024 1 3 5 [(Some 1, 3); (Some 0, 2)])
           eq_refl).
Defined.

End MoreSummaries.

(** ** app.py: signing up *)

(** A sign-up that is answered 201 stored a record under the slug of the
    request with the configured default theme (or "default" when that is
    not a valid theme), whatever theme the request asked for, while the
    answer names the theme of the request when it gave one. *)
Theorem signup_stores_default_theme : forall default_theme body w answer w',
  signup default_theme body w = (Ok (201, answer), w') ->
  exists slug theme_in name name_ur whatsapp menu,
    Py.get (or_value body (VDict [])) "slug" VNone = Ok (VStr slug)
    /\ Py.get (or_value body (VDict [])) "theme" VNone = Ok theme_in
    /\ answer = VDict [("ok", VBool true); ("slug", VStr slug);
                       ("theme", or_value theme_in (VStr default_theme))]
    /\ get_restaurant slug w'
       = (Ok (VDict (created_record name name_ur whatsapp menu
                       (stored_theme default_theme) (clock w))), w').
Proof.
  intros default_theme body w answer w' H. unfold signup in H.
  apply bind_ok in H as (slug & w1 & Hs & H). apply lift_ok in Hs as (Hslug & ->).
  destruct (Py.truthy slug); [|discriminate]. cbn [negb] in H.
  apply bind_ok in H as (stored & w1 & Hload & H).
  pose proof (load_data_world w) as Hw. rewrite Hload in Hw. simpl in Hw. subst w1.
  apply bind_ok in H as (found & w1 & Hs & H). apply lift_ok in Hs as (_ & ->).
  destruct (Py.truthy found); [discriminate|].
  apply bind_ok in H as (theme_in & w1 & Hs & H). apply lift_ok in Hs as (Htheme & ->).
  apply bind_ok in H as (name & w1 & Hs & H). apply lift_ok in Hs as (_ & ->).
  apply bind_ok in H as (name_ur & w1 & Hs & H). apply lift_ok in Hs as (_ & ->).
  apply bind_ok in H as (whatsapp & w1 & Hs & H). apply lift_ok in Hs as (_ & ->).
  apply bind_ok in H as (menu & w1 & Hs & H). apply lift_ok in Hs as (_ & ->).
  apply bind_ok in H as (success & w1 & Hcreate & H).
  destruct success; [|discriminate]. cbn [negb] in H.
  unfold ret in H. inversion H; subst answer w1. clear H.
  destruct slug as [| | | |s| |]; try discriminate.
  destruct (create_restaurant_true_inv _ _ _ _ _ Hcreate)
    as (d & n & nu & wa & me & _ & _ & _ & _ & _ & ->).
  exists s, theme_in, n, nu, wa, me. repeat split; auto.
  unfold get_restaurant, bind, lift. cbn. now rewrite get_set_eq.
Qed.

Lemma signup_stores_default_theme_witness :
  exists slug theme_in name name_ur whatsapp menu,
    Py.get (or_value (VDict [("slug", VStr "cafe"); ("theme", VStr "traditional")])
              (VDict [])) "slug" VNone = Ok (VStr slug)
    /\ Py.get (or_value (VDict [("slug", VStr "cafe"); ("theme", VStr "traditional")])
                 (VDict [])) "theme" VNone = Ok theme_in
    /\ VDict [("ok", VBool true); ("slug", VStr "cafe"); ("theme", VStr "traditional")]
       = VDict [("ok", VBool true); ("slug", VStr slug);
                ("theme", or_value theme_in (VStr "default"))]
    /\ get_restaurant slug
         (with_document (empty_world 0)
            [("cafe", VDict (created_record "cafe" "" "" [] "default" 0))])
       = (Ok (VDict (created_record name name_ur whatsapp menu
                       (stored_theme "default") (clock (empty_world 0)))),
          with_document (empty_world 0)
            [("cafe", VDict (created_record "cafe" "" "" [] "default" 0))]).
Proof.
  apply (signup_stores_default_theme "default"
           (VDict [("slug", VStr "cafe"); ("theme", VStr "traditional")])
           (empty_world 0)).
  vm_compute. reflexivity.
Defined.

(** A sign-up for a slug that the store has is refused and writes
    nothing: with 400 when the record of the slug is truthy, with 500
    when it is not (an empty record, say). *)
Theorem signup_taken_slug : forall default_theme fields slug w d record,
  Dict.get "slug" fields = Some (VStr slug) ->
  slug <> "" ->
  load_data w = (Ok (VDict d), w) ->
  Dict.get slug d = Some record ->
  signup default_theme (VDict fields) w
  = (Ok (if Py.truthy record
         then (400, VDict [("error", VStr "slug already exists")])
         else (500, VDict [("error", VStr "creation failed")])), w).
Proof.
  intros default_theme fields slug w d record Hslug Hne Hload Hget.
  unfold signup.
  assert (Hbody : or_value (VDict fields) (VDict []) = VDict fields)
    by (unfold or_value; destruct fields; [discriminate|reflexivity]).
  rewrite Hbody. unfold bind, lift, ret. cbn [Py.get]. rewrite Hslug.
  assert (Htruthy : Py.truthy (VStr slug) = true).
  { cbn [Py.truthy]. destruct (String.eqb_spec slug ""); [congruence|reflexivity]. }
  rewrite Htruthy. cbn [negb]. rewrite Hload. cbn [get_by_value]. rewrite Hget.
  destruct (Py.truthy record); [reflexivity|].
  rewrite (create_restaurant_taken slug _ default_theme w d Hload)
    by (unfold Dict.mem; now rewrite Hget).
  reflexivity.
Qed.

Lemma signup_taken_slug_witness :
  signup "default" (VDict [("slug", VStr "cafe"); ("name", VStr "Again")])
    (cafe_world 10 true)
  = (Ok (if Py.truthy (VDict (cafe_record 10 true))
         then (400, VDict [("error", VStr "slug already exists")])
         else (500, VDict [("error", VStr "creation failed")])), cafe_world 10 true).
Proof.
  apply (signup_taken_slug "default" [("slug", VStr "cafe"); ("name", VStr "Again")]
           "cafe" (cafe_world 10 true) [("cafe", VDict (cafe_record 10 true))]);
    try reflexivity.
  discriminate.
Defined.

(** ** app.py: setting the theme *)

(** [api_set_theme] answers 400 for a theme that is neither absent nor
    one of the two themes, and 404 for a request without a theme, for
    every slug, also one that the store has; in both cases nothing is
    written.  For one of the two themes and a slug with a record it
    answers 200 and the record has the theme. *)
Theorem api_set_theme_answers : forall slug body theme w,
  Py.get (or_value body (VDict [])) "theme" VNone = Ok theme ->
  (theme_choice theme = false ->
   api_set_theme slug body w = (Ok (400, VDict [("error", VStr "invalid theme")]), w))
  /\ (theme = VNone ->
      api_set_theme slug body w = (Ok (404, VDict [("error", VStr "not found")]), w))
  /\ (forall s d rest,
        theme = VStr s -> theme_choice theme = true ->
        load_data w = (Ok (VDict d), w) ->
        Dict.get slug d = Some (VDict rest) -> rest <> [] ->
        api_set_theme slug body w
        = (Ok (200, VDict [("ok", VBool true)]),
           with_document w
             (Dict.set slug (VDict (Dict.set "theme" (VStr s) rest)) d))).
Proof.
  intros slug body theme w Hget. unfold api_set_theme, bind, lift, ret.
  rewrite Hget. repeat split.
  - intros Hchoice. now rewrite Hchoice.
  - intros ->. reflexivity.
  - intros s d rest -> Hchoice Hload Hslug Hne. rewrite Hchoice. cbn [negb].
    assert (Hvalid : Py.in_strings s VALID_THEMES = true) by exact Hchoice.
    now rewrite (set_restaurant_theme_ok slug s w d rest Hvalid Hload Hslug Hne).
Qed.

Lemma api_set_theme_answers_witness :
  (theme_choice VNone = false ->
   api_set_theme "cafe" (VDict [("colour", VStr "red")]) (cafe_world 10 true)
   = (Ok (400, VDict [("error", VStr "invalid theme")]), cafe_world 10 true))
  /\ (VNone = VNone ->
      api_set_theme "cafe" (VDict [("colour", VStr "red")]) (cafe_world 10 true)
      = (Ok (404, VDict [("error", VStr "not found")]), cafe_world 10 true))
  /\ (forall s d rest,
        VNone = VStr s -> theme_choice VNone = true ->
        load_data (cafe_world 10 true) = (Ok (VDict d), cafe_world 10 true) ->
        Dict.get "cafe" d = Some (VDict rest) -> rest <> [] ->
        api_set_theme "cafe" (VDict [("colour", VStr "red")]) (cafe_world 10 true)
        = (Ok (200, VDict [("ok", VBool true)]),
           with_document (cafe_world 10 true)
             (Dict.set "cafe" (VDict (Dict.set "theme" (VStr s) rest)) d))).
Proof.
  exact (api_set_theme_answers "cafe" (VDict [("colour", VStr "red")]) VNone
           (cafe_world 10 true) eq_refl).
Defined.

(** ** app.py: the handlers write only when they answer success *)

Lemma answers_of_commits code body other (m : M bool) :
  commits m ->
  answers_or_quiet code
    (bind m (fun success => if negb success then ret other else ret (code, body))).
Proof.
  intros Hm w. unfold bind, ret. specialize (Hm w).
  destruct (m w) as [[[|]|e] w1]; simpl in *; eauto;
    destruct Hm as [Hm|Hm]; auto; discriminate.
Qed.

Lemma answers_bind {A} code (m : M A) (k : A -> M response) :
  quiet m -> (forall a, answers_or_quiet code (k a)) ->
  answers_or_quiet code (bind m k).
Proof.
  intros Hm Hk w. unfold bind. specialize (Hm w).
  destruct (m w) as [[a|e] w1]; simpl in *; subst; auto. apply Hk.
Qed.

Lemma answers_quiet code (m : M response) : quiet m -> answers_or_quiet code m.
Proof. intros H w. left. apply H. Qed.

(** The three handlers that write the document change the world only in
    a request that they answer with success: [signup] with 201,
    [api_set_theme] and [api_update_item] with 200. *)
Theorem handlers_write_only_on_success : forall w,
  (forall default_theme body,
     snd (signup default_theme body w) = w
     \/ exists answer, fst (signup default_theme body w) = Ok (201, answer))
  /\ (forall slug body,
        snd (api_set_theme slug body w) = w
        \/ exists answer, fst (api_set_theme slug body w) = Ok (200, answer))
  /\ (forall slug index body,
        snd (api_update_item slug index body w) = w
        \/ fst (api_update_item slug index body w) = Ok 200).
Proof.
  intros w. repeat split.
  - intros default_theme body. revert w.
    change (answers_or_quiet 201 (signup default_theme body)).
    unfold signup.
    apply answers_bind; [apply quiet_lift|intros slug].
    destruct (negb (Py.truthy slug)); [apply answers_quiet, quiet_ret|].
    apply answers_bind; [apply quiet_load_data|intros stored].
    apply answers_bind; [apply quiet_lift|intros found].
    destruct (Py.truthy found); [apply answers_quiet, quiet_ret|].
    do 5 (apply answers_bind; [apply quiet_lift|intros ?]).
    apply answers_of_commits.
    destruct slug; try (apply quiet_commits, quiet_raise).
    apply create_restaurant_commits.
  - intros slug body. revert w.
    change (answers_or_quiet 200 (api_set_theme slug body)).
    unfold api_set_theme.
    apply answers_bind; [apply quiet_lift|intros theme].
    destruct (negb (theme_choice theme)); [apply answers_quiet, quiet_ret|].
    apply answers_of_commits, set_restaurant_theme_commits.
  - intros slug index body. unfold api_update_item, bind, lift, ret.
    destruct (Py.items _) as [entries|e]; [|now left].
    destruct (update_menu_item_commits slug (VInt index)
                (VDict (request_fields entries)) w) as [Hq|Hok].
    + left. destruct (update_menu_item _ _ _ w) as [[b|e] w1]; exact Hq.
    + right. destruct (update_menu_item _ _ _ w) as [[b|e] w1];
        simpl in *; inversion Hok. reflexivity.
Qed.

(** ** app.py: the names in the analytics report *)

(** The name that the report gives an entry of the top list: "General"
    for the clicks on no item, the name of the menu item for an index of
    the menu, "Item" and the index for an index beyond the menu; an index
    below 0 is counted from the end of the menu. *)
Theorem item_label_names : forall fields items,
  Dict.get "menu" fields = Some (VList items) ->
  item_label (VDict fields) None = VStr "General"
  /\ (forall i item name,
        0 <= i -> items !! Z.to_nat i = Some (VDict item) ->
        Dict.get "name" item = Some name ->
        item_label (VDict fields) (Some i) = name)
  /\ (forall i, Z.of_nat (length items) <= i ->
        item_label (VDict fields) (Some i) = VStr ("Item " ++ Text.of_Z i))
  /\ (forall i item name,
        - Z.of_nat (length items) <= i < 0 ->
        items !! Z.to_nat (Z.of_nat (length items) + i) = Some (VDict item) ->
        Dict.get "name" item = Some name ->
        item_label (VDict fields) (Some i) = name).
Proof.
  intros fields items Hmenu. repeat split.
  - intros i item name Hi Hitem Hname.
    pose proof (lookup_lt_Some _ _ _ Hitem) as Hlt.
    unfold item_label, rbind, index_any. cbn [Py.getitem]. rewrite Hmenu.
    cbn [Py.len].
    destruct (Z.leb_spec 0 i); [|lia].
    destruct (Z.ltb_spec i (Z.of_nat (length items))); [|lia].
    cbn [andb Py.getindex]. rewrite Hitem. cbn [Py.getitem]. now rewrite Hname.
  - intros i Hi.
    unfold item_label, rbind, index_any. cbn [Py.getitem]. rewrite Hmenu.
    cbn [Py.len].
    destruct (Z.leb_spec 0 i); [|lia].
    destruct (Z.ltb_spec i (Z.of_nat (length items))); [lia|].
    cbn [andb].
    destruct (Z.ltb_spec i 0); [lia|]. rewrite andb_false_r. reflexivity.
  - intros i item name Hi Hitem Hname.
    unfold item_label, rbind, index_any. cbn [Py.getitem]. rewrite Hmenu.
    cbn [Py.len].
    destruct (Z.leb_spec 0 i); [lia|]. cbn [andb].
    destruct (Z.leb_spec (- Z.of_nat (length items)) i); [|lia].
    destruct (Z.ltb_spec i 0); [|lia].
    cbn [andb Py.getindex]. rewrite Hitem. cbn [Py.getitem]. now rewrite Hname.
Qed.

Lemma item_label_names_witness :
  item_label (VDict (cafe_record 10 true)) None = VStr "General"
  /\ (forall i item name,
        0 <= i -> [VDict (tea_item 10 true)] !! Z.to_nat i = Some (VDict item) ->
        Dict.get "name" item = Some name ->
        item_label (VDict (cafe_record 10 true)) (Some i) = name)
  /\ (forall i, Z.of_nat (length [VDict (tea_item 10 true)]) <= i ->
        item_label (VDict (cafe_record 10 true)) (Some i)
        = VStr ("Item " ++ Text.of_Z i))
  /\ (forall i item name,
        - Z.of_nat (length [VDict (tea_item 10 true)]) <= i < 0 ->
        [VDict (tea_item 10 true)]
          !! Z.to_nat (Z.of_nat (length [VDict (tea_item 10 true)]) + i)
        = Some (VDict item) ->
        Dict.get "name" item = Some name ->
        item_label (VDict (cafe_record 10 true)) (Some i) = name).
Proof.
  exact (item_label_names (cafe_record 10 true) [VDict (tea_item 10 true)] eq_refl).
Defined.

(** ** QRD.py: the files of the QR codes *)

Lemma remove_set_absent {V} k (v : V) d :
  Dict.get k d = None -> dict_remove k (Dict.set k v d) = d.
Proof.
  induction d as [|[k0 v0] d IH]; simpl.
  - intros _. now rewrite String.eqb_refl.
  - destruct (String.eqb_spec k k0) as [->|Hne]; [discriminate|].
    intros H. simpl. destruct (String.eqb_spec k k0); [congruence|].
    now rewrite IH.
Qed.

Lemma remove_absent {V} k (d : list (string * V)) :
  Dict.get k d = None -> dict_remove k d = d.
Proof.
  induction d as [|[k0 v0] d IH]; simpl; auto.
  destruct (String.eqb_spec k k0) as [->|Hne]; [discriminate|].
  intros H. now rewrite IH.
Qed.

Lemma append_assoc (a b c : string) : ((a ++ b) ++ c = a ++ (b ++ c))%string.
Proof. induction a as [|x a IH]; simpl; [reflexivity|now rewrite IH]. Qed.

(** Table number 0 is taken as no table: its code is the file of the
    restaurant itself.  And the file of table [n] of a slug is the file
    of the restaurant whose slug is that slug followed by "-table-" and
    [n]: a code generated for that restaurant replaces the code of the
    table, which then leads to the other restaurant's menu. *)
Theorem qr_files_are_shared : forall base_url slug dir,
  QRD.generate_qr base_url slug (Some 0) dir = QRD.generate_qr base_url slug None dir
  /\ forall n, n <> 0 ->
       let other := (slug ++ "-table-" ++ Text.of_Z n)%string in
       let dir1 := fst (QRD.generate_qr base_url slug (Some n) dir) in
       let dir2 := fst (QRD.generate_qr base_url other None dir1) in
       Dict.get (QRD.filename slug (Some n)) dir1
       = Some (base_url ++ "/" ++ slug ++ "?table=" ++ Text.of_Z n)%string
       /\ snd (QRD.generate_qr base_url other None dir1)
          = snd (QRD.generate_qr base_url slug (Some n) dir)
       /\ Dict.get (QRD.filename slug (Some n)) dir2
          = Some (base_url ++ "/" ++ other)%string.
Proof.
  intros base_url slug dir. split; [reflexivity|].
  intros n Hn other dir1 dir2.
  assert (Hname : QRD.filename other None = QRD.filename slug (Some n)).
  { unfold QRD.filename, QRD.has_table, QRD.table_text, other.
    destruct (Z.eqb_spec n 0); [contradiction|]. cbn [negb].
    now rewrite !append_assoc. }
  assert (Hurl : QRD.url base_url slug (Some n)
                 = (base_url ++ "/" ++ slug ++ "?table=" ++ Text.of_Z n)%string).
  { unfold QRD.url, QRD.has_table, QRD.table_text.
    destruct (Z.eqb_spec n 0); [contradiction|]. reflexivity. }
  repeat split.
  - unfold dir1, QRD.generate_qr. cbn [fst]. rewrite get_set_eq. now rewrite Hurl.
  - unfold QRD.generate_qr. cbn [snd]. now rewrite Hname.
  - unfold dir2, QRD.generate_qr. cbn [fst]. rewrite Hname. now rewrite get_set_eq.
Qed.

(** [generate_qr] returns the path "qr/" and the file name and leaves the
    other files as they are; [delete_qr] of a file that is not there
    changes nothing, and after [generate_qr] it gives back the directory
    that lacked the file. *)
Theorem delete_qr_undoes_generate_qr : forall base_url slug table dir,
  Dict.get (QRD.filename slug table) dir = None ->
  QRD.delete_qr slug table dir = dir
  /\ snd (QRD.generate_qr base_url slug table dir)
     = ("qr/" ++ QRD.filename slug table)%string
  /\ Dict.get (QRD.filename slug table) (fst (QRD.generate_qr base_url slug table dir))
     = Some (QRD.url base_url slug table)
  /\ (forall name, name <> QRD.filename slug table ->
        Dict.get name (fst (QRD.generate_qr base_url slug table dir))
        = Dict.get name dir)
  /\ QRD.delete_qr slug table (fst (QRD.generate_qr base_url slug table dir)) = dir.
Proof.
  intros base_url slug table dir Habsent. unfold QRD.delete_qr, QRD.generate_qr.
  cbn [fst snd]. repeat split.
  - now apply remove_absent.
  - apply get_set_eq.
  - intros name Hne. apply get_set_ne. congruence.
  - now apply remove_set_absent.
Qed.

Lemma delete_qr_undoes_generate_qr_witness :
  QRD.delete_qr "cafe" (Some 3) [("cafe.png", "http://localhost:5000/cafe")]
  = [("cafe.png", "http://localhost:5000/cafe")]
  /\ snd (QRD.generate_qr "http://localhost:5000" "cafe" (Some 3)
            [("cafe.png", "http://localhost:5000/cafe")])
     = ("qr/" ++ QRD.filename "cafe" (Some 3))%string
  /\ Dict.get (QRD.filename "cafe" (Some 3))
       (fst (QRD.generate_qr "http://localhost:5000" "cafe" (Some 3)
               [("cafe.png", "http://localhost:5000/cafe")]))
     = Some (QRD.url "http://localhost:5000" "cafe" (Some 3))
  /\ (forall name, name <> QRD.filename "cafe" (Some 3) ->
        Dict.get name
          (fst (QRD.generate_qr "http://localhost:5000" "cafe" (Some 3)
                  [("cafe.png", "http://localhost:5000/cafe")]))
        = Dict.get name [("cafe.png", "http://localhost:5000/cafe")])
  /\ QRD.delete_qr "cafe" (Some 3)
       (fst (QRD.generate_qr "http://localhost:5000" "cafe" (Some 3)
               [("cafe.png", "http://localhost:5000/cafe")]))
     = [("cafe.png", "http://localhost:5000/cafe")].
Proof.
  apply (delete_qr_undoes_generate_qr "http://localhost:5000" "cafe" (Some 3)
           [("cafe.png", "http://localhost:5000/cafe")]).
  reflexivity.
Defined.
